(** * Cover downloader: the download-and-normalize pipeline

    A shallow embedding of the two variants of the pipeline,

    - the basic one, [app.py] (module [Basic]), and
    - the enhanced one, [pages/1_pobieranie_okladek.py] (module [Pro]),

    together with the Python built-ins they rely on (module [Py]).

    What lies outside the repository (the HTTP client, the imaging library,
    URL parsing, the text form of floats) is gathered in the record
    [Platform]; every function of the pipeline takes it as a parameter, so
    the theorems hold whatever the network answers and whatever the imaging
    library returns. The module [Demo] gives one such platform, on which
    the pipeline can be run.

    The user interface (progress bar, status line, expander) is left out.
    What the program does to the outside world is kept as a trace of
    events: the requests it sends and the pauses it takes. *)

From stdpp Require Import gmap list pretty.
From Stdlib Require Import Ascii QArith Qpower.

Set Warnings "-clear-no-such-hyp".

Open Scope Z_scope.

(** ** Python built-ins *)

Module Py.

(** *** str

    A [str] is the sequence of its characters, and a character is a
    Unicode code point. A literal between double quotes stands for the
    text it shows: the file is read as UTF-8. *)

Definition char : Type := N.

Inductive str : Type :=
| EmptyString
| String (c : char) (s : str).

(** [ord(c)] of an ASCII character. *)
Definition ord (a : ascii) : char := N_of_ascii a.

Definition char_eqb (a b : char) : bool := N.eqb a b.

(** The characters the code names: [' '], ['\n'], ['-'], ['.'] and ['/']. *)
Abbreviation space := 32%N (only parsing).
Abbreviation newline := 10%N (only parsing).
Abbreviation minus := 45%N (only parsing).
Abbreviation dot := 46%N (only parsing).
Abbreviation slash := 47%N (only parsing).

(** [a == b] *)
Fixpoint str_eqb (a b : str) : bool :=
  match a, b with
  | EmptyString, EmptyString => true
  | String x a', String y b' => char_eqb x y && str_eqb a' b'
  | _, _ => false
  end.

(** [a + b] *)
Fixpoint append (a b : str) : str :=
  match a with
  | String c a' => String c (append a' b)
  | EmptyString => b
  end.

Fixpoint of_chars (l : list char) : str :=
  match l with
  | c :: l' => String c (of_chars l')
  | [] => EmptyString
  end.

Fixpoint chars (s : str) : list char :=
  match s with
  | String c s' => c :: chars s'
  | EmptyString => []
  end.

(** The text of a string of ASCII characters, such as the digits of a number. *)
Fixpoint of_ascii (s : String.string) : str :=
  match s with
  | String.String a s' => String (ord a) (of_ascii s')
  | String.EmptyString => EmptyString
  end.

(** The low six bits of a continuation byte. *)
Definition continuation (b : Byte.byte) : N := N.land (Byte.to_N b) 63.

(** The code points of a literal, from its UTF-8 bytes. *)
Fixpoint utf8_decode (fuel : nat) (l : list Byte.byte) : list char :=
  match fuel with
  | O => []
  | S fuel' =>
      match l with
      | [] => []
      | b :: l1 =>
          let n := Byte.to_N b in
          if (n <? 128)%N then n :: utf8_decode fuel' l1
          else if (n <? 224)%N then
            match l1 with
            | b1 :: l2 =>
                (N.land n 31 * 64 + continuation b1)%N :: utf8_decode fuel' l2
            | _ => [n]
            end
          else if (n <? 240)%N then
            match l1 with
            | b1 :: b2 :: l3 =>
                (N.land n 15 * 4096 + continuation b1 * 64 + continuation b2)%N
                :: utf8_decode fuel' l3
            | _ => [n]
            end
          else
            match l1 with
            | b1 :: b2 :: b3 :: l4 =>
                (N.land n 7 * 262144 + continuation b1 * 4096
                 + continuation b2 * 64 + continuation b3)%N
                :: utf8_decode fuel' l4
            | _ => [n]
            end
      end
  end.

Definition byte_of_N (n : N) : Byte.byte :=
  match Byte.of_N n with Some b => b | None => Byte.x00 end.

Definition utf8_encode (c : char) : list Byte.byte :=
  if (c <? 128)%N then [byte_of_N c]
  else if (c <? 2048)%N then
    [byte_of_N (192 + c / 64); byte_of_N (128 + c mod 64)]%N
  else if (c <? 65536)%N then
    [byte_of_N (224 + c / 4096); byte_of_N (128 + (c / 64) mod 64);
     byte_of_N (128 + c mod 64)]%N
  else
    [byte_of_N (240 + c / 262144); byte_of_N (128 + (c / 4096) mod 64);
     byte_of_N (128 + (c / 64) mod 64); byte_of_N (128 + c mod 64)]%N.

Definition str_of_literal (l : list Byte.byte) : str :=
  of_chars (utf8_decode (length l) l).

Definition literal_of_str (s : str) : list Byte.byte :=
  concat (map utf8_encode (chars s)).

Declare Scope str_scope.
Delimit Scope str_scope with str.
Bind Scope str_scope with str.
String Notation str str_of_literal literal_of_str : str_scope.
Infix "++" := append : str_scope.
Open Scope str_scope.

#[global] Instance str_eq_dec : EqDecision str.
Proof. solve_decision. Defined.

#[global] Instance str_countable : Countable str.
Proof.
  apply (inj_countable' chars of_chars).
  induction x as [|c s IH]; simpl; congruence.
Defined.

(** [c.isspace()], which is also the white space that [strip] removes:
    U+0009 to U+000D, U+001C to U+0020, U+0085, U+00A0, U+1680, U+2000 to
    U+200A, U+2028, U+2029, U+202F, U+205F and U+3000. *)
Definition isspace (c : char) : bool :=
  (((9 <=? c) && (c <=? 13)) || ((28 <=? c) && (c <=? 32))
   || (c =? 133) || (c =? 160) || (c =? 5760)
   || ((8192 <=? c) && (c <=? 8202))
   || (c =? 8232) || (c =? 8233) || (c =? 8239) || (c =? 8287)
   || (c =? 12288))%N.

(** An ASCII digit. *)
Definition isdigit (c : char) : bool :=
  ((48 <=? c) && (c <=? 57))%N.

(** Exceptions: the classes the code tells apart, and the message that
    [str(e)] gives. *)
Inductive exc_class :=
| ValueError | OverflowError | TypeError | RequestException | OSError | Exception_.

Record exception := Exc { exc_kind : exc_class; exc_msg : str }.

Inductive exn (A : Type) :=
| Ok (a : A)
| Raise (e : exception).
Arguments Ok {A} a.
Arguments Raise {A} e.

Definition is_Ok {A} (r : exn A) : bool :=
  match r with Ok _ => true | Raise _ => false end.

Definition exc_class_eqb (a b : exc_class) : bool :=
  match a, b with
  | ValueError, ValueError | OverflowError, OverflowError
  | TypeError, TypeError
  | RequestException, RequestException | OSError, OSError
  | Exception_, Exception_ => true
  | _, _ => false
  end.

(** [try: body except Exception as e: handler(e)] for code without state. *)
Definition try_except {A} (body : exn A) (handler : exception -> exn A) : exn A :=
  match body with
  | Ok a => Ok a
  | Raise e => handler e
  end.

(** [try: body except (C1, C2, ...): handler]: an exception of another
    class goes on to the caller. *)
Definition try_except_only {A} (classes : list exc_class)
    (body : exn A) (handler : exception -> exn A) : exn A :=
  try_except body
    (fun e => if existsb (exc_class_eqb (exc_kind e)) classes
              then handler e else Raise e).

Definition bytes := list Byte.byte.

(** [a == b] on bytes *)
Fixpoint bytes_eqb (a b : bytes) : bool :=
  match a, b with
  | [], [] => true
  | x :: a', y :: b' => Byte.eqb x y && bytes_eqb a' b'
  | _, _ => false
  end.

Fixpoint lstrip (s : str) : str :=
  match s with
  | String c s' => if isspace c then lstrip s' else s
  | EmptyString => EmptyString
  end.

Fixpoint rstrip (s : str) : str :=
  match s with
  | String c s' =>
      match rstrip s' with
      | EmptyString => if isspace c then EmptyString else String c EmptyString
      | r => String c r
      end
  | EmptyString => EmptyString
  end.

(** [s.strip()] *)
Definition strip (s : str) : str := rstrip (lstrip s).

(** [s.replace(' ', '')] *)
Fixpoint remove_spaces (s : str) : str :=
  match s with
  | String c s' =>
      if char_eqb c space then remove_spaces s' else String c (remove_spaces s')
  | EmptyString => EmptyString
  end.

(** [s.split('\n')] *)
Fixpoint split_lines (s : str) : list str :=
  match s with
  | String c s' =>
      if char_eqb c newline then EmptyString :: split_lines s'
      else match split_lines s' with
           | h :: t => String c h :: t
           | [] => [String c EmptyString]
           end
  | EmptyString => [EmptyString]
  end.

(** [s.startswith(sub)] *)
Fixpoint startswith (sub s : str) : bool :=
  match sub, s with
  | EmptyString, _ => true
  | String a sub', String b s' => char_eqb a b && startswith sub' s'
  | String _ _, EmptyString => false
  end.

(** [sub in s] *)
Fixpoint contains (sub s : str) : bool :=
  startswith sub s ||
  match s with
  | String _ s' => contains sub s'
  | EmptyString => false
  end.

(** Truthiness of a string: [if s:]. *)
Definition nonempty (s : str) : bool :=
  match s with EmptyString => false | _ => true end.

(** *** float and int *)

(** A float is a dyadic number [m * 2^e], an infinity or a NaN. *)
Inductive pyfloat :=
| Finite (m e : Z)
| Inf (negative : bool)
| NaN.

Definition float_value (f : pyfloat) : option Q :=
  match f with
  | Finite m e => Some (inject_Z m * Qpower (2 # 1) e)%Q
  | _ => None
  end.

(** [float(z)] of an integer: exact up to 53 bits, rounded to the nearest
    double (ties to even) above, [OverflowError] from [2^1024] on. *)
Definition float_of_int (z : Z) : exn pyfloat :=
  let a := Z.abs z in
  let k := Z.log2 a + 1 - 53 in
  if k <=? 0 then Ok (Finite z 0)
  else
    let q := Z.shiftr a k in
    let r := a - Z.shiftl q k in
    let half := Z.shiftl 1 (k - 1) in
    let q' := if (half <? r) || ((r =? half) && Z.odd q) then q + 1 else q in
    if 2 ^ 1024 <=? q' * 2 ^ k
    then Raise (Exc OverflowError "int too large to convert to float")
    else Ok (Finite (Z.sgn z * q') k).

(** [int(f)]: truncation towards zero. *)
Definition int_of_float (f : pyfloat) : exn Z :=
  match f with
  | Finite m e => Ok (if 0 <=? e then m * 2 ^ e else Z.quot m (2 ^ (- e)))
  | Inf _ => Raise (Exc OverflowError "cannot convert float infinity to integer")
  | NaN => Raise (Exc ValueError "cannot convert float NaN to integer")
  end.

(** [str(z)] of an integer. *)
Definition str_of_int (z : Z) : str := of_ascii (pretty z).

(** *** dict, as the ordered list of its items *)

Section Dict.
Context {V : Type}.

Definition dict := list (str * V).

Fixpoint dict_get (k : str) (d : dict) : option V :=
  match d with
  | (k', v) :: d' => if str_eqb k k' then Some v else dict_get k d'
  | [] => None
  end.

(** [k in d] *)
Definition dict_mem (k : str) (d : dict) : bool :=
  match dict_get k d with Some _ => true | None => false end.

(** [d[k] = v]: the value of an existing key is replaced where it stands,
    a new key goes to the end. *)
Fixpoint dict_set (k : str) (v : V) (d : dict) : dict :=
  match d with
  | (k', v') :: d' =>
      if str_eqb k k' then (k', v) :: d' else (k', v') :: dict_set k v d'
  | [] => [(k, v)]
  end.

Definition dict_keys (d : dict) : list str := d.*1.
End Dict.
Arguments dict V : clear implicits.

End Py.
Import Py.
Open Scope str_scope.


(** ** Sequencing, state and exceptions

    A statement of the program is a function from the state before it to
    its result, a value or a raised exception, and the state after it: what
    was changed before an exception is raised stays changed. *)

Module Eff.

Definition M (S A : Type) : Type := S -> exn A * S.

Definition ret {S A} (a : A) : M S A := fun s => (Ok a, s).

Definition bind {S A B} (m : M S A) (k : A -> M S B) : M S B :=
  fun s => match m s with
           | (Ok a, s') => k a s'
           | (Raise e, s') => (Raise e, s')
           end.

Definition raise {S A} (e : exception) : M S A := fun s => (Raise e, s).

Definition lift {S A} (r : exn A) : M S A := fun s => (r, s).

Definition modify {S} (f : S -> S) : M S unit := fun s => (Ok tt, f s).

Definition gets {S A} (f : S -> A) : M S A := fun s => (Ok (f s), s).

(** [try: body except Exception as e: handler(e)] *)
Definition try_catch {S A} (body : M S A) (handler : exception -> M S A) : M S A :=
  fun s => match body s with
           | (Ok a, s') => (Ok a, s')
           | (Raise e, s') => handler e s'
           end.

(** [try: body except (C1, C2, ...) as e: handler(e)]: an exception of
    another class goes on to the caller. *)
Definition try_catch_only {S A} (classes : list exc_class)
    (body : M S A) (handler : exception -> M S A) : M S A :=
  try_catch body
    (fun e => if existsb (exc_class_eqb (exc_kind e)) classes
              then handler e else raise e).

(** Sequencing of computations that have no state. *)
Definition and_then {A B} (r : exn A) (k : A -> exn B) : exn B :=
  match r with
  | Ok a => k a
  | Raise e => Raise e
  end.

End Eff.
Import Eff.

Declare Scope eff_scope.
Delimit Scope eff_scope with eff.
Notation "x <- m ;; k" := (bind m (fun x => k))
  (at level 100, m at next level, right associativity) : eff_scope.
Notation "m ;; k" := (bind m (fun _ => k))
  (at level 100, right associativity) : eff_scope.
Notation "x <-? r ;; k" := (and_then r (fun x => k))
  (at level 100, r at next level, right associativity) : eff_scope.
Open Scope eff_scope.

(** ** The spreadsheet, the outside world and what a run leaves behind *)

(** A cell of the table read by [pd.read_excel]: a number, a truth value, a
    text, or an object of another type, such as the [Timestamp] of a date
    cell or a [datetime.time], given by the name of its type and by its
    [str()]. An empty cell is the float NaN, or [NaT] in a column of dates. *)
Inductive cell :=
| CInt (z : Z)
| CFloat (f : pyfloat)
| CBool (b : bool)
| CText (s : str)
| CObject (type_name text : str)
| CNaT.

Record row := Row { row_ean : cell; row_link : cell }.

(** [pd.isna(c)] *)
Definition isna (c : cell) : bool :=
  match c with
  | CFloat NaN | CNaT => true
  | _ => false
  end.

(** What happens outside the program, in the order it happens: requests
    sent and pauses taken ([time.sleep], in seconds). *)
Inductive event :=
| EvGet (url : str)
| EvSleep (seconds : Q).

Definition is_get (ev : event) : bool :=
  match ev with EvGet _ => true | EvSleep _ => false end.

Definition requests_made (t : list event) : nat := length (filter is_get t).

(** What [k] attempts on a link leave in the outside world: the requests,
    and a pause of two seconds between them. *)
Fixpoint fetch_trace (url : str) (k : nat) : list event :=
  match k with
  | O => []
  | S k' =>
      EvGet url :: match k' with
                   | O => []
                   | S _ => EvSleep (2 # 1) :: fetch_trace url k'
                   end
  end.

(** The libraries and the network. *)
Record Platform := {
  (** [float(s)] of a text; [None] stands for its [ValueError] *)
  float_of_str : str -> option pyfloat;
  (** [str(f)] of a float *)
  str_of_float : pyfloat -> str;
  (** [os.path.splitext(urlparse(s).path)[1].lower()] *)
  link_extension : str -> exn str;
  (** [s.lower()] *)
  str_lower : str -> str;
  (** [requests.get(url, ...)], [raise_for_status()] and [.content], for the
      request sent after [n] earlier ones *)
  http_get : nat -> str -> exn bytes;
  (** a decoded image of the imaging library *)
  image : Type;
  (** [Image.open(io.BytesIO(b))] *)
  Image_open : bytes -> exn image;
  (** [image.mode] *)
  image_mode : image -> str;
  (** [image.format] *)
  image_format : image -> option str;
  (** ['transparency' in image.info] *)
  info_transparency : image -> bool;
  (** [image.split()[-1].getextrema()] *)
  alpha_extrema : image -> exn (Z * Z);
  (** [image.convert(mode)] *)
  image_convert : str -> image -> exn image;
  (** [Image.new(mode, image.size, white)] and [paste(image, mask=...)] on it,
      the mask being the last band of the image or [None] *)
  paste_on_white : str -> image -> bool -> exn image;
  (** [image.save(output, format=..., quality=..., optimize=True)] and
      [output.getvalue()] *)
  image_save : str -> option Z -> image -> exn bytes;
  (** [open(path, 'wb')]: the exception raised, if any; when there is none
      the file exists and is empty *)
  open_error : str -> option exception;
  (** [f.write(data)] and the closing of the file: the exception raised, if
      any, and what the file holds then *)
  write_error : str -> bytes -> option (exception * bytes)
}.

Inductive outcome :=
| Empty | FilteredOut | UnsupportedFormat | Failed | DuplicateSkipped | Added.

#[global] Instance outcome_eq_dec : EqDecision outcome.
Proof. solve_decision. Defined.

Definition ALLOWED_FORMATS : list str :=
  [".jpg"; ".jpeg"; ".png"; ".gif"; ".webp"; ".bmp"].
Definition DEFAULT_FORMAT : str := ".jpg".

Definition str_in (s : str) (l : list str) : bool := existsb (str_eqb s) l.

Section Cells.
Context (P : Platform).

(** [str(c)] *)
Definition cell_str (c : cell) : str :=
  match c with
  | CInt z => str_of_int z
  | CFloat f => str_of_float P f
  | CBool b => if b then "True" else "False"
  | CText s => s
  | CObject _ text => text
  | CNaT => "NaT"
  end.

(** The [TypeError] of [float()] on an object that is neither a number nor
    a text. *)
Definition float_type_error (type_name : str) : exception :=
  Exc TypeError
    ("float() argument must be a string or a real number, not '"
     ++ type_name ++ "'").

(** [float(c)] accepts the cell: it is a number, a truth value or a text. *)
Definition float_accepts (c : cell) : bool :=
  match c with
  | CObject _ _ | CNaT => false
  | _ => true
  end.

(** [float(c)] *)
Definition cell_float (c : cell) : exn pyfloat :=
  match c with
  | CInt z => float_of_int z
  | CFloat f => Ok f
  | CBool b => Ok (Finite (if b then 1 else 0) 0)
  | CText s =>
      match float_of_str P s with
      | Some f => Ok f
      | None => Raise (Exc ValueError ("could not convert string to float: " ++ s))
      end
  | CObject type_name _ => Raise (float_type_error type_name)
  | CNaT => Raise (float_type_error "NaTType")
  end.

(** [str(int(float(c)))] *)
Definition str_int_float (c : cell) : exn str :=
  f <-? cell_float c ;;
  z <-? int_of_float f ;;
  Ok (str_of_int z).

(** The format resolver of both variants:
    [if not extension or extension not in ALLOWED_FORMATS: extension = DEFAULT_FORMAT] *)
Definition resolve_extension (extension : str) : str :=
  if negb (nonempty extension) || negb (str_in extension ALLOWED_FORMATS)
  then DEFAULT_FORMAT else extension.

(** [requests.get] with [raise_for_status] and [.content] *)
Definition request (url : str) : M (list event) bytes :=
  fun t => (http_get P (requests_made t) url, (t ++ [EvGet url])%list).

(** [time.sleep(seconds)] *)
Definition sleep (seconds : Q) : M (list event) unit :=
  modify (fun t => (t ++ [EvSleep seconds])%list).

(** The message logged for a row that failed:
    [f"EAN: {ean} | Błąd: {str(e)}"] *)
Definition error_record (ean : str) (e : exception) : str :=
  "EAN: " ++ ean ++ " | Błąd: " ++ exc_msg e.

End Cells.

(** ** The enhanced variant: pages/1_pobieranie_okladek.py *)

Module Pro.

(** The counters of the dictionary [stats]. *)
Record stats := Stats {
  sukces : nat;
  blad : nat;
  istnieje : nat;
  konwersje : nat;
  transparency_fixed : nat;
  nieznalezione_ean : nat;
  pdf_pominiete : nat;
  puste_wiersze : nat
}.

Inductive counter :=
| Sukces | Blad | Istnieje | Konwersje | TransparencyFixed
| NieznalezioneEan | PdfPominiete | PusteWiersze.

Definition count (c : counter) (s : stats) : nat :=
  match c with
  | Sukces => sukces s
  | Blad => blad s
  | Istnieje => istnieje s
  | Konwersje => konwersje s
  | TransparencyFixed => transparency_fixed s
  | NieznalezioneEan => nieznalezione_ean s
  | PdfPominiete => pdf_pominiete s
  | PusteWiersze => puste_wiersze s
  end.

(** [stats[c] += 1] *)
Definition incr (c : counter) (s : stats) : stats :=
  let '(Stats su bl ist ko tf ni pd pu) := s in
  match c with
  | Sukces => Stats (S su) bl ist ko tf ni pd pu
  | Blad => Stats su (S bl) ist ko tf ni pd pu
  | Istnieje => Stats su bl (S ist) ko tf ni pd pu
  | Konwersje => Stats su bl ist (S ko) tf ni pd pu
  | TransparencyFixed => Stats su bl ist ko (S tf) ni pd pu
  | NieznalezioneEan => Stats su bl ist ko tf (S ni) pd pu
  | PdfPominiete => Stats su bl ist ko tf ni (S pd) pu
  | PusteWiersze => Stats su bl ist ko tf ni pd (S pu)
  end.

Definition stats0 : stats := Stats 0 0 0 0 0 0 0 0.

(** The counter that tells how a row ended. *)
Definition outcome_counter (o : outcome) : counter :=
  match o with
  | Empty => PusteWiersze
  | FilteredOut => NieznalezioneEan
  | UnsupportedFormat => PdfPominiete
  | Failed => Blad
  | DuplicateSkipped => Istnieje
  | Added => Sukces
  end.

(** All the increments made so far. *)
Definition total (s : stats) : nat :=
  (sukces s + blad s + istnieje s + konwersje s + transparency_fixed s
   + nieznalezione_ean s + pdf_pominiete s + puste_wiersze s)%nat.

(** The rows counted so far, each under its outcome. *)
Definition rows_counted (s : stats) : nat :=
  (sukces s + blad s + istnieje s
   + nieznalezione_ean s + pdf_pominiete s + puste_wiersze s)%nat.

(** The counters of the image processing, which tell what was done to a
    row on its way and not how it ended. *)
Definition processing_counter (c : counter) : bool :=
  match c with
  | Konwersje | TransparencyFixed => true
  | _ => false
  end.

#[global] Instance counter_eq_dec : EqDecision counter.
Proof. solve_decision. Defined.

(** The settings of the sidebar and the text of the filter field. *)
Record config := Config {
  handle_transparency : bool;
  convert_webp : bool;
  overwrite : bool;
  delay_between : Q;
  ean_filter_text : str
}.

(** What the run keeps while it goes through the rows. *)
Record run_state := RunState {
  downloaded_files : dict bytes;
  found_eans : gset str;
  run_stats : stats;
  errors_log : list str;
  pdf_eans : list str;
  transparency_processed : list str;
  trace : list event
}.

Definition state0 (t : list event) : run_state :=
  RunState [] ∅ stats0 [] [] [] t.

Definition bump (c : counter) : M run_state unit :=
  modify (fun st => let '(RunState d f s e p tp t) := st in
                    RunState d f (incr c s) e p tp t).

Definition store_file (filename : str) (data : bytes) : M run_state unit :=
  modify (fun st => let '(RunState d f s e p tp t) := st in
                    RunState (dict_set filename data d) f s e p tp t).

Definition add_found (ean : str) : M run_state unit :=
  modify (fun st => let '(RunState d f s e p tp t) := st in
                    RunState d ({[ean]} ∪ f) s e p tp t).

Definition log_error (err : str) : M run_state unit :=
  modify (fun st => let '(RunState d f s e p tp t) := st in
                    RunState d f s (e ++ [err])%list p tp t).

Definition log_pdf (ean : str) : M run_state unit :=
  modify (fun st => let '(RunState d f s e p tp t) := st in
                    RunState d f s e (p ++ [ean])%list tp t).

Definition log_transparency (ean : str) : M run_state unit :=
  modify (fun st => let '(RunState d f s e p tp t) := st in
                    RunState d f s e p (tp ++ [ean])%list t).

(** A statement that acts on the outside world only. *)
Definition outside {A} (m : M (list event) A) : M run_state A :=
  fun st => let '(RunState d f s e p tp t) := st in
            let '(r, t') := m t in
            (r, RunState d f s e p tp t').

Section WithPlatform.
Context (P : Platform).

(** [has_transparency(image)] *)
Definition has_transparency (img : image P) : exn bool :=
  if str_in (image_mode P img) ["RGBA"; "LA"] then
    if str_eqb (image_mode P img) "RGBA" then
      extrema <-? alpha_extrema P img ;;
      if negb (bool_decide (extrema = (255, 255))) then Ok true else Ok false
    else if str_eqb (image_mode P img) "LA" then
      extrema <-? alpha_extrema P img ;;
      if negb (bool_decide (extrema = (255, 255))) then Ok true else Ok false
    else Ok false
  else if str_eqb (image_mode P img) "P" then
    if info_transparency P img then Ok true else Ok false
  else Ok false.

(** The [try] block of [add_white_background]. *)
Definition white_background (image_bytes : bytes) : exn bytes :=
  img <-? Image_open P image_bytes ;;
  transparent <-? has_transparency img ;;
  if negb transparent then Ok image_bytes
  else
    img <-? (if negb (str_eqb (image_mode P img) "RGBA")
             then image_convert P "RGBA" img else Ok img) ;;
    background <-? paste_on_white P "RGBA" img
                     (str_eqb (image_mode P img) "RGBA") ;;
    final_image <-? image_convert P "RGB" background ;;
    let format_to_save :=
      match image_format P img with
      | Some f => if str_in f ["JPEG"; "JPG"] then "JPEG" else "PNG"
      | None => "PNG"
      end in
    image_save P format_to_save (Some 95) final_image.

(** [add_white_background(image_bytes)] *)
Definition add_white_background (image_bytes : bytes) : exn bytes :=
  try_except (white_background image_bytes) (fun _ => Ok image_bytes).

(** [convert_webp_to_png(image_bytes, remove_transparency)] *)
Definition convert_webp_to_png (image_bytes : bytes) (remove_transparency : bool)
  : exn bytes :=
  try_except
    (img <-? Image_open P image_bytes ;;
     transparent <-? (if remove_transparency then has_transparency img else Ok false) ;;
     img <-? (if remove_transparency && transparent then
                img <-? (if negb (str_eqb (image_mode P img) "RGBA")
                         then image_convert P "RGBA" img else Ok img) ;;
                paste_on_white P "RGB" img true
              else if str_in (image_mode P img) ["RGBA"; "LA"] then Ok img
              else if negb (str_eqb (image_mode P img) "RGB")
                   then image_convert P "RGB" img else Ok img) ;;
     image_save P "PNG" None img)
    (fun e => Raise (Exc Exception_ ("Błąd konwersji WebP: " ++ exc_msg e))).

Definition max_retries : nat := 2.

(** The loop [for attempt in range(max_retries + 1)] of [pobierz_obraz], from
    the attempt after which [left] more may follow, that is
    [attempt = max_retries - left]: the test [attempt < max_retries] is
    [left > 0].  An attempt returns, raises or goes on to the next one, so
    the loop never runs out. *)
Fixpoint attempts (left : nat) (url : str) : M (list event) bytes :=
  try_catch_only [RequestException]
    (request P url)
    (fun e => match left with
              | S left' => sleep (2 # 1) ;; attempts left' url
              | O => raise e
              end).

(** [pobierz_obraz(url)] *)
Definition pobierz_obraz (url : str) : M (list event) bytes :=
  attempts max_retries url.

(** One line of the filter field, already stripped and not empty. *)
Definition parse_ean (ean : str) : exn str :=
  try_except_only [ValueError; OverflowError]
    (s <-? str_int_float P (CText ean) ;; Ok (strip s))
    (fun _ => Ok (strip ean)).

Fixpoint parse_lines (lines : list str) : exn (list str) :=
  match lines with
  | line :: rest =>
      let ean := strip line in
      if nonempty ean then
        ean <-? parse_ean ean ;;
        ean_list <-? parse_lines rest ;;
        Ok (ean :: ean_list)
      else parse_lines rest
  | [] => Ok []
  end.

(** [parse_ean_list(ean_text)] *)
Definition parse_ean_list (ean_text : str) : exn (gset str) :=
  if negb (nonempty ean_text) then Ok ∅
  else
    ean_list <-? parse_lines (split_lines (strip ean_text)) ;;
    Ok (list_to_set ean_list).

(** [ean_filter_set = parse_ean_list(ean_filter_text) if ean_filter_text else None] *)
Definition make_filter (ean_filter_text : str) : exn (option (gset str)) :=
  if nonempty ean_filter_text then
    s <-? parse_ean_list ean_filter_text ;; Ok (Some s)
  else Ok None.

(** Truthiness of [ean_filter_set]: neither [None] nor the empty set. *)
Definition truthy (ean_filter_set : option (gset str)) : bool :=
  match ean_filter_set with
  | Some s => negb (bool_decide (s = ∅))
  | None => false
  end.

(** [ean not in ean_filter_set], looked at only when the set is truthy *)
Definition not_in_filter (ean : str) (ean_filter_set : option (gset str)) : bool :=
  match ean_filter_set with
  | Some s => negb (bool_decide (ean ∈ s))
  | None => false
  end.

(** The normalization of the identifier, with its bare [except]. *)
Definition normalize_ean (ean : cell) : exn str :=
  try_except
    (s <-? str_int_float P ean ;; Ok (remove_spaces (strip s)))
    (fun _ => Ok (remove_spaces (strip (cell_str P ean)))).

Section Rows.
Context (cfg : config) (ean_filter_set : option (gset str)).

(** The end of the row, where the payload enters the bundle
    [downloaded_files] under its file name, or is dropped:
    [if filename in downloaded_files and not overwrite: ...; continue]. *)
Definition bundle_add (filename : str) (data : bytes) : M run_state outcome :=
  present <- gets (fun st => dict_mem filename (downloaded_files st)) ;;
  if present && negb (overwrite cfg) then
    bump Istnieje ;; ret DuplicateSkipped
  else
    store_file filename data ;; bump Sukces ;; ret Added.

(** The body of the second [try] of the loop; its result tells whether it
    left through a [continue] or reached its end. *)
Definition try_body (ean : str) (link : cell) : M run_state outcome :=
  extension <- lift (link_extension P (cell_str P link)) ;;
  if str_eqb extension ".pdf" || contains ".pdf" (str_lower P (cell_str P link))
  then
    bump PdfPominiete ;; log_pdf ean ;; ret UnsupportedFormat
  else
    let extension := resolve_extension extension in
    let original_ext := extension in
    image_data <- outside (pobierz_obraz (cell_str P link)) ;;
    image_data <-
      (if handle_transparency cfg && negb (str_eqb extension ".webp") then
         processed <- lift (add_white_background image_data) ;;
         if negb (bytes_eqb processed image_data) then
           bump TransparencyFixed ;; log_transparency ean ;; ret processed
         else ret image_data
       else ret image_data) ;;
    converted <-
      (if convert_webp cfg && str_eqb original_ext ".webp" then
         image_data <- lift (convert_webp_to_png image_data (handle_transparency cfg)) ;;
         bump Konwersje ;; ret (image_data, ".png")
       else ret (image_data, extension)) ;;
    let '(image_data, extension) := converted in
    let filename := ean ++ extension in
    bundle_add filename image_data.

(** The body of the loop [for idx, row in df.iterrows()]. *)
Definition process_row (r : row) : M run_state outcome :=
  let link := row_link r in
  let ean := row_ean r in
  if isna link || isna ean then
    bump PusteWiersze ;; ret Empty
  else
    ean <- lift (normalize_ean ean) ;;
    if truthy ean_filter_set && not_in_filter ean ean_filter_set then
      bump NieznalezioneEan ;; ret FilteredOut
    else
      add_found ean ;;
      out <- try_catch (try_body ean link)
               (fun e => log_error (error_record ean e) ;; bump Blad ;; ret Failed) ;;
      match out with
      | UnsupportedFormat | DuplicateSkipped => ret out
      | _ => outside (sleep (delay_between cfg)) ;; ret out
      end.

Fixpoint process_rows (rows : list row) : M run_state (list outcome) :=
  match rows with
  | r :: rows' =>
      out <- process_row r ;;
      outs <- process_rows rows' ;;
      ret (out :: outs)
  | [] => ret []
  end.

(** A sequence of calls [add(filename, bytes)] on the bundle. *)
Fixpoint add_all (calls : list (str * bytes)) : M run_state (list outcome) :=
  match calls with
  | (filename, data) :: calls' =>
      out <- bundle_add filename data ;;
      outs <- add_all calls' ;;
      ret (out :: outs)
  | [] => ret []
  end.

(** *** The effect of a row, as a relation

    [row_effect r st out st'] lists, outcome by outcome, what a row may do
    to the state; [process_row_effect] below shows that [process_row]
    always ends in one of these ways. *)

(** The row has both cells, and its identifier [ean] passes the filter. *)
Definition accepted (r : row) (ean : str) : Prop :=
  isna (row_link r) || isna (row_ean r) = false /\
  normalize_ean (row_ean r) = Ok ean /\
  truthy ean_filter_set && not_in_filter ean ean_filter_set = false.

(** What the image processing of a row counts before the row ends:
    nothing, a white background, or a conversion. *)
Inductive processing_counted (ean : str)
  : stats * list str -> stats * list str -> Prop :=
| CountedNothing s tp :
    processing_counted ean (s, tp) (s, tp)
| CountedTransparency s tp :
    processing_counted ean (s, tp) (incr TransparencyFixed s, (tp ++ [ean])%list)
| CountedConversion s tp :
    processing_counted ean (s, tp) (incr Konwersje s, tp).

Inductive row_effect (r : row) : run_state -> outcome -> run_state -> Prop :=
| RowEmpty d f s e p tp t :
    isna (row_link r) || isna (row_ean r) = true ->
    row_effect r (RunState d f s e p tp t) Empty
      (RunState d f (incr PusteWiersze s) e p tp t)
| RowFilteredOut d f s e p tp t ean :
    isna (row_link r) || isna (row_ean r) = false ->
    normalize_ean (row_ean r) = Ok ean ->
    truthy ean_filter_set = true ->
    not_in_filter ean ean_filter_set = true ->
    row_effect r (RunState d f s e p tp t) FilteredOut
      (RunState d f (incr NieznalezioneEan s) e p tp t)
| RowUnsupported d f s e p tp t ean :
    accepted r ean ->
    row_effect r (RunState d f s e p tp t) UnsupportedFormat
      (RunState d ({[ean]} ∪ f) (incr PdfPominiete s) e (p ++ [ean])%list tp t)
| RowFailed d f s e p tp t ean exc k :
    accepted r ean ->
    (k <= 3)%nat ->
    row_effect r (RunState d f s e p tp t) Failed
      (RunState d ({[ean]} ∪ f) (incr Blad s)
         (e ++ [error_record ean exc])%list p tp
         (t ++ fetch_trace (cell_str P (row_link r)) k
            ++ [EvSleep (delay_between cfg)])%list)
| RowDuplicate d f s e p tp t ean k s' tp' filename :
    accepted r ean ->
    (1 <= k <= 3)%nat ->
    processing_counted ean (s, tp) (s', tp') ->
    dict_mem filename d = true ->
    overwrite cfg = false ->
    row_effect r (RunState d f s e p tp t) DuplicateSkipped
      (RunState d ({[ean]} ∪ f) (incr Istnieje s') e p tp'
         (t ++ fetch_trace (cell_str P (row_link r)) k)%list)
| RowAdded d f s e p tp t ean k s' tp' filename data :
    accepted r ean ->
    (1 <= k <= 3)%nat ->
    processing_counted ean (s, tp) (s', tp') ->
    dict_mem filename d = false \/ overwrite cfg = true ->
    row_effect r (RunState d f s e p tp t) Added
      (RunState (dict_set filename data d) ({[ean]} ∪ f) (incr Sukces s') e p tp'
         (t ++ fetch_trace (cell_str P (row_link r)) k
            ++ [EvSleep (delay_between cfg)])%list).

Inductive rows_effect : list row -> run_state -> list outcome -> run_state -> Prop :=
| RowsNil st :
    rows_effect [] st [] st
| RowsCons r rows st out st1 outs st2 :
    row_effect r st out st1 ->
    rows_effect rows st1 outs st2 ->
    rows_effect (r :: rows) st (out :: outs) st2.

End Rows.

(** What is kept in [st.session_state.download_results]. *)
Record download_results := Results {
  res_stats : stats;
  res_errors_log : list str;
  res_pdf_eans : list str;
  res_downloaded_files : dict bytes;
  res_missing_eans : option (gset str);
  res_transparency_processed : list str
}.

(** ['missing_eans': ean_filter_set - found_eans if ean_filter_set else None] *)
Definition missing_eans (ean_filter_set : option (gset str)) (found : gset str)
  : option (gset str) :=
  match ean_filter_set with
  | Some s => if truthy ean_filter_set then Some (s ∖ found) else None
  | None => None
  end.

(** A click on the start button: the rows of the table are processed in
    order, from empty counters, an empty bundle and the outside world as
    it stands. *)
Definition run (cfg : config) (rows : list row) (t : list event)
  : exn (list outcome * download_results * list event) :=
  ean_filter_set <-? make_filter (ean_filter_text cfg) ;;
  match process_rows cfg ean_filter_set rows (state0 t) with
  | (Ok outs, st) =>
      Ok (outs,
          Results (run_stats st) (errors_log st) (pdf_eans st) (downloaded_files st)
                  (missing_eans ean_filter_set (found_eans st))
                  (transparency_processed st),
          trace st)
  | (Raise e, _) => Raise e
  end.

End WithPlatform.

(** *** The archive and the download button *)

(** An open [zipfile.ZipFile]: its members, in the order they were written. *)
Definition archive := list (str * bytes).

(** [zip_file.writestr(filename, file_data)] *)
Definition writestr (zip_file : archive) (filename : str) (file_data : bytes)
  : archive :=
  (zip_file ++ [(filename, file_data)])%list.

(** [create_zip_from_memory(files_dict)] *)
Definition create_zip_from_memory (files_dict : dict bytes) : archive :=
  fold_left (fun zip_file item => writestr zip_file (fst item) (snd item))
    files_dict [].

(** The label of the button, with the counter of successes in it. *)
Definition button_label (n : nat) : str :=
  "⬇️ POBIERZ PACZKĘ ZIP (" ++ str_of_int (Z.of_nat n) ++ " plików)".

(** The download button of the result view, with its label and its data:
    [if s['sukces'] > 0: zip_data = create_zip_from_memory(...)]. *)
Definition download_button (res : download_results) : option (str * archive) :=
  if (0 <? sukces (res_stats res))%nat then
    Some (button_label (sukces (res_stats res)),
          create_zip_from_memory (res_downloaded_files res))
  else None.

End Pro.

(** ** The basic variant: app.py *)

Module Basic.

(** The counters of the dictionary [stats]; [pominieto] counts the rows
    without data and the rows whose file is already there. *)
Record stats := Stats {
  sukces : nat;
  blad : nat;
  pominieto : nat;
  konwersje : nat
}.

Inductive counter := Sukces | Blad | Pominieto | Konwersje.

Definition count (c : counter) (s : stats) : nat :=
  match c with
  | Sukces => sukces s
  | Blad => blad s
  | Pominieto => pominieto s
  | Konwersje => konwersje s
  end.

(** [stats[c] += 1] *)
Definition incr (c : counter) (s : stats) : stats :=
  let '(Stats su bl po ko) := s in
  match c with
  | Sukces => Stats (S su) bl po ko
  | Blad => Stats su (S bl) po ko
  | Pominieto => Stats su bl (S po) ko
  | Konwersje => Stats su bl po (S ko)
  end.

Definition stats0 : stats := Stats 0 0 0 0.

(** The counter that tells how a row ended. *)
Definition outcome_counter (o : outcome) : counter :=
  match o with
  | Empty | DuplicateSkipped => Pominieto
  | Failed => Blad
  | _ => Sukces
  end.

(** The rows counted so far, each under its outcome. *)
Definition rows_counted (s : stats) : nat :=
  (sukces s + blad s + pominieto s)%nat.

Definition processing_counter (c : counter) : bool :=
  match c with
  | Konwersje => true
  | _ => false
  end.

#[global] Instance counter_eq_dec : EqDecision counter.
Proof. solve_decision. Defined.

Record config := Config {
  convert_webp : bool;
  overwrite : bool
}.

Definition DELAY_BETWEEN_DOWNLOADS : Q := 1 # 1.

(** The files of the output folder, the counters, the error list and the
    outside world. *)
Record run_state := RunState {
  folder : dict bytes;
  run_stats : stats;
  errors_log : list str;
  trace : list event
}.

Definition state0 (files : dict bytes) (t : list event) : run_state :=
  RunState files stats0 [] t.

Definition bump (c : counter) : M run_state unit :=
  modify (fun st => let '(RunState d s e t) := st in RunState d (incr c s) e t).

Definition log_error (err : str) : M run_state unit :=
  modify (fun st => let '(RunState d s e t) := st in RunState d s (e ++ [err])%list t).

Definition outside {A} (m : M (list event) A) : M run_state A :=
  fun st => let '(RunState d s e t) := st in
            let '(r, t') := m t in
            (r, RunState d s e t').

Section WithPlatform.
Context (P : Platform).

(** [convert_webp_to_png(image_bytes)] *)
Definition convert_webp_to_png (image_bytes : bytes) : exn bytes :=
  try_except
    (img <-? Image_open P image_bytes ;;
     img <-? (if str_in (image_mode P img) ["RGBA"; "LA"]
              then paste_on_white P "RGB" img true else Ok img) ;;
     image_save P "PNG" None img)
    (fun e => Raise (Exc Exception_ ("Błąd konwersji WebP: " ++ exc_msg e))).

(** [pobierz_obraz(url)]: one request. *)
Definition pobierz_obraz (url : str) : M (list event) bytes :=
  request P url.

(** The normalization of the identifier, which catches [ValueError] and
    [OverflowError]. *)
Definition normalize_ean (ean : cell) : exn str :=
  try_except_only [ValueError; OverflowError]
    (s <-? str_int_float P ean ;; Ok (remove_spaces (strip s)))
    (fun _ => Ok (remove_spaces (strip (cell_str P ean)))).

(** What the folder holds once the file [filename] holds [data]. *)
Definition put_file (filename : str) (data : bytes) : M run_state unit :=
  modify (fun st => let '(RunState d s e t) := st in
                    RunState (dict_set filename data d) s e t).

(** [with open(filepath, 'wb') as f: f.write(image_data)]: when the file
    cannot be opened the folder stays as it is; once it is open the file is
    there, also when the writing fails. *)
Definition write_file (filename : str) (data : bytes) : M run_state unit :=
  match open_error P filename with
  | Some e => raise e
  | None =>
      match write_error P filename data with
      | Some (e, written) => put_file filename written ;; raise e
      | None => put_file filename data
      end
  end.

Section Rows.
Context (cfg : config).

(** The body of the second [try] of the loop. *)
Definition try_body (ean : str) (link : cell) : M run_state outcome :=
  extension <- lift (link_extension P (cell_str P link)) ;;
  let extension := resolve_extension extension in
  let original_extension := extension in
  let extension :=
    if convert_webp cfg && str_eqb extension ".webp" then ".png" else extension in
  let filename := ean ++ extension in
  present <- gets (fun st => dict_mem filename (folder st)) ;;
  if present && negb (overwrite cfg) then
    bump Pominieto ;; ret DuplicateSkipped
  else
    image_data <- outside (pobierz_obraz (cell_str P link)) ;;
    image_data <-
      (if convert_webp cfg && str_eqb original_extension ".webp" then
         image_data <- lift (convert_webp_to_png image_data) ;;
         bump Konwersje ;; ret image_data
       else ret image_data) ;;
    write_file filename image_data ;;
    bump Sukces ;;
    outside (sleep DELAY_BETWEEN_DOWNLOADS) ;;
    ret Added.

(** The body of the loop [for idx, row in df.iterrows()]; an exception it
    lets through ends the run. *)
Definition process_row (r : row) : M run_state outcome :=
  let link := row_link r in
  let ean := row_ean r in
  if isna link || isna ean then
    bump Pominieto ;; ret Empty
  else
    ean <- lift (normalize_ean ean) ;;
    try_catch (try_body ean link)
      (fun e => log_error (error_record ean e) ;; bump Blad ;; ret Failed).

Fixpoint process_rows (rows : list row) : M run_state (list outcome) :=
  match rows with
  | r :: rows' =>
      out <- process_row r ;;
      outs <- process_rows rows' ;;
      ret (out :: outs)
  | [] => ret []
  end.

(** *** The effect of a row, as a relation *)

(** What the conversion of a row counts before the row ends. *)
Inductive processing_counted : stats -> stats -> Prop :=
| CountedNothing s : processing_counted s s
| CountedConversion s : processing_counted s (incr Konwersje s).

(** What a failed row may leave in the folder: nothing, or the file it
    could open and not write to the end. *)
Definition left_by_failure (d d' : dict bytes) : Prop :=
  d' = d \/
  exists filename written,
    (dict_mem filename d = false \/ overwrite cfg = true) /\
    d' = dict_set filename written d.

Inductive row_effect (r : row) : run_state -> outcome -> run_state -> Prop :=
| RowEmpty d s e t :
    isna (row_link r) || isna (row_ean r) = true ->
    row_effect r (RunState d s e t) Empty (RunState d (incr Pominieto s) e t)
| RowExisting d s e t filename :
    isna (row_link r) || isna (row_ean r) = false ->
    dict_mem filename d = true ->
    overwrite cfg = false ->
    row_effect r (RunState d s e t) DuplicateSkipped
      (RunState d (incr Pominieto s) e t)
| RowFailed d d' s e t ean exc k s' :
    isna (row_link r) || isna (row_ean r) = false ->
    normalize_ean (row_ean r) = Ok ean ->
    (k <= 1)%nat ->
    processing_counted s s' ->
    left_by_failure d d' ->
    row_effect r (RunState d s e t) Failed
      (RunState d' (incr Blad s') (e ++ [error_record ean exc])%list
         (t ++ fetch_trace (cell_str P (row_link r)) k)%list)
| RowAdded d s e t s' filename data :
    isna (row_link r) || isna (row_ean r) = false ->
    processing_counted s s' ->
    dict_mem filename d = false \/ overwrite cfg = true ->
    row_effect r (RunState d s e t) Added
      (RunState (dict_set filename data d) (incr Sukces s') e
         (t ++ [EvGet (cell_str P (row_link r)); EvSleep DELAY_BETWEEN_DOWNLOADS])%list).

Inductive rows_effect : list row -> run_state -> list outcome -> run_state -> Prop :=
| RowsNil st :
    rows_effect [] st [] st
| RowsCons r rows st out st1 outs st2 :
    row_effect r st out st1 ->
    rows_effect rows st1 outs st2 ->
    rows_effect (r :: rows) st (out :: outs) st2.

End Rows.

(** A click on the download button, with the output folder and the outside
    world as they stand. *)
Definition run (cfg : config) (rows : list row) (files : dict bytes) (t : list event)
  : exn (list outcome) * run_state :=
  process_rows cfg rows (state0 files t).

End WithPlatform.

End Basic.

(** ** A concrete platform

    A small world to run the pipeline in: links of the form
    [scheme://host/path] in ASCII, identifiers written in digits, and an
    imaging library whose files are one-letter headers followed by pixel
    data. *)

Module Demo.

Fixpoint digits_value (acc : Z) (s : str) : Z :=
  match s with
  | String c s' => digits_value (10 * acc + Z.of_N c - 48) s'
  | EmptyString => acc
  end.

Fixpoint all_digits (s : str) : bool :=
  match s with
  | String c s' => isdigit c && all_digits s'
  | EmptyString => true
  end.

(** [float(s)] where [s] is written in digits; other texts are refused. *)
Definition float_of_digits (s : str) : option pyfloat :=
  let s := strip s in
  if nonempty s && all_digits s then Some (Finite (digits_value 0 s) 0) else None.

(** [str(f)] for the integer-valued floats below [10^16]. *)
Definition str_of_small_float (f : pyfloat) : str :=
  match f with
  | Finite m e =>
      match int_of_float f with
      | Ok z => str_of_int z ++ ".0"
      | Raise _ => "nan"
      end
  | Inf true => "-inf"
  | Inf false => "inf"
  | NaN => "nan"
  end.

Definition lower_char (c : char) : char :=
  if ((65 <=? c) && (c <=? 90))%N then (c + 32)%N else c.

Fixpoint lower (s : str) : str :=
  match s with
  | String c s' => String (lower_char c) (lower s')
  | EmptyString => EmptyString
  end.

(** The text after the last ['/']. *)
Fixpoint basename (s : str) : str :=
  match s with
  | String c s' => if contains "/" s then basename s' else s
  | EmptyString => EmptyString
  end.

(** [os.path.splitext(name)[1]] of a name without ['/']: from the last dot
    on, unless only dots come before it. *)
Fixpoint ext_of (seen_other : bool) (name : str) : str :=
  match name with
  | String c name' =>
      let rest := ext_of (seen_other || negb (char_eqb c dot)) name' in
      if nonempty rest then rest
      else if char_eqb c dot && seen_other then name else EmptyString
  | EmptyString => EmptyString
  end.

Definition extension_of_link (url : str) : exn str :=
  Ok (lower (ext_of false (basename url))).

Record picture := Picture {
  pic_mode : str;
  pic_format : option str;
  pic_marker : bool;
  pic_extrema : Z * Z;
  pic_data : bytes
}.

(** A file starts with the letter R, byte [x52] (opaque RGB pixels), with
    A, [x41] (RGBA pixels, some of them transparent), with O, [x4f] (RGBA
    pixels, all of them opaque) or with W, [x57] (a WebP file with opaque
    RGB pixels); what is saved as PNG starts with P, [x50]. *)
Definition open_picture (b : bytes) : exn picture :=
  match b with
  | Byte.x52 :: data => Ok (Picture "RGB" (Some "JPEG") false (255, 255) data)
  | Byte.x41 :: data => Ok (Picture "RGBA" (Some "PNG") false (0, 255) data)
  | Byte.x4f :: data => Ok (Picture "RGBA" (Some "PNG") false (255, 255) data)
  | Byte.x57 :: data => Ok (Picture "RGB" (Some "WEBP") false (255, 255) data)
  | _ => Raise (Exc OSError "cannot identify image file")
  end.

Definition convert_picture (mode : str) (p : picture) : exn picture :=
  Ok (Picture mode None (pic_marker p) (pic_extrema p) (pic_data p)).

Definition flatten_picture (mode : str) (p : picture) (mask : bool) : exn picture :=
  Ok (Picture mode None false (255, 255) (pic_data p)).

Definition save_picture (format : str) (quality : option Z) (p : picture) : exn bytes :=
  Ok ((if str_eqb format "PNG" then Byte.x50 else Byte.x52) :: pic_data p).

(** The platform in which the network answers by [net]. *)
Definition platform (net : nat -> str -> exn bytes) : Platform := {|
  float_of_str := float_of_digits;
  str_of_float := str_of_small_float;
  link_extension := extension_of_link;
  str_lower := lower;
  http_get := net;
  image := picture;
  Image_open := open_picture;
  image_mode := pic_mode;
  image_format := pic_format;
  info_transparency := pic_marker;
  alpha_extrema := fun p => Ok (pic_extrema p);
  image_convert := convert_picture;
  paste_on_white := flatten_picture;
  image_save := save_picture;
  open_error := fun _ => None;
  write_error := fun _ _ => None
|}.

Definition timeout_error : exception := Exc RequestException "Read timed out.".

(** A network on which every request is answered by [body]. *)
Definition net_up (body : bytes) : nat -> str -> exn bytes :=
  fun _ _ => Ok body.

(** A network on which every request fails. *)
Definition net_down : nat -> str -> exn bytes :=
  fun _ _ => Raise timeout_error.

(** A network that fails [n] requests and answers the following ones. *)
Definition net_up_after (n : nat) (body : bytes) : nat -> str -> exn bytes :=
  fun k _ => if (k <? n)%nat then Raise timeout_error else Ok body.

End Demo.

(** ** Words of the specification *)

Definition first_char (s : str) : option char :=
  match s with
  | String c _ => Some c
  | EmptyString => None
  end.

Fixpoint last_char (s : str) : option char :=
  match s with
  | String c EmptyString => Some c
  | String _ s' => last_char s'
  | EmptyString => None
  end.

Fixpoint all_chars (p : char -> bool) (s : str) : bool :=
  match s with
  | String c s' => p c && all_chars p s'
  | EmptyString => true
  end.

(** Neither the first nor the last character is white space. *)
Definition no_outer_whitespace (s : str) : Prop :=
  (forall c, first_char s = Some c -> isspace c = false) /\
  (forall c, last_char s = Some c -> isspace c = false).

(** An identifier as the normalizer leaves it: stripped, and without a
    space character anywhere. *)
Definition clean_identifier (s : str) : Prop :=
  no_outer_whitespace s /\ contains " " s = false.

(** The float [f] is the integer [N], written [N.0]. *)
Definition is_integer_float (f : pyfloat) (N : Z) : Prop :=
  exists q, float_value f = Some q /\ Qeq q (inject_Z N).

Definition decimal_char (c : char) : bool :=
  isdigit c || char_eqb c minus.

(** The image carries no transparency: if it has an alpha channel, every
    pixel is fully opaque, and if it has a palette, there is no
    transparency marker. *)
Definition no_transparency (P : Platform) (img : image P) : Prop :=
  (str_in (image_mode P img) ["RGBA"; "LA"] = true ->
     alpha_extrema P img = Ok (255, 255)) /\
  (image_mode P img = "P" -> info_transparency P img = false).

(** The payload of the first call for [filename], and of the last one. *)
Definition first_payload (filename : str) (calls : list (str * bytes))
  : option bytes :=
  snd <$> List.find (fun c => str_eqb filename (fst c)) calls.

Definition last_payload (filename : str) (calls : list (str * bytes))
  : option bytes :=
  first_payload filename (rev calls).

(** The enhanced variant comes to fetch the link of the row [r], whose
    extension it could read and which is no PDF, with the outside world
    at [t], and the fetch raises [e], or the fetch succeeds and the
    conversion of the fetched WebP image raises [e]. *)
Definition pro_fetch_or_conversion_raises (P : Platform) (cfg : Pro.config)
    (r : row) (t : list event) (e : exception) : Prop :=
  let url := cell_str P (row_link r) in
  exists extension,
    link_extension P url = Ok extension /\
    str_eqb extension ".pdf" || contains ".pdf" (str_lower P url) = false /\
    ((exists t', Pro.pobierz_obraz P url t = (Raise e, t')) \/
     (exists data t',
        Pro.pobierz_obraz P url t = (Ok data, t') /\
        Pro.convert_webp cfg = true /\
        resolve_extension extension = ".webp" /\
        Pro.convert_webp_to_png P data (Pro.handle_transparency cfg) = Raise e)).

(** The same for the basic variant, which comes to fetch the link when the
    file of the row, named after its identifier [ean], is not in the
    folder [files] yet or may be overwritten. *)
Definition basic_fetch_or_conversion_raises (P : Platform) (cfg : Basic.config)
    (r : row) (ean : str) (files : dict bytes) (t : list event) (e : exception)
  : Prop :=
  let url := cell_str P (row_link r) in
  exists extension,
    link_extension P url = Ok extension /\
    dict_mem
      (ean ++ (if Basic.convert_webp cfg
                  && str_eqb (resolve_extension extension) ".webp"
               then ".png" else resolve_extension extension))
      files && negb (Basic.overwrite cfg) = false /\
    (http_get P (requests_made t) url = Raise e \/
     (exists data,
        http_get P (requests_made t) url = Ok data /\
        Basic.convert_webp cfg = true /\
        resolve_extension extension = ".webp" /\
        Basic.convert_webp_to_png P data = Raise e)).

(** The row [r] has both cells and its normalized identifier is [x]. *)
Definition row_matches (P : Platform) (r : row) (x : str) : Prop :=
  isna (row_link r) || isna (row_ean r) = false /\
  Pro.normalize_ean P (row_ean r) = Ok x.

(** The row has both cells and its normalized identifier is not in the
    allow-list [F]. *)
Definition outside_allow_list (P : Platform) (F : gset str) (r : row) : bool :=
  negb (isna (row_link r) || isna (row_ean r)) &&
  match Pro.normalize_ean P (row_ean r) with
  | Ok ean => negb (bool_decide (ean ∈ F))
  | Raise _ => false
  end.

(** The outcomes of the rows for which a request may have been sent. *)
Definition fetched (o : outcome) : bool :=
  match o with
  | Failed | DuplicateSkipped | Added => true
  | _ => false
  end.

Definition is_added (o : outcome) : bool :=
  match o with
  | Added => true
  | _ => false
  end.

(** The cell holds the integer [N]: as an integer of at most 53 bits, or as
    a float that is this integer. *)
Definition cell_integer (c : cell) (N : Z) : Prop :=
  (c = CInt N /\ Z.abs N < 2 ^ 53) \/
  (exists f, c = CFloat f /\ is_integer_float f N).

(** A file name as the pipeline builds it: an identifier that passed the
    normalizer, followed by one of the given extensions. *)
Definition well_named (extensions : list str) (filename : str) : Prop :=
  exists ean extension,
    filename = ean ++ extension /\
    clean_identifier ean /\
    str_in extension extensions = true.

(** The extensions under which files are stored: the allowed ones, without
    [.webp] when WebP images are converted. *)
Definition stored_extensions (convert_webp : bool) : list str :=
  if convert_webp then [".jpg"; ".jpeg"; ".png"; ".gif"; ".bmp"]
  else ALLOWED_FORMATS.

(** The basic variant can read the row: one of its cells is missing, or
    [float()] accepts its identifier cell. *)
Definition basic_readable (r : row) : bool :=
  isna (row_link r) || isna (row_ean r) || float_accepts (row_ean r).

(** The name under which the basic variant stores the file of a row:
    [f"{ean}{extension}"], with [.png] for a WebP link that is converted. *)
Definition basic_filename (P : Platform) (cfg : Basic.config) (r : row) : exn str :=
  ean <-? Basic.normalize_ean P (row_ean r) ;;
  extension <-? link_extension P (cell_str P (row_link r)) ;;
  let extension := resolve_extension extension in
  Ok (ean ++ (if Basic.convert_webp cfg && str_eqb extension ".webp"
              then ".png" else extension)).

(** What a run of the basic variant leaves behind for a row that ended as
    [out]: an empty row has an empty cell, the file of an added or skipped
    row is in [files], and no row is filtered out or unsupported. *)
Definition row_settled (P : Platform) (cfg : Basic.config) (files : dict bytes)
    (r : row) (out : outcome) : Prop :=
  match out with
  | Empty => isna (row_link r) || isna (row_ean r) = true
  | Added | DuplicateSkipped =>
      isna (row_link r) || isna (row_ean r) = false /\
      exists filename,
        basic_filename P cfg r = Ok filename /\ dict_mem filename files = true
  | Failed => True
  | FilteredOut | UnsupportedFormat => False
  end.

(** A transport-level failure: [requests.exceptions.RequestException]. *)
Definition transport_failure {A} (r : exn A) : bool :=
  match r with
  | Raise e => exc_class_eqb (exc_kind e) RequestException
  | Ok _ => false
  end.

(** A fetcher that lets a transport-level failure reach its caller only
    after three attempts. *)
Definition gives_up_after_three
    (fetch : Platform -> str -> M (list event) bytes) : Prop :=
  forall P url t,
    transport_failure (fst (fetch P url t)) = true ->
    requests_made (snd (fetch P url t)) = (requests_made t + 3)%nat.

(** ** Strings *)

Lemma char_eqb_eq (a b : char) : char_eqb a b = true <-> a = b.
Proof. apply N.eqb_eq. Qed.

Lemma char_eqb_neq (a b : char) : char_eqb a b = false <-> a <> b.
Proof. apply N.eqb_neq. Qed.

Lemma char_eqb_sym (a b : char) : char_eqb a b = char_eqb b a.
Proof. apply N.eqb_sym. Qed.

Lemma char_eqb_spec (a b : char) : reflect (a = b) (char_eqb a b).
Proof. apply N.eqb_spec. Qed.

Lemma str_eqb_eq (a b : str) : str_eqb a b = true <-> a = b.
Proof.
  revert b. induction a as [|x a IH]; intros [|y b]; simpl; try done.
  rewrite andb_true_iff, char_eqb_eq, IH. split; [by intros [-> ->]|].
  by intros [= -> ->].
Qed.

Lemma str_eqb_spec (a b : str) : reflect (a = b) (str_eqb a b).
Proof. apply iff_reflect. symmetry. apply str_eqb_eq. Qed.

Lemma str_eqb_refl (a : str) : str_eqb a a = true.
Proof. by apply str_eqb_eq. Qed.

Lemma str_eqb_neq (a b : str) : str_eqb a b = false <-> a <> b.
Proof. destruct (str_eqb_spec a b); split; congruence. Qed.

Lemma lstrip_first s c : first_char (lstrip s) = Some c -> isspace c = false.
Proof.
  induction s as [|a s IH]; simpl; [discriminate|].
  destruct (isspace a) eqn:Ha; [exact IH|].
  simpl. intros [= <-]. exact Ha.
Qed.

Lemma rstrip_last s c : last_char (rstrip s) = Some c -> isspace c = false.
Proof.
  induction s as [|a s IH]; simpl; [discriminate|].
  destruct (rstrip s) as [|b r] eqn:Hr.
  - destruct (isspace a) eqn:Ha; simpl; [discriminate|].
    intros [= <-]. exact Ha.
  - simpl in *. exact IH.
Qed.

Lemma rstrip_first s c :
  first_char (rstrip s) = Some c -> first_char s = Some c.
Proof.
  destruct s as [|a s]; simpl; [discriminate|].
  destruct (rstrip s); [destruct (isspace a)|]; simpl; congruence.
Qed.

Lemma strip_no_outer_whitespace s : no_outer_whitespace (strip s).
Proof.
  split; intros c Hc.
  - apply rstrip_first in Hc. eapply lstrip_first, Hc.
  - eapply rstrip_last, Hc.
Qed.

Lemma contains_space_cons c s :
  contains " " (String c s) = char_eqb c space || contains " " s.
Proof.
  cbn [contains startswith]. rewrite andb_true_r.
  by rewrite (char_eqb_sym space c).
Qed.

Lemma remove_spaces_no_space s : contains " " (remove_spaces s) = false.
Proof.
  induction s as [|a s IH]; [reflexivity|].
  cbn [remove_spaces]. destruct (char_eqb a space) eqn:Ha; [exact IH|].
  rewrite contains_space_cons, Ha, IH. reflexivity.
Qed.

Lemma space_isspace c : char_eqb c space = true -> isspace c = true.
Proof. intros ->%char_eqb_eq. reflexivity. Qed.

Lemma remove_spaces_last s c :
  last_char s = Some c -> isspace c = false ->
  last_char (remove_spaces s) = Some c.
Proof.
  intros Hl Hc. induction s as [|a s IH]; [discriminate|].
  cbn [remove_spaces]. destruct s as [|b s].
  - simpl in Hl. injection Hl as ->.
    destruct (char_eqb c space) eqn:E; [|reflexivity].
    apply space_isspace in E. congruence.
  - specialize (IH Hl).
    destruct (char_eqb a space); [exact IH|].
    change (last_char (String a (remove_spaces (String b s))))
      with (match remove_spaces (String b s) with
            | EmptyString => Some a
            | _ => last_char (remove_spaces (String b s))
            end).
    destruct (remove_spaces (String b s)); [discriminate|exact IH].
Qed.

Lemma last_char_None s : last_char s = None -> s = EmptyString.
Proof.
  induction s as [|a s IH]; [reflexivity|].
  simpl. destruct s; [discriminate|]. intros H. discriminate (IH H).
Qed.

Lemma remove_spaces_no_outer_whitespace s :
  no_outer_whitespace s -> no_outer_whitespace (remove_spaces s).
Proof.
  intros [Hf Hl]. split; intros c Hc.
  - destruct s as [|a s]; [discriminate|].
    specialize (Hf a eq_refl). cbn [remove_spaces] in Hc.
    destruct (char_eqb a space) eqn:E.
    + apply space_isspace in E. congruence.
    + simpl in Hc. congruence.
  - destruct (last_char s) as [d|] eqn:Hd.
    + rewrite (remove_spaces_last s d Hd (Hl d eq_refl)) in Hc. naive_solver.
    + apply last_char_None in Hd. subst. discriminate.
Qed.

Lemma normalized_clean s : clean_identifier (remove_spaces (strip s)).
Proof.
  split.
  - apply remove_spaces_no_outer_whitespace, strip_no_outer_whitespace.
  - apply remove_spaces_no_space.
Qed.

Lemma lstrip_id p s :
  (forall c, p c = true -> isspace c = false) ->
  all_chars p s = true -> lstrip s = s.
Proof.
  intros Hp. destruct s as [|a s]; simpl; [reflexivity|].
  intros [Ha _]%andb_prop. rewrite (Hp a Ha). reflexivity.
Qed.

Lemma rstrip_id p s :
  (forall c, p c = true -> isspace c = false) ->
  all_chars p s = true -> rstrip s = s.
Proof.
  intros Hp. induction s as [|a s IH]; simpl; [reflexivity|].
  intros [Ha Hs]%andb_prop. rewrite (IH Hs), (Hp a Ha).
  destruct s; reflexivity.
Qed.

Lemma remove_spaces_id p s :
  (forall c, p c = true -> isspace c = false) ->
  all_chars p s = true -> remove_spaces s = s.
Proof.
  intros Hp. induction s as [|a s IH]; simpl; [reflexivity|].
  intros [Ha Hs]%andb_prop. rewrite (IH Hs).
  destruct (char_eqb a space) eqn:E; [|reflexivity].
  apply space_isspace in E. rewrite (Hp a Ha) in E. discriminate.
Qed.

Lemma decimal_char_not_space c : decimal_char c = true -> isspace c = false.
Proof.
  unfold decimal_char, isdigit, isspace, char_eqb.
  rewrite orb_true_iff, andb_true_iff, !N.leb_le, N.eqb_eq.
  rewrite !orb_false_iff, !andb_false_iff, !N.leb_gt, !N.eqb_neq. lia.
Qed.

Lemma pretty_N_go_decimal x (s : String.string) :
  all_chars decimal_char (of_ascii s) = true ->
  all_chars decimal_char (of_ascii (pretty_N_go x s)) = true.
Proof.
  revert s. induction (N.lt_wf_0 x) as [x _ IH]; intros s Hs.
  destruct (decide (x = 0)%N) as [->|Hx]; [exact Hs|].
  rewrite pretty_N_go_step by lia.
  apply IH; [apply N.div_lt; lia|].
  cbn [of_ascii all_chars]. rewrite Hs, andb_true_r.
  unfold pretty_N_char. repeat case_match; reflexivity.
Qed.

Lemma str_of_int_decimal z : all_chars decimal_char (str_of_int z) = true.
Proof.
  unfold str_of_int, pretty, pretty_Z.
  destruct z as [|p|p]; [reflexivity| |].
  - unfold pretty, pretty_positive, pretty, pretty_N.
    case_decide; [reflexivity|]. by apply pretty_N_go_decimal.
  - change (decimal_char minus
            && all_chars decimal_char (of_ascii (pretty p)) = true).
    unfold pretty, pretty_positive, pretty, pretty_N.
    case_decide; [reflexivity|]. by apply pretty_N_go_decimal.
Qed.

Lemma str_of_int_normal z : remove_spaces (strip (str_of_int z)) = str_of_int z.
Proof.
  pose proof (str_of_int_decimal z) as H. unfold strip.
  rewrite (lstrip_id _ _ decimal_char_not_space H).
  rewrite (rstrip_id _ _ decimal_char_not_space H).
  exact (remove_spaces_id _ _ decimal_char_not_space H).
Qed.

Lemma decimal_no_dot s : all_chars decimal_char s = true -> contains "." s = false.
Proof.
  induction s as [|a s IH]; [reflexivity|].
  cbn [contains startswith all_chars]. intros [Ha Hs]%andb_prop.
  rewrite (IH Hs), andb_true_r, orb_false_r.
  destruct (char_eqb_spec dot a) as [<-|]; [discriminate Ha|reflexivity].
Qed.

(** ** Floats *)

Lemma int_of_integer_float f N : is_integer_float f N -> int_of_float f = Ok N.
Proof.
  intros (q & Hq & HN). destruct f as [m e| |]; simpl in Hq; [|discriminate..].
  injection Hq as <-. simpl. f_equal.
  destruct (Z.leb_spec 0 e) as [He|He].
  - change (2 # 1)%Q with (inject_Z 2) in HN.
    rewrite <- Zpower_Qpower, <- inject_Z_mult in HN by exact He.
    exact (proj1 (inject_Z_injective _ _) HN).
  - assert (0 < 2 ^ (- e)) as Hpos by (apply Z.pow_pos_nonneg; lia).
    assert (Qeq (inject_Z m) (inject_Z (N * 2 ^ (- e)))) as Hm.
    { rewrite inject_Z_mult, Zpower_Qpower by lia.
      rewrite <- HN. change (inject_Z 2) with (2 # 1)%Q.
      rewrite <- Qmult_assoc, <- Qpower_plus by discriminate.
      replace (e + - e) with 0 by lia. simpl. ring. }
    rewrite (proj1 (inject_Z_injective _ _) Hm).
    apply Z.quot_mul. lia.
Qed.

Lemma str_int_float_classes (P : Platform) c e :
  float_accepts c = true ->
  str_int_float P c = Raise e ->
  existsb (exc_class_eqb (exc_kind e)) [ValueError; OverflowError] = true.
Proof.
  unfold str_int_float, and_then, cell_float, float_of_int, int_of_float.
  intros Hc H. destruct c; try discriminate Hc.
  all: repeat (case_match; simplify_eq/=); reflexivity.
Qed.

Lemma str_int_float_rejects (P : Platform) c :
  float_accepts c = false ->
  exists e, str_int_float P c = Raise e /\ exc_kind e = TypeError.
Proof.
  destruct c; try discriminate; intros _; eexists; split; reflexivity.
Qed.

(** The two variants normalize alike the cells that [float()] accepts. *)
Lemma normalize_ean_agree (P : Platform) c :
  float_accepts c = true ->
  Basic.normalize_ean P c = Pro.normalize_ean P c.
Proof.
  intros Hc.
  unfold Basic.normalize_ean, Pro.normalize_ean, try_except_only, try_except.
  destruct (str_int_float P c) as [s|e] eqn:E; [reflexivity|].
  cbn [and_then]. rewrite (str_int_float_classes P c e Hc E). reflexivity.
Qed.

(** The basic variant lets the [TypeError] of the other cells through. *)
Lemma basic_normalize_ean_rejects (P : Platform) c :
  float_accepts c = false ->
  exists e, Basic.normalize_ean P c = Raise e /\ exc_kind e = TypeError.
Proof.
  intros Hc. destruct (str_int_float_rejects P c Hc) as (e & He & Hk).
  exists e. split; [|exact Hk].
  unfold Basic.normalize_ean, try_except_only, try_except.
  rewrite He. cbn [and_then]. by rewrite Hk.
Qed.

Lemma basic_normalize_ean_cases (P : Platform) c :
  (float_accepts c = true /\ Basic.normalize_ean P c = Pro.normalize_ean P c) \/
  (float_accepts c = false /\
   exists e, Basic.normalize_ean P c = Raise e /\ exc_kind e = TypeError).
Proof.
  destruct (float_accepts c) eqn:Hc; [left|right]; (split; [done|]).
  - by apply normalize_ean_agree.
  - by apply basic_normalize_ean_rejects.
Qed.

Lemma normalize_ean_total (P : Platform) c :
  Pro.normalize_ean P c =
    Ok (match str_int_float P c with
        | Ok s => remove_spaces (strip s)
        | Raise _ => remove_spaces (strip (cell_str P c))
        end).
Proof.
  unfold Pro.normalize_ean, try_except.
  destruct (str_int_float P c); reflexivity.
Qed.

(** ** C2: the identifier normalizer *)

(** C2. The normalizer of the enhanced variant returns a text for every
    cell. For a float cell that is the integer [N] (written [N.0]) the text
    is the decimal string of [N], in which no dot occurs; for a cell on
    which [str(int(float(cell)))] raises, it is the literal string form of
    the cell, stripped and with its spaces removed; in all cases the text
    neither starts nor ends with white space and contains no space. The
    normalizer of the basic variant returns the same text for every cell
    that [float()] accepts: a number, a truth value or a text. On a cell
    of another type, such as a date, [float()] raises [TypeError], which
    the basic variant does not catch: there it returns no text. *)
Theorem C2_identifier_normalizer (P : Platform) (c : cell) :
  exists s,
    Pro.normalize_ean P c = Ok s /\
    (float_accepts c = true -> Basic.normalize_ean P c = Ok s) /\
    (float_accepts c = false ->
     exists e, Basic.normalize_ean P c = Raise e /\ exc_kind e = TypeError) /\
    (forall f N, c = CFloat f -> is_integer_float f N ->
       s = str_of_int N /\ contains "." s = false) /\
    (is_Ok (str_int_float P c) = false ->
       s = remove_spaces (strip (cell_str P c))) /\
    clean_identifier s.
Proof.
  eexists. split; [apply normalize_ean_total|].
  split; [intros Hc; rewrite (normalize_ean_agree P c Hc);
          apply normalize_ean_total|].
  split; [apply basic_normalize_ean_rejects|].
  split; [|split].
  - intros f N -> HN. unfold str_int_float. simpl.
    rewrite (int_of_integer_float f N HN). simpl.
    rewrite str_of_int_normal. split; [reflexivity|].
    apply decimal_no_dot, str_of_int_decimal.
  - destruct (str_int_float P c); [discriminate|reflexivity].
  - destruct (str_int_float P c); apply normalized_clean.
Qed.

Lemma C2_identifier_normalizer_witness :
  Pro.normalize_ean (Demo.platform Demo.net_down)
    (CFloat (Finite 1234567890123 0)) = Ok "1234567890123" /\
  Basic.normalize_ean (Demo.platform Demo.net_down)
    (CText "97 88 x") = Ok "9788x" /\
  Pro.normalize_ean (Demo.platform Demo.net_down)
    (CObject "Timestamp" "2024-05-01 00:00:00") = Ok "2024-05-0100:00:00" /\
  exists e,
    Basic.normalize_ean (Demo.platform Demo.net_down)
      (CObject "Timestamp" "2024-05-01 00:00:00") = Raise e /\
    exc_kind e = TypeError.
Proof.
  split; [|split; [|split]].
  - destruct (C2_identifier_normalizer (Demo.platform Demo.net_down)
                (CFloat (Finite 1234567890123 0))) as (s & Hs & _ & _ & HN & _).
    destruct (HN (Finite 1234567890123 0) 1234567890123 eq_refl) as [-> _].
    { eexists. split; [reflexivity|]. reflexivity. }
    exact Hs.
  - destruct (C2_identifier_normalizer (Demo.platform Demo.net_down)
                (CText "97 88 x")) as (s & _ & Hs & _ & _ & Hlit & _).
    rewrite (Hlit eq_refl) in Hs. exact (Hs eq_refl).
  - destruct (C2_identifier_normalizer (Demo.platform Demo.net_down)
                (CObject "Timestamp" "2024-05-01 00:00:00"))
      as (s & Hs & _ & _ & _ & Hlit & _).
    rewrite (Hlit eq_refl) in Hs. exact Hs.
  - destruct (C2_identifier_normalizer (Demo.platform Demo.net_down)
                (CObject "Timestamp" "2024-05-01 00:00:00"))
      as (s & _ & _ & Hrej & _).
    exact (Hrej eq_refl).
Defined.

(** ** C6 and C9: transparency flattening *)

Lemma has_transparency_none (P : Platform) (img : image P) :
  no_transparency P img <-> Pro.has_transparency P img = Ok false.
Proof.
  unfold no_transparency, Pro.has_transparency, and_then.
  destruct (str_in (image_mode P img) ["RGBA"; "LA"]) eqn:Hin.
  - assert (str_eqb (image_mode P img) "RGBA"
            || str_eqb (image_mode P img) "LA" = true) as Hm.
    { unfold str_in in Hin. simpl in Hin. by rewrite orb_false_r in Hin. }
    assert (image_mode P img <> "P") as HP.
    { intros E. rewrite E in Hm. discriminate. }
    assert (forall b : bool,
              (if str_eqb (image_mode P img) "RGBA" then b
               else if str_eqb (image_mode P img) "LA" then b else false) = b)
      as Hsel.
    { intros b. destruct (str_eqb (image_mode P img) "RGBA"); [done|].
      simpl in Hm. by rewrite Hm. }
    split.
    + intros [Ha _]. specialize (Ha eq_refl). rewrite Ha.
      destruct (str_eqb (image_mode P img) "RGBA"); [reflexivity|].
      destruct (str_eqb (image_mode P img) "LA"); reflexivity.
    + intros H. split; [intros _|done].
      destruct (alpha_extrema P img) as [x|e].
      * destruct (decide (x = (255, 255))) as [->|Hx]; [reflexivity|].
        rewrite (bool_decide_eq_false_2 _ Hx) in H. simpl in H.
        destruct (str_eqb (image_mode P img) "RGBA"); [discriminate|].
        destruct (str_eqb (image_mode P img) "LA"); discriminate.
      * destruct (str_eqb (image_mode P img) "RGBA"); [discriminate|].
        destruct (str_eqb (image_mode P img) "LA"); discriminate.
  - split.
    + intros [_ Hp].
      destruct (str_eqb_spec (image_mode P img) "P") as [E|]; [|reflexivity].
      rewrite (Hp E). reflexivity.
    + intros H. split; [discriminate|]. intros E.
      rewrite E in H. simpl in H.
      destruct (info_transparency P img); [discriminate|reflexivity].
Qed.

(** C6. When the decoded image carries no transparency (an alpha channel,
    if any, has no pixel that is not fully opaque, and a palette image has
    no transparency marker), [has_transparency] finds none and
    [add_white_background] returns the very bytes it was given. *)
Theorem C6_opaque_passthrough (P : Platform) (image_bytes : bytes) (img : image P) :
  Image_open P image_bytes = Ok img ->
  no_transparency P img ->
  Pro.has_transparency P img = Ok false /\
  Pro.add_white_background P image_bytes = Ok image_bytes.
Proof.
  intros Hopen Hnone. apply has_transparency_none in Hnone.
  split; [exact Hnone|].
  unfold Pro.add_white_background, Pro.white_background.
  rewrite Hopen. cbn [and_then]. rewrite Hnone. reflexivity.
Qed.

Lemma C6_opaque_passthrough_witness :
  Pro.add_white_background (Demo.platform Demo.net_down) [Byte.x4f; Byte.x07]
  = Ok [Byte.x4f; Byte.x07].
Proof.
  refine (proj2 (C6_opaque_passthrough (Demo.platform Demo.net_down)
                   [Byte.x4f; Byte.x07]
                   (Demo.Picture "RGBA" (Some "PNG") false (255, 255) [Byte.x07])
                   eq_refl _)).
  split; [reflexivity | discriminate].
Defined.

(** C9. [add_white_background] returns bytes for every input and never
    raises: when anything in its [try] block raises, be it the decoding
    of the bytes or the encoding of the flattened image, the bytes
    returned are the input. *)
Theorem C9_flattening_total (P : Platform) (image_bytes : bytes) :
  exists r,
    Pro.add_white_background P image_bytes = Ok r /\
    (forall e, Image_open P image_bytes = Raise e -> r = image_bytes) /\
    (forall e, Pro.white_background P image_bytes = Raise e -> r = image_bytes) /\
    (forall r', Pro.white_background P image_bytes = Ok r' -> r = r').
Proof.
  unfold Pro.add_white_background, try_except.
  destruct (Pro.white_background P image_bytes) as [r|e] eqn:E.
  - exists r. repeat split; try congruence.
    intros e He. unfold Pro.white_background in E. rewrite He in E. discriminate.
  - exists image_bytes. repeat split; congruence.
Qed.

Lemma C9_flattening_total_witness :
  Pro.add_white_background (Demo.platform Demo.net_down) [Byte.x00; Byte.x01]
  = Ok [Byte.x00; Byte.x01].
Proof.
  destruct (C9_flattening_total (Demo.platform Demo.net_down) [Byte.x00; Byte.x01])
    as (r & Hr & Hopen & _).
  rewrite (Hopen (Exc OSError "cannot identify image file") eq_refl) in Hr.
  exact Hr.
Defined.

(** ** C4: the image fetcher *)

Lemma requests_made_app t t' :
  requests_made (t ++ t') = (requests_made t + requests_made t')%nat.
Proof. unfold requests_made. by rewrite filter_app, length_app. Qed.

Lemma requests_made_fetch_trace url k : requests_made (fetch_trace url k) = k.
Proof.
  induction k as [|k IH]; [reflexivity|].
  destruct k as [|k]; [reflexivity|].
  change (S (requests_made (fetch_trace url (S k))) = S (S k)).
  by rewrite IH.
Qed.

Lemma transport_failure_caught (e : exception) :
  existsb (exc_class_eqb (exc_kind e)) [RequestException]
  = transport_failure (@Raise bytes e).
Proof. simpl. apply orb_false_r. Qed.

Lemma attempts_spec (P : Platform) url left t :
  exists k,
    (1 <= k <= left + 1)%nat /\
    Pro.attempts P left url t
    = (http_get P (requests_made t + k - 1) url, (t ++ fetch_trace url k)%list) /\
    (forall j, (j < k - 1)%nat ->
       transport_failure (http_get P (requests_made t + j) url) = true) /\
    ((k < left + 1)%nat ->
       transport_failure (http_get P (requests_made t + k - 1) url) = false).
Proof.
  revert t. induction left as [|left IH]; intros t.
  - exists 1%nat. split; [lia|]. split; [|split; intros; lia].
    replace (requests_made t + 1 - 1)%nat with (requests_made t) by lia.
    unfold Pro.attempts, try_catch_only, try_catch, request, raise.
    destruct (http_get P (requests_made t) url) as [b|e]; [reflexivity|].
    by destruct (existsb _ _).
  - cbn [Pro.attempts]. unfold try_catch_only, try_catch, request.
    destruct (http_get P (requests_made t) url) as [b|e] eqn:E.
    + exists 1%nat. split; [lia|].
      replace (requests_made t + 1 - 1)%nat with (requests_made t) by lia.
      rewrite E. split; [reflexivity|]. split; intros; [lia|reflexivity].
    + rewrite transport_failure_caught.
      destruct (transport_failure (Raise e)) eqn:Hf.
      * unfold bind, sleep, modify.
        destruct (IH ((t ++ [EvGet url]) ++ [EvSleep (2 # 1)])%list)
          as (k & Hk & Hrun & Hbefore & Hlast).
        rewrite !requests_made_app in Hrun, Hbefore, Hlast.
        change (requests_made [EvGet url]) with 1%nat in *.
        change (requests_made [EvSleep (2 # 1)]) with 0%nat in *.
        exists (S k). split; [lia|].
        replace (requests_made t + S k - 1)%nat
          with (requests_made t + 1 + 0 + k - 1)%nat by lia.
        split; [|split].
        -- rewrite Hrun. f_equal. rewrite <- !app_assoc.
           destruct k; [lia|reflexivity].
        -- intros j Hj. destruct j as [|j].
           ++ rewrite Nat.add_0_r, E. exact Hf.
           ++ replace (requests_made t + S j)%nat
                with (requests_made t + 1 + 0 + j)%nat by lia.
              apply Hbefore. lia.
        -- intros Hlt. apply Hlast. lia.
      * exists 1%nat. split; [lia|].
        replace (requests_made t + 1 - 1)%nat with (requests_made t) by lia.
        rewrite E. split; [reflexivity|]. split; intros; [lia|exact Hf].
Qed.

(** The fetcher of the enhanced variant lets a transport-level failure
    reach the caller only after three attempts. *)
Lemma pro_gives_up_after_three : gives_up_after_three Pro.pobierz_obraz.
Proof.
  intros P url t Hfail. unfold Pro.pobierz_obraz in *.
  destruct (attempts_spec P url Pro.max_retries t) as (k & Hk & Hrun & _ & Hlast).
  rewrite Hrun in *. cbn [fst snd] in *.
  rewrite requests_made_app, requests_made_fetch_trace.
  unfold Pro.max_retries in *.
  destruct (decide (k = 3%nat)) as [->|]; [reflexivity|].
  rewrite Hlast in Hfail by lia. discriminate.
Qed.

(** C4, as amended. The fetcher of the enhanced variant makes [k] attempts,
    between one and three, with a pause of two seconds between them: every
    attempt before the last met a transport-level failure, the result is
    that of the last attempt, which is a success (the body of the response)
    or an error of another kind whenever fewer than three attempts were
    made, so a transport-level failure reaches the caller only after three
    attempts. The fetcher of the basic variant makes one attempt and hands
    its result, body or failure, to the caller. *)
Theorem C4_fetch_attempts (P : Platform) (url : str) (t : list event) :
  (exists k,
     (1 <= k <= 3)%nat /\
     Pro.pobierz_obraz P url t
     = (http_get P (requests_made t + k - 1) url, (t ++ fetch_trace url k)%list) /\
     (forall j, (j < k - 1)%nat ->
        transport_failure (http_get P (requests_made t + j) url) = true) /\
     ((k < 3)%nat ->
        transport_failure (http_get P (requests_made t + k - 1) url) = false)) /\
  gives_up_after_three Pro.pobierz_obraz /\
  Basic.pobierz_obraz P url t
  = (http_get P (requests_made t) url, (t ++ [EvGet url])%list).
Proof.
  split; [exact (attempts_spec P url Pro.max_retries t)|].
  split; [exact pro_gives_up_after_three|reflexivity].
Qed.

(** C4 as stated fails for the basic variant: a request that times out is
    not tried again, although the next one would have been answered. *)
Lemma C4_basic_fetch_counterexample :
  Basic.pobierz_obraz (Demo.platform (Demo.net_up_after 1 [Byte.x52]))
    "http://h/a.jpg" []
  = (Raise Demo.timeout_error, [EvGet "http://h/a.jpg"]) /\
  Pro.pobierz_obraz (Demo.platform (Demo.net_up_after 1 [Byte.x52]))
    "http://h/a.jpg" []
  = (Ok [Byte.x52],
     [EvGet "http://h/a.jpg"; EvSleep (2 # 1); EvGet "http://h/a.jpg"]) /\
  ~ gives_up_after_three Basic.pobierz_obraz.
Proof.
  split; [reflexivity|]. split; [reflexivity|].
  intros H.
  specialize (H (Demo.platform (Demo.net_up_after 1 [Byte.x52]))
                "http://h/a.jpg" [] eq_refl).
  discriminate H.
Qed.

(** ** The rows, one outcome at a time *)

Arguments Pro.pobierz_obraz : simpl never.
Arguments Pro.add_white_background : simpl never.
Arguments Pro.convert_webp_to_png : simpl never.
Arguments Pro.normalize_ean : simpl never.
Arguments Pro.incr : simpl never.
Arguments Basic.convert_webp_to_png : simpl never.
Arguments Basic.normalize_ean : simpl never.
Arguments Basic.incr : simpl never.
Arguments fetch_trace : simpl never.
Arguments cell_str : simpl never.

Lemma add_white_background_total (P : Platform) b :
  Pro.add_white_background P b
  = Ok (match Pro.white_background P b with Ok r => r | Raise _ => b end).
Proof.
  unfold Pro.add_white_background, try_except.
  by destruct (Pro.white_background P b).
Qed.

Lemma normalize_ean_inv (P : Platform) c ean :
  Pro.normalize_ean P c = Ok ean <->
  match str_int_float P c with
  | Ok s => remove_spaces (strip s)
  | Raise _ => remove_spaces (strip (cell_str P c))
  end = ean.
Proof. rewrite normalize_ean_total. split; congruence. Qed.

(** One step of the execution of a statement: a case analysis on the
    innermost value that a [match] or an [if] is waiting for. *)
Ltac exec_step :=
  match goal with
  | |- context [match ?x with _ => _ end] =>
      lazymatch x with
      | context [match _ with _ => _ end] => fail
      | _ => destruct x eqn:?
      end
  end.

Ltac split_conditions :=
  repeat match goal with
         | H : _ && _ = true |- _ => apply andb_prop in H as [? ?]
         | H : negb _ = true |- _ => apply negb_true_iff in H
         end.

Lemma pro_process_row_effect (P : Platform) cfg flt r st :
  exists out st',
    Pro.process_row P cfg flt r st = (Ok out, st') /\
    Pro.row_effect P cfg flt r st out st'.
Proof.
  destruct st as [d f s el p tp t].
  destruct (attempts_spec P (cell_str P (row_link r)) Pro.max_retries t)
    as (k & Hk & Hrun & _).
  fold (Pro.attempts P Pro.max_retries) in Hrun.
  change (Pro.attempts P Pro.max_retries) with (Pro.pobierz_obraz P) in Hrun.
  unfold Pro.max_retries in Hk.
  pose proof (normalize_ean_inv P (row_ean r)) as Hnorm.
  unfold Pro.process_row, Pro.try_body, Pro.bundle_add.
  unfold bind, ret, lift, gets, modify, try_catch, raise, Pro.bump, Pro.store_file,
    Pro.add_found, Pro.log_error, Pro.log_pdf, Pro.log_transparency, Pro.outside,
    sleep, modify.
  rewrite normalize_ean_total.
  repeat (cbn beta iota zeta; rewrite ?Hrun, ?add_white_background_total; exec_step).
  all: split_conditions; try congruence.
  all: cbn [Pro.downloaded_files] in *.
  all: eexists _, _; (split; [reflexivity|]); rewrite <- ?app_assoc.
  all: try match goal with
           | H : str_int_float _ _ = _ |- _ => rewrite H in Hnorm
           end.
  all: solve
    [ apply Pro.RowEmpty; assumption
    | eapply Pro.RowFilteredOut; eauto; by apply Hnorm
    | eapply Pro.RowUnsupported; repeat split; eauto; by apply Hnorm
    | eapply Pro.RowFailed with (k := k); [repeat split; eauto; by apply Hnorm | lia]
    | eapply Pro.RowFailed with (k := 0%nat); [repeat split; eauto; by apply Hnorm | lia]
    | eapply Pro.RowDuplicate;
        [repeat split; eauto; by apply Hnorm | lia | constructor
        | eassumption | assumption]
    | eapply Pro.RowAdded;
        [repeat split; eauto; by apply Hnorm | lia | constructor
        | match goal with
          | H : _ && negb _ = false |- _ =>
              apply andb_false_iff in H as [?|?%negb_false_iff]; eauto
          end] ].
Qed.

Lemma pro_process_rows_effect (P : Platform) cfg flt rows st :
  exists outs st',
    Pro.process_rows P cfg flt rows st = (Ok outs, st') /\
    Pro.rows_effect P cfg flt rows st outs st'.
Proof.
  revert st. induction rows as [|r rows IH]; intros st.
  - exists [], st. split; [reflexivity|constructor].
  - destruct (pro_process_row_effect P cfg flt r st) as (out & st1 & Hrow & Heff).
    destruct (IH st1) as (outs & st2 & Hrows & Heffs).
    exists (out :: outs), st2. split; [|econstructor; eassumption].
    cbn [Pro.process_rows]. unfold bind, ret. by rewrite Hrow, Hrows.
Qed.

Ltac unfold_basic_row :=
  unfold Basic.process_row, Basic.try_body, Basic.write_file, Basic.put_file,
    Basic.pobierz_obraz;
  unfold bind, ret, lift, gets, modify, try_catch, raise, Basic.bump,
    Basic.log_error, Basic.outside, request, sleep, modify.

Ltac new_or_overwritten :=
  match goal with
  | H : _ && negb _ = false |- _ =>
      apply andb_false_iff in H as [?|?%negb_false_iff]; eauto
  end.

Lemma basic_process_row_effect (P : Platform) cfg r st :
  basic_readable r = true ->
  exists out st',
    Basic.process_row P cfg r st = (Ok out, st') /\
    Basic.row_effect P cfg r st out st'.
Proof.
  intros Hread. destruct st as [d s el t].
  pose proof (normalize_ean_inv P (row_ean r)) as Hnorm.
  unfold_basic_row.
  destruct (isna (row_link r) || isna (row_ean r)) eqn:Hna.
  { eexists _, _. split; [reflexivity|]. by apply Basic.RowEmpty. }
  unfold basic_readable in Hread. rewrite Hna in Hread. cbn [orb] in Hread.
  rewrite <- (normalize_ean_agree P _ Hread) in Hnorm.
  rewrite (normalize_ean_agree P _ Hread), normalize_ean_total.
  repeat (cbn beta iota zeta; exec_step).
  all: split_conditions; try congruence.
  all: cbn [Basic.folder] in *.
  all: eexists _, _; (split; [reflexivity|]); rewrite <- ?app_assoc.
  all: try match goal with
           | H : str_int_float _ _ = _ |- _ => rewrite H in Hnorm
           end.
  all: solve
    [ eapply Basic.RowExisting; eassumption
    | eapply Basic.RowFailed with (k := 1%nat);
        [assumption | by apply Hnorm | lia | constructor
        | first [ by left
                | right; eexists _, _; (split; [|reflexivity]);
                  new_or_overwritten ] ]
    | rewrite <- (app_nil_r t) at 2;
      eapply Basic.RowFailed with (k := 0%nat);
        [assumption | by apply Hnorm | lia | constructor | by left]
    | eapply Basic.RowAdded; [assumption | constructor | new_or_overwritten] ].
Qed.

(** A row the basic variant cannot read ends the run: the [TypeError] of
    [float()] leaves the loop, and the row changes nothing. *)
Lemma basic_process_row_abort (P : Platform) cfg r st :
  basic_readable r = false ->
  exists e,
    Basic.process_row P cfg r st = (Raise e, st) /\ exc_kind e = TypeError.
Proof.
  unfold basic_readable. intros [Hna Hc]%orb_false_elim.
  destruct (basic_normalize_ean_rejects P _ Hc) as (e & He & Hk).
  exists e. split; [|exact Hk].
  unfold Basic.process_row, bind, lift. by rewrite Hna, He.
Qed.

(** The rows of a run of the basic variant, up to the end of the table or
    to the first row that cannot be read. *)
Lemma basic_process_rows_effect (P : Platform) cfg rows st :
  exists res st' processed outs,
    Basic.process_rows P cfg rows st = (res, st') /\
    Basic.rows_effect P cfg processed st outs st' /\
    ((res = Ok outs /\ processed = rows) \/
     (exists e r rest,
        res = Raise e /\ exc_kind e = TypeError /\
        rows = (processed ++ r :: rest)%list /\ basic_readable r = false)).
Proof.
  revert st. induction rows as [|r rows IH]; intros st.
  - exists (Ok []), st, [], []. split; [reflexivity|]. split; [constructor|].
    by left.
  - cbn [Basic.process_rows]. unfold bind, ret.
    destruct (basic_readable r) eqn:Hread.
    + destruct (basic_process_row_effect P cfg r st Hread)
        as (out & st1 & Hrow & Heff).
      destruct (IH st1) as (res & st2 & processed & outs & Hrows & Heffs & Hres).
      rewrite Hrow, Hrows.
      destruct Hres as [[-> ->]|(e & r' & rest & -> & Hk & -> & Hr')].
      * exists (Ok (out :: outs)), st2, (r :: rows), (out :: outs).
        split; [reflexivity|]. split; [econstructor; eassumption|]. by left.
      * exists (Raise e), st2, (r :: processed), (out :: outs).
        split; [reflexivity|]. split; [econstructor; eassumption|].
        right. by exists e, r', rest.
    + destruct (basic_process_row_abort P cfg r st Hread) as (e & Hrow & Hk).
      rewrite Hrow. exists (Raise e), st, [], [].
      split; [reflexivity|]. split; [constructor|].
      right. by exists e, r, rows.
Qed.

Lemma basic_process_rows_ok (P : Platform) cfg rows st outs st' :
  Basic.process_rows P cfg rows st = (Ok outs, st') ->
  Basic.rows_effect P cfg rows st outs st'.
Proof.
  intros Hrun.
  destruct (basic_process_rows_effect P cfg rows st)
    as (res & st2 & processed & outs2 & Hrun2 & Heff & Hres).
  rewrite Hrun in Hrun2. injection Hrun2 as <- <-.
  destruct Hres as [[[= <-] ->]|(e & r & rest & [=] & _)]. exact Heff.
Qed.

Lemma basic_process_rows_readable (P : Platform) cfg rows st :
  Forall (fun r => basic_readable r = true) rows ->
  exists outs st',
    Basic.process_rows P cfg rows st = (Ok outs, st') /\
    Basic.rows_effect P cfg rows st outs st'.
Proof.
  intros Hall.
  destruct (basic_process_rows_effect P cfg rows st)
    as (res & st' & processed & outs & Hrun & Heff & Hres).
  destruct Hres as [[-> ->]|(e & r & rest & _ & _ & -> & Hr)].
  - by exists outs, st'.
  - apply Forall_app in Hall as [_ Hall]. apply Forall_cons in Hall as [Hr' _].
    congruence.
Qed.

(** A run of the basic variant, however it ends: the rows it processed
    are the whole table when it ends well, and the rows before the one it
    could not read otherwise. *)
Lemma basic_run_effect (P : Platform) cfg rows files t res st' :
  Basic.run P cfg rows files t = (res, st') ->
  exists processed outs,
    Basic.rows_effect P cfg processed (Basic.state0 files t) outs st' /\
    (length processed <= length rows)%nat /\
    (forall outs', res = Ok outs' -> outs' = outs /\ processed = rows).
Proof.
  unfold Basic.run. intros Hrun.
  destruct (basic_process_rows_effect P cfg rows (Basic.state0 files t))
    as (res2 & st2 & processed & outs & Hrun2 & Heff & Hres).
  rewrite Hrun in Hrun2. injection Hrun2 as <- <-.
  exists processed, outs. split; [exact Heff|].
  destruct Hres as [[-> ->]|(e & r & rest & -> & _ & -> & _)].
  - split; [done|]. by intros outs' [= <-].
  - split; [rewrite length_app; simpl; lia|]. by intros outs' [=].
Qed.

(** ** C1: the counters *)

Lemma pro_count_incr c c' s :
  Pro.count c (Pro.incr c' s)
  = (Pro.count c s + if decide (c = c') then 1 else 0)%nat.
Proof.
  destruct s, c, c'; unfold Pro.incr, Pro.count;
    case_decide; try discriminate; try congruence; cbn; lia.
Qed.

Lemma basic_count_incr c c' s :
  Basic.count c (Basic.incr c' s)
  = (Basic.count c s + if decide (c = c') then 1 else 0)%nat.
Proof.
  destruct s, c, c'; unfold Basic.incr, Basic.count;
    case_decide; try discriminate; try congruence; cbn; lia.
Qed.

Lemma pro_row_effect_counts (P : Platform) cfg flt r st out st' :
  Pro.row_effect P cfg flt r st out st' ->
  (forall c, Pro.processing_counter c = false ->
     Pro.count c (Pro.run_stats st')
     = (Pro.count c (Pro.run_stats st)
        + if decide (c = Pro.outcome_counter out) then 1 else 0)%nat) /\
  (Pro.konwersje (Pro.run_stats st) <= Pro.konwersje (Pro.run_stats st'))%nat /\
  (Pro.transparency_fixed (Pro.run_stats st)
   <= Pro.transparency_fixed (Pro.run_stats st'))%nat /\
  (Pro.konwersje (Pro.run_stats st') + Pro.transparency_fixed (Pro.run_stats st')
   <= Pro.konwersje (Pro.run_stats st) + Pro.transparency_fixed (Pro.run_stats st) + 1)%nat.
Proof.
  intros H.
  change Pro.konwersje with (Pro.count Pro.Konwersje).
  change Pro.transparency_fixed with (Pro.count Pro.TransparencyFixed).
  destruct H;
    repeat match goal with
           | H : Pro.processing_counted _ _ _ |- _ => inversion H; subst; clear H
           end;
    cbn [Pro.run_stats Pro.outcome_counter];
    rewrite ?pro_count_incr; (split; [|repeat case_decide; try discriminate; lia]);
    intros c Hc; rewrite ?pro_count_incr;
    destruct c; try discriminate Hc; repeat case_decide; try discriminate; lia.
Qed.

Lemma basic_row_effect_counts (P : Platform) cfg r st out st' :
  Basic.row_effect P cfg r st out st' ->
  (forall c, Basic.processing_counter c = false ->
     Basic.count c (Basic.run_stats st')
     = (Basic.count c (Basic.run_stats st)
        + if decide (c = Basic.outcome_counter out) then 1 else 0)%nat) /\
  (Basic.konwersje (Basic.run_stats st) <= Basic.konwersje (Basic.run_stats st')
   <= Basic.konwersje (Basic.run_stats st) + 1)%nat.
Proof.
  intros H.
  change Basic.konwersje with (Basic.count Basic.Konwersje).
  destruct H;
    repeat match goal with
           | H : Basic.processing_counted _ _ |- _ => inversion H; subst; clear H
           end;
    cbn [Basic.run_stats Basic.outcome_counter];
    rewrite ?basic_count_incr; (split; [|repeat case_decide; try discriminate; lia]);
    intros c Hc; rewrite ?basic_count_incr;
    destruct c; try discriminate Hc; repeat case_decide; try discriminate; lia.
Qed.

Lemma pro_rows_counted_count s :
  Pro.rows_counted s
  = (Pro.count Pro.Sukces s + Pro.count Pro.Blad s + Pro.count Pro.Istnieje s
     + Pro.count Pro.NieznalezioneEan s + Pro.count Pro.PdfPominiete s
     + Pro.count Pro.PusteWiersze s)%nat.
Proof. reflexivity. Qed.

Lemma pro_rows_effect_counted (P : Platform) cfg flt rows st outs st' :
  Pro.rows_effect P cfg flt rows st outs st' ->
  length outs = length rows /\
  Pro.rows_counted (Pro.run_stats st')
  = (Pro.rows_counted (Pro.run_stats st) + length rows)%nat.
Proof.
  induction 1 as [st|r rows st out st1 outs st2 Hrow _ [IHl IHc]].
  - split; [reflexivity|]. simpl. lia.
  - split; [simpl; congruence|]. rewrite IHc.
    apply pro_row_effect_counts in Hrow as [Hrow _].
    rewrite !pro_rows_counted_count, !Hrow by reflexivity.
    destruct out; cbn [Pro.outcome_counter length];
      repeat case_decide; try discriminate; try congruence; lia.
Qed.

Lemma basic_rows_effect_counted (P : Platform) cfg rows st outs st' :
  Basic.rows_effect P cfg rows st outs st' ->
  length outs = length rows /\
  Basic.rows_counted (Basic.run_stats st')
  = (Basic.rows_counted (Basic.run_stats st) + length rows)%nat.
Proof.
  induction 1 as [st|r rows st out st1 outs st2 Hrow _ [IHl IHc]].
  - split; [reflexivity|]. simpl. lia.
  - split; [simpl; congruence|]. rewrite IHc.
    apply basic_row_effect_counts in Hrow as [Hrow _].
    unfold Basic.rows_counted.
    change Basic.sukces with (Basic.count Basic.Sukces).
    change Basic.blad with (Basic.count Basic.Blad).
    change Basic.pominieto with (Basic.count Basic.Pominieto).
    rewrite !Hrow by reflexivity.
    destruct out; cbn [Basic.outcome_counter length];
      repeat case_decide; try discriminate; try congruence; lia.
Qed.

Lemma parse_ean_total (P : Platform) ean : exists s, Pro.parse_ean P ean = Ok s.
Proof.
  unfold Pro.parse_ean, try_except_only, try_except.
  destruct (str_int_float P (CText ean)) as [s|e] eqn:E; cbn [and_then]; [eauto|].
  rewrite (str_int_float_classes P (CText _) e eq_refl E). eauto.
Qed.

Lemma parse_lines_total (P : Platform) lines :
  exists l, Pro.parse_lines P lines = Ok l.
Proof.
  induction lines as [|line lines [l IH]]; [by exists []|].
  cbn [Pro.parse_lines]. destruct (nonempty (strip line)); [|eauto].
  destruct (parse_ean_total P (strip line)) as [s ->].
  cbn [and_then]. rewrite IH. eauto.
Qed.

Lemma make_filter_total (P : Platform) text :
  exists flt, Pro.make_filter P text = Ok flt.
Proof.
  unfold Pro.make_filter, Pro.parse_ean_list.
  destruct (nonempty text); [|eauto]. cbn [negb].
  destruct (parse_lines_total P (split_lines (strip text))) as [l ->]. eauto.
Qed.

Lemma pro_run_effect (P : Platform) cfg rows t :
  exists flt outs st,
    Pro.make_filter P (Pro.ean_filter_text cfg) = Ok flt /\
    Pro.rows_effect P cfg flt rows (Pro.state0 t) outs st /\
    Pro.run P cfg rows t
    = Ok (outs,
          Pro.Results (Pro.run_stats st) (Pro.errors_log st) (Pro.pdf_eans st)
            (Pro.downloaded_files st)
            (Pro.missing_eans flt (Pro.found_eans st))
            (Pro.transparency_processed st),
          Pro.trace st).
Proof.
  destruct (make_filter_total P (Pro.ean_filter_text cfg)) as [flt Hflt].
  destruct (pro_process_rows_effect P cfg flt rows (Pro.state0 t))
    as (outs & st & Hrun & Heff).
  exists flt, outs, st. split; [exact Hflt|]. split; [exact Heff|].
  unfold Pro.run. rewrite Hflt. cbn [and_then]. by rewrite Hrun.
Qed.

(** C1, as amended. Every row ends in exactly one outcome and is counted
    once under it: the counter of the outcome goes up by one and the
    counters of the other outcomes stay as they are, so that after a run
    the outcome counters add up to the number of rows. The counters of the
    image processing ([konwersje], [transparency_fixed]) are not among
    them: a row that was converted or given a white background is counted
    there as well, at most once. In the basic variant the outcome counters
    are [sukces], [blad] and [pominieto], and this is so for the rows it
    can read: the rows with a missing cell and the rows whose identifier
    cell is a number, a truth value or a text. *)
Theorem C1_row_counted_once (P : Platform) :
  (forall cfg flt r st,
     exists out st',
       Pro.process_row P cfg flt r st = (Ok out, st') /\
       (forall o,
          Pro.count (Pro.outcome_counter o) (Pro.run_stats st')
          = (Pro.count (Pro.outcome_counter o) (Pro.run_stats st)
             + if decide (o = out) then 1 else 0)%nat) /\
       (Pro.konwersje (Pro.run_stats st) <= Pro.konwersje (Pro.run_stats st'))%nat /\
       (Pro.transparency_fixed (Pro.run_stats st)
        <= Pro.transparency_fixed (Pro.run_stats st'))%nat /\
       (Pro.konwersje (Pro.run_stats st') + Pro.transparency_fixed (Pro.run_stats st')
        <= Pro.konwersje (Pro.run_stats st)
           + Pro.transparency_fixed (Pro.run_stats st) + 1)%nat) /\
  (forall cfg rows t,
     exists outs res t',
       Pro.run P cfg rows t = Ok (outs, res, t') /\
       length outs = length rows /\
       Pro.rows_counted (Pro.res_stats res) = length rows) /\
  (forall cfg r st,
     basic_readable r = true ->
     exists out st',
       Basic.process_row P cfg r st = (Ok out, st') /\
       (forall o,
          Basic.count (Basic.outcome_counter o) (Basic.run_stats st')
          = (Basic.count (Basic.outcome_counter o) (Basic.run_stats st)
             + if decide (Basic.outcome_counter o = Basic.outcome_counter out)
               then 1 else 0)%nat) /\
       (Basic.konwersje (Basic.run_stats st) <= Basic.konwersje (Basic.run_stats st')
        <= Basic.konwersje (Basic.run_stats st) + 1)%nat) /\
  (forall cfg rows files t,
     Forall (fun r => basic_readable r = true) rows ->
     exists outs st',
       Basic.run P cfg rows files t = (Ok outs, st') /\
       length outs = length rows /\
       Basic.rows_counted (Basic.run_stats st') = length rows).
Proof.
  repeat split.
  - intros cfg flt r st.
    destruct (pro_process_row_effect P cfg flt r st) as (out & st' & Hrow & Heff).
    exists out, st'. split; [exact Hrow|].
    apply pro_row_effect_counts in Heff as (Hc & Hk & Ht & Hsum).
    repeat split; try assumption.
    intros o. rewrite Hc by (by destruct o).
    destruct o, out; repeat case_decide; try discriminate; congruence.
  - intros cfg rows t.
    destruct (pro_run_effect P cfg rows t) as (flt & outs & st & _ & Heff & ->).
    eexists _, _, _. split; [reflexivity|].
    apply pro_rows_effect_counted in Heff as [Hl Hc].
    split; [exact Hl|]. cbn [Pro.res_stats]. rewrite Hc. reflexivity.
  - intros cfg r st Hread.
    destruct (basic_process_row_effect P cfg r st Hread)
      as (out & st' & Hrow & Heff).
    exists out, st'. split; [exact Hrow|].
    apply basic_row_effect_counts in Heff as (Hc & Hk).
    split; [|exact Hk].
    intros o. apply Hc. by destruct o.
  - intros cfg rows files t Hread. unfold Basic.run.
    destruct (basic_process_rows_readable P cfg rows (Basic.state0 files t) Hread)
      as (outs & st' & Hrun & Heff).
    exists outs, st'. split; [exact Hrun|].
    apply basic_rows_effect_counted in Heff as [Hl Hc].
    split; [exact Hl|]. rewrite Hc. reflexivity.
Qed.

Lemma C1_row_counted_once_witness :
  exists outs st',
    Basic.run (Demo.platform (Demo.net_up [Byte.x52; Byte.x01]))
      (Basic.Config true false)
      [Row (CInt 123) (CText "http://h/a.jpg"); Row (CFloat NaN) (CText "http://h/b.jpg")]
      [] []
    = (Ok outs, st') /\
    length outs = 2%nat /\
    Basic.rows_counted (Basic.run_stats st') = 2%nat.
Proof.
  apply (proj2 (proj2 (proj2 (C1_row_counted_once
           (Demo.platform (Demo.net_up [Byte.x52; Byte.x01])))))
           (Basic.Config true false)
           [Row (CInt 123) (CText "http://h/a.jpg");
            Row (CFloat NaN) (CText "http://h/b.jpg")] [] []).
  repeat constructor.
Defined.

(** C1 as stated fails: a row whose WebP image is converted and added is
    counted twice, under [konwersje] and under [sukces]. *)
Lemma C1_converted_row_counterexample :
  exists st',
    Pro.process_row (Demo.platform (Demo.net_up [Byte.x57; Byte.x01]))
      (Pro.Config true true false (3 # 2) "") None
      (Row (CFloat (Finite 456 0)) (CText "http://h/b.webp")) (Pro.state0 [])
    = (Ok Added, st') /\
    Pro.konwersje (Pro.run_stats st') = 1%nat /\
    Pro.sukces (Pro.run_stats st') = 1%nat /\
    Pro.total (Pro.run_stats st') = (Pro.total Pro.stats0 + 2)%nat.
Proof. eexists. split; [reflexivity|]. repeat split. Qed.

(** ** C3: the bundle *)

Section DictFacts.
Context {V : Type}.
Implicit Types (d : dict V) (k : str) (v : V).

Lemma dict_mem_keys k d : dict_mem k d = true <-> k ∈ dict_keys d.
Proof.
  unfold dict_mem, dict_keys. induction d as [|[k' v'] d IH]; simpl.
  - split; [discriminate|]. by intros ?%elem_of_nil.
  - rewrite elem_of_cons. destruct (str_eqb_spec k k') as [->|Hne].
    + split; [by left|done].
    + rewrite IH. split; [by right|]. by intros [?|?].
Qed.

Lemma dict_get_set_eq k v d : dict_get k (dict_set k v d) = Some v.
Proof.
  induction d as [|[k' v'] d IH]; simpl.
  - by rewrite str_eqb_refl.
  - destruct (str_eqb k k') eqn:E; simpl; rewrite E; [done|exact IH].
Qed.

Lemma dict_get_set_ne k k' v d :
  k <> k' -> dict_get k' (dict_set k v d) = dict_get k' d.
Proof.
  intros Hne. induction d as [|[k2 v2] d IH]; simpl.
  - by rewrite (proj2 (str_eqb_neq k' k)).
  - destruct (str_eqb_spec k k2) as [->|]; simpl.
    + by rewrite (proj2 (str_eqb_neq k' k2)).
    + by rewrite IH.
Qed.

Lemma dict_keys_set k v d :
  dict_keys (dict_set k v d)
  = if dict_mem k d then dict_keys d else (dict_keys d ++ [k])%list.
Proof.
  unfold dict_mem, dict_keys. induction d as [|[k' v'] d IH]; [done|].
  cbn [dict_set dict_get].
  destruct (str_eqb k k'); rewrite !fmap_cons; [done|].
  rewrite IH. by destruct (dict_get k d).
Qed.

Lemma dict_set_NoDup k v d :
  NoDup (dict_keys d) -> NoDup (dict_keys (dict_set k v d)).
Proof.
  intros Hd. pose proof (dict_keys_set k v d) as Hk.
  unfold dict_keys in *. rewrite Hk.
  destruct (dict_mem k d) eqn:E; [done|].
  apply NoDup_app. split; [done|]. split; [|apply NoDup_singleton].
  intros x Hx ->%list_elem_of_singleton.
  apply dict_mem_keys in Hx. congruence.
Qed.

Lemma dict_get_mem k d : dict_mem k d = false <-> dict_get k d = None.
Proof. unfold dict_mem. destruct (dict_get k d); naive_solver. Qed.

End DictFacts.

Lemma bundle_add_spec cfg filename data d f s e p tp t :
  Pro.bundle_add cfg filename data (Pro.RunState d f s e p tp t)
  = if dict_mem filename d && negb (Pro.overwrite cfg)
    then (Ok DuplicateSkipped, Pro.RunState d f (Pro.incr Pro.Istnieje s) e p tp t)
    else (Ok Added,
          Pro.RunState (dict_set filename data d) f (Pro.incr Pro.Sukces s) e p tp t).
Proof.
  unfold Pro.bundle_add, bind, gets, ret, modify, Pro.bump, Pro.store_file.
  cbn [Pro.downloaded_files].
  by destruct (dict_mem filename d && negb (Pro.overwrite cfg)).
Qed.

Lemma pro_row_effect_NoDup (P : Platform) cfg flt r st out st' :
  Pro.row_effect P cfg flt r st out st' ->
  NoDup (dict_keys (Pro.downloaded_files st)) ->
  NoDup (dict_keys (Pro.downloaded_files st')).
Proof. destruct 1; cbn [Pro.downloaded_files]; auto using dict_set_NoDup. Qed.

Lemma pro_rows_effect_NoDup (P : Platform) cfg flt rows st outs st' :
  Pro.rows_effect P cfg flt rows st outs st' ->
  NoDup (dict_keys (Pro.downloaded_files st)) ->
  NoDup (dict_keys (Pro.downloaded_files st')).
Proof. induction 1; eauto using pro_row_effect_NoDup. Qed.

Lemma first_payload_cons filename k v calls :
  first_payload filename ((k, v) :: calls)
  = if str_eqb filename k then Some v else first_payload filename calls.
Proof. unfold first_payload. simpl. by destruct (str_eqb filename k). Qed.

Lemma last_payload_cons filename k v calls :
  last_payload filename ((k, v) :: calls)
  = match last_payload filename calls with
    | Some w => Some w
    | None => if str_eqb filename k then Some v else None
    end.
Proof.
  unfold last_payload, first_payload. simpl.
  induction (rev calls) as [|[k' v'] l IH]; simpl.
  - by destruct (str_eqb filename k).
  - destruct (str_eqb filename k'); [done|exact IH].
Qed.

(** The bundle after a sequence of calls, from any state. *)
Lemma add_all_spec cfg calls st :
  exists outs st',
    Pro.add_all cfg calls st = (Ok outs, st') /\
    length outs = length calls /\
    (NoDup (dict_keys (Pro.downloaded_files st)) ->
     NoDup (dict_keys (Pro.downloaded_files st'))) /\
    (forall filename,
       dict_get filename (Pro.downloaded_files st')
       = if Pro.overwrite cfg then
           match last_payload filename calls with
           | Some v => Some v
           | None => dict_get filename (Pro.downloaded_files st)
           end
         else
           match dict_get filename (Pro.downloaded_files st) with
           | Some v => Some v
           | None => first_payload filename calls
           end) /\
    (Pro.sukces (Pro.run_stats st') + Pro.istnieje (Pro.run_stats st')
     = Pro.sukces (Pro.run_stats st) + Pro.istnieje (Pro.run_stats st)
       + length calls)%nat.
Proof.
  revert st. induction calls as [|[k v] calls IH]; intros st.
  - exists [], st. split; [done|]. split; [done|]. split; [done|].
    split; [|simpl; lia].
    intros filename. destruct (Pro.overwrite cfg); [done|].
    by destruct (dict_get filename _).
  - destruct st as [d f s e p tp t]. cbn [Pro.add_all]. unfold bind at 1.
    rewrite bundle_add_spec.
    destruct (dict_mem k d && negb (Pro.overwrite cfg)) eqn:Hdup.
    + apply andb_prop in Hdup as [Hmem Hov%negb_true_iff].
      destruct (IH (Pro.RunState d f (Pro.incr Pro.Istnieje s) e p tp t))
        as (outs & st' & Hrun & Hlen & Hnd & Hget & Hcnt).
      exists (DuplicateSkipped :: outs), st'.
      split; [unfold bind, ret; by rewrite Hrun|].
      split; [simpl; lia|]. split; [exact Hnd|].
      cbn [Pro.downloaded_files Pro.run_stats] in *. split.
      * intros filename. rewrite Hget, Hov, first_payload_cons.
        destruct (dict_get filename d) eqn:E; [done|].
        destruct (str_eqb_spec filename k) as [->|]; [|done].
        apply dict_get_mem in E. congruence.
      * rewrite Hcnt. change Pro.sukces with (Pro.count Pro.Sukces).
        change Pro.istnieje with (Pro.count Pro.Istnieje).
        rewrite !pro_count_incr. repeat case_decide; try congruence; simpl; lia.
    + destruct (IH (Pro.RunState (dict_set k v d) f (Pro.incr Pro.Sukces s) e p tp t))
        as (outs & st' & Hrun & Hlen & Hnd & Hget & Hcnt).
      exists (Added :: outs), st'.
      split; [unfold bind, ret; by rewrite Hrun|].
      split; [simpl; lia|].
      cbn [Pro.downloaded_files Pro.run_stats] in *.
      split; [auto using dict_set_NoDup|]. split.
      * intros filename. rewrite Hget.
        destruct (Pro.overwrite cfg) eqn:Hov.
        -- rewrite last_payload_cons.
           destruct (last_payload filename calls); [done|].
           destruct (str_eqb_spec filename k) as [->|Hne].
           ++ apply dict_get_set_eq.
           ++ by apply dict_get_set_ne.
        -- rewrite andb_true_r in Hdup. rewrite first_payload_cons.
           destruct (str_eqb_spec filename k) as [->|Hne].
           ++ rewrite dict_get_set_eq. apply dict_get_mem in Hdup. by rewrite Hdup.
           ++ by rewrite dict_get_set_ne.
      * rewrite Hcnt. change Pro.sukces with (Pro.count Pro.Sukces).
        change Pro.istnieje with (Pro.count Pro.Istnieje).
        rewrite !pro_count_incr. repeat case_decide; try congruence; simpl; lia.
Qed.

(** ** C5: a row that fails *)

Lemma pro_failed_row (P : Platform) cfg flt r ean e d f s el p tp t :
  Pro.accepted P flt r ean ->
  pro_fetch_or_conversion_raises P cfg r t e ->
  exists t',
    Pro.process_row P cfg flt r (Pro.RunState d f s el p tp t)
    = (Ok Failed,
       Pro.RunState d ({[ean]} ∪ f) (Pro.incr Pro.Blad s)
         (el ++ [error_record ean e])%list p tp t').
Proof.
  intros (Hna & Hnorm & Hflt) (ext & Hext & Hpdf & Hraise).
  unfold Pro.process_row, Pro.try_body, Pro.bundle_add.
  unfold bind, ret, lift, gets, modify, try_catch, raise, Pro.bump, Pro.store_file,
    Pro.add_found, Pro.log_error, Pro.log_pdf, Pro.log_transparency, Pro.outside,
    sleep, modify.
  rewrite Hna, Hnorm. cbn beta iota zeta. rewrite Hflt, Hext. cbn beta iota zeta.
  rewrite Hpdf. cbn beta iota zeta.
  destruct Hraise as [(t' & Hfetch)|(data & t' & Hfetch & Hcw & Hwebp & Hconv)].
  - rewrite Hfetch. eexists. reflexivity.
  - rewrite Hfetch, Hwebp, Hcw. cbn beta iota zeta.
    rewrite andb_false_r. cbn. rewrite Hconv. eexists. reflexivity.
Qed.

Lemma basic_failed_row (P : Platform) cfg r ean e d s el t :
  isna (row_link r) || isna (row_ean r) = false ->
  Basic.normalize_ean P (row_ean r) = Ok ean ->
  basic_fetch_or_conversion_raises P cfg r ean d t e ->
  Basic.process_row P cfg r (Basic.RunState d s el t)
  = (Ok Failed,
     Basic.RunState d (Basic.incr Basic.Blad s) (el ++ [error_record ean e])%list
       (t ++ [EvGet (cell_str P (row_link r))])%list).
Proof.
  intros Hna Hnorm (ext & Hext & Hnew & Hraise).
  unfold Basic.process_row, Basic.try_body, Basic.write_file, Basic.pobierz_obraz.
  unfold bind, ret, lift, gets, modify, try_catch, raise, Basic.bump,
    Basic.log_error, Basic.outside, request, sleep, modify.
  rewrite Hna, Hnorm. cbn beta iota zeta. rewrite Hext. cbn beta iota zeta.
  cbn [Basic.folder]. rewrite Hnew. cbn beta iota zeta.
  destruct Hraise as [Hfetch|(data & Hfetch & Hcw & Hwebp & Hconv)].
  - rewrite Hfetch. reflexivity.
  - rewrite Hfetch, Hwebp, Hcw. cbn. rewrite Hconv. reflexivity.
Qed.

(** C5. When the fetch or the conversion of the image of a row raises an
    error, the row ends as failed: the error is caught, its record, made of
    the identifier and the message, is appended to the error list, the
    failure counter goes up by one, nothing is added and no success is
    counted; the run goes on with the rows that follow, from the state the
    failed row left. This holds in both variants. In the enhanced variant
    all the rows that follow are processed; in the basic variant they are
    processed as in a run that starts with them, so all of them are
    whenever the basic variant can read them. *)
Theorem C5_failed_row_is_recorded (P : Platform) (r : row) (rest : list row)
    (ean : str) (e : exception) :
  (forall cfg flt st,
     Pro.accepted P flt r ean ->
     pro_fetch_or_conversion_raises P cfg r (Pro.trace st) e ->
     exists st' outs st'',
       Pro.process_row P cfg flt r st = (Ok Failed, st') /\
       Pro.errors_log st' = (Pro.errors_log st ++ [error_record ean e])%list /\
       Pro.blad (Pro.run_stats st') = S (Pro.blad (Pro.run_stats st)) /\
       Pro.sukces (Pro.run_stats st') = Pro.sukces (Pro.run_stats st) /\
       Pro.downloaded_files st' = Pro.downloaded_files st /\
       Pro.process_rows P cfg flt rest st' = (Ok outs, st'') /\
       length outs = length rest /\
       Pro.process_rows P cfg flt (r :: rest) st = (Ok (Failed :: outs), st'')) /\
  (forall cfg st,
     isna (row_link r) || isna (row_ean r) = false ->
     Basic.normalize_ean P (row_ean r) = Ok ean ->
     basic_fetch_or_conversion_raises P cfg r ean
       (Basic.folder st) (Basic.trace st) e ->
     exists st',
       Basic.process_row P cfg r st = (Ok Failed, st') /\
       Basic.errors_log st' = (Basic.errors_log st ++ [error_record ean e])%list /\
       Basic.blad (Basic.run_stats st') = S (Basic.blad (Basic.run_stats st)) /\
       Basic.sukces (Basic.run_stats st') = Basic.sukces (Basic.run_stats st) /\
       Basic.folder st' = Basic.folder st /\
       Basic.process_rows P cfg (r :: rest) st
       = (match Basic.process_rows P cfg rest st' with
          | (Ok outs, st'') => (Ok (Failed :: outs), st'')
          | (Raise e', st'') => (Raise e', st'')
          end) /\
       (Forall (fun r' => basic_readable r' = true) rest ->
        exists outs st'',
          Basic.process_rows P cfg rest st' = (Ok outs, st'') /\
          length outs = length rest /\
          Basic.process_rows P cfg (r :: rest) st = (Ok (Failed :: outs), st''))).
Proof.
  split.
  - intros cfg flt [d f s el p tp t] Hacc Hraise. cbn [Pro.trace] in Hraise.
    destruct (pro_failed_row P cfg flt r ean e d f s el p tp t Hacc Hraise)
      as [t' Hrow].
    destruct (pro_process_rows_effect P cfg flt rest
                (Pro.RunState d ({[ean]} ∪ f) (Pro.incr Pro.Blad s)
                   (el ++ [error_record ean e])%list p tp t'))
      as (outs & st'' & Hrest & Heff).
    eexists _, outs, st''. split; [exact Hrow|].
    cbn [Pro.errors_log Pro.run_stats Pro.downloaded_files].
    split; [reflexivity|]. split; [by destruct s|]. split; [by destruct s|].
    split; [reflexivity|]. split; [exact Hrest|].
    split; [exact (proj1 (pro_rows_effect_counted _ _ _ _ _ _ _ Heff))|].
    cbn [Pro.process_rows]. unfold bind, ret. by rewrite Hrow, Hrest.
  - intros cfg [d s el t] Hna Hnorm Hraise. cbn [Basic.folder Basic.trace] in Hraise.
    pose proof (basic_failed_row P cfg r ean e d s el t Hna Hnorm Hraise) as Hrow.
    eexists. split; [exact Hrow|].
    cbn [Basic.errors_log Basic.run_stats Basic.folder].
    split; [reflexivity|]. split; [by destruct s|]. split; [by destruct s|].
    split; [reflexivity|].
    assert (forall st',
              Basic.process_rows P cfg (r :: rest) (Basic.RunState d s el t)
              = (let '(res, st'') := Basic.process_rows P cfg rest st' in
                 match res with
                 | Ok outs => (Ok (Failed :: outs), st'')
                 | Raise e' => (Raise e', st'')
                 end) ->
              Basic.process_rows P cfg (r :: rest) (Basic.RunState d s el t)
              = match Basic.process_rows P cfg rest st' with
                | (Ok outs, st'') => (Ok (Failed :: outs), st'')
                | (Raise e', st'') => (Raise e', st'')
                end) as Hshape.
    { intros st' ->. by destruct (Basic.process_rows P cfg rest st') as [[?|?] ?]. }
    split.
    + apply Hshape. cbn [Basic.process_rows]. unfold bind, ret. rewrite Hrow.
      by destruct (Basic.process_rows P cfg rest _) as [[?|?] ?].
    + intros Hread.
      destruct (basic_process_rows_readable P cfg rest
                  (Basic.RunState d (Basic.incr Basic.Blad s)
                     (el ++ [error_record ean e])%list
                     (t ++ [EvGet (cell_str P (row_link r))])%list) Hread)
        as (outs & st'' & Hrest & Heff).
      exists outs, st''. split; [exact Hrest|].
      split; [exact (proj1 (basic_rows_effect_counted _ _ _ _ _ _ Heff))|].
      cbn [Basic.process_rows]. unfold bind, ret. by rewrite Hrow, Hrest.
Qed.

Lemma C5_failed_row_is_recorded_witness :
  (exists outs st'',
     Pro.process_rows (Demo.platform Demo.net_down)
       (Pro.Config true true false (3 # 2) "") None
       [Row (CInt 123) (CText "http://h/a.jpg"); Row (CInt 5) (CFloat NaN)]
       (Pro.state0 [])
     = (Ok (Failed :: outs), st'')) /\
  (exists outs st'',
     Basic.process_rows (Demo.platform Demo.net_down) (Basic.Config true false)
       [Row (CInt 123) (CText "http://h/a.jpg"); Row (CInt 5) (CFloat NaN)]
       (Basic.state0 [] [])
     = (Ok (Failed :: outs), st'')).
Proof.
  pose proof (C5_failed_row_is_recorded (Demo.platform Demo.net_down)
                (Row (CInt 123) (CText "http://h/a.jpg"))
                [Row (CInt 5) (CFloat NaN)] "123" Demo.timeout_error)
    as [Hpro Hbasic].
  split.
  - destruct (Hpro (Pro.Config true true false (3 # 2) "") None (Pro.state0 []))
      as (st' & outs & st'' & _ & _ & _ & _ & _ & _ & _ & Hrun).
    + repeat split.
    + exists ".jpg". split; [reflexivity|]. split; [reflexivity|].
      left. eexists. reflexivity.
    + exists outs, st''. exact Hrun.
  - destruct (Hbasic (Basic.Config true false) (Basic.state0 [] []))
      as (st' & _ & _ & _ & _ & _ & _ & Hrest).
    + reflexivity.
    + reflexivity.
    + exists ".jpg". split; [reflexivity|]. split; [reflexivity|].
      left. reflexivity.
    + destruct Hrest as (outs & st'' & _ & _ & Hrun); [by repeat constructor|].
      exists outs, st''. exact Hrun.
Defined.

(** C3. The bundle [downloaded_files] never holds two entries under one
    file name, after any run and after any sequence of calls of [add]. With
    overwriting disabled, a call for a name that is already there leaves
    the bundle as it is and counts a duplicate, so that the bundle keeps,
    for every name, the payload of the first call; with overwriting
    enabled the payload is replaced where it stands, so that the bundle
    keeps the payload of the last call. *)
Theorem C3_one_entry_per_filename (P : Platform) (cfg : Pro.config) :
  (forall flt rows t,
     NoDup (dict_keys (Pro.downloaded_files
                         (snd (Pro.process_rows P cfg flt rows (Pro.state0 t)))))) /\
  (forall calls t,
     exists outs st',
       Pro.add_all cfg calls (Pro.state0 t) = (Ok outs, st') /\
       NoDup (dict_keys (Pro.downloaded_files st')) /\
       (forall filename,
          dict_get filename (Pro.downloaded_files st')
          = if Pro.overwrite cfg then last_payload filename calls
            else first_payload filename calls) /\
       (Pro.sukces (Pro.run_stats st') + Pro.istnieje (Pro.run_stats st')
        = length calls)%nat) /\
  (forall filename data d f s e p tp t,
     dict_mem filename d = true ->
     Pro.bundle_add cfg filename data (Pro.RunState d f s e p tp t)
     = (if Pro.overwrite cfg
        then (Ok Added,
              Pro.RunState (dict_set filename data d) f
                (Pro.incr Pro.Sukces s) e p tp t)
        else (Ok DuplicateSkipped,
              Pro.RunState d f (Pro.incr Pro.Istnieje s) e p tp t)) /\
     dict_keys (dict_set filename data d) = dict_keys d /\
     dict_get filename (dict_set filename data d) = Some data).
Proof.
  split; [|split].
  - intros flt rows t.
    destruct (pro_process_rows_effect P cfg flt rows (Pro.state0 t))
      as (outs & st' & -> & Heff).
    apply (pro_rows_effect_NoDup _ _ _ _ _ _ _ Heff). apply NoDup_nil_2.
  - intros calls t.
    destruct (add_all_spec cfg calls (Pro.state0 t))
      as (outs & st' & Hrun & _ & Hnd & Hget & Hcnt).
    exists outs, st'. split; [exact Hrun|].
    split; [apply Hnd, NoDup_nil_2|]. split; [|exact Hcnt].
    intros filename. rewrite Hget. cbn [Pro.state0 Pro.downloaded_files dict_get].
    by destruct (Pro.overwrite cfg), (last_payload filename calls).
  - intros filename data d f s e p tp t Hmem.
    rewrite bundle_add_spec, Hmem, dict_keys_set, Hmem, dict_get_set_eq.
    by destruct (Pro.overwrite cfg).
Qed.

Lemma C3_one_entry_per_filename_witness :
  Pro.bundle_add (Pro.Config true true false (3 # 2) "") "123.jpg" [Byte.x57]
    (Pro.RunState [("123.jpg", [Byte.x52])] ∅ (Pro.Stats 1 0 0 0 0 0 0 0) [] [] [] [])
  = (Ok DuplicateSkipped,
     Pro.RunState [("123.jpg", [Byte.x52])] ∅ (Pro.Stats 1 0 1 0 0 0 0 0) [] [] [] []).
Proof.
  exact (proj1 (proj2 (proj2 (C3_one_entry_per_filename
                                (Demo.platform Demo.net_down)
                                (Pro.Config true true false (3 # 2) "")))
                 "123.jpg" [Byte.x57] [("123.jpg", [Byte.x52])] ∅
                 (Pro.Stats 1 0 0 0 0 0 0 0) [] [] [] [] eq_refl)).
Defined.

(** ** C7: the pause between rows *)

Lemma pro_row_effect_trace (P : Platform) cfg flt r st out st' :
  Pro.row_effect P cfg flt r st out st' ->
  exists k,
    (k <= 3)%nat /\
    match out with
    | Added | Failed =>
        Pro.trace st'
        = (Pro.trace st ++ fetch_trace (cell_str P (row_link r)) k
             ++ [EvSleep (Pro.delay_between cfg)])%list
    | Empty | FilteredOut | UnsupportedFormat => Pro.trace st' = Pro.trace st
    | DuplicateSkipped => True
    end.
Proof.
  destruct 1; cbn [Pro.trace];
    first [ by exists 0%nat; split; [lia|]
          | eexists; split; [|reflexivity]; lia ].
Qed.

Lemma basic_row_effect_trace (P : Platform) cfg r st out st' :
  Basic.row_effect P cfg r st out st' ->
  exists k,
    (k <= 1)%nat /\
    match out with
    | Added =>
        Basic.trace st'
        = (Basic.trace st ++ [EvGet (cell_str P (row_link r));
                               EvSleep Basic.DELAY_BETWEEN_DOWNLOADS])%list
    | Failed =>
        Basic.trace st'
        = (Basic.trace st ++ fetch_trace (cell_str P (row_link r)) k)%list
    | _ => Basic.trace st' = Basic.trace st
    end.
Proof.
  destruct 1; cbn [Basic.trace];
    first [ by exists 0%nat; split; [lia|]
          | eexists; split; [|reflexivity]; lia ].
Qed.

(** C7, as amended. In the enhanced variant a row that was added, and a
    row that failed, is followed by one pause of the configured delay,
    which comes after the attempts to fetch it and before the next row; a
    row that is empty, filtered out or of an unsupported format changes
    nothing in the outside world: no request, no pause. In the basic
    variant only a row that was added is followed by the pause, of one
    second; a row that failed leaves at most its request behind, and a row
    that is empty or whose file exists leaves nothing, as does a row that
    ends the run. *)
Theorem C7_pause_after_row (P : Platform) (r : row) :
  (forall cfg flt st,
     exists out st' k,
       Pro.process_row P cfg flt r st = (Ok out, st') /\
       (k <= 3)%nat /\
       match out with
       | Added | Failed =>
           Pro.trace st'
           = (Pro.trace st ++ fetch_trace (cell_str P (row_link r)) k
                ++ [EvSleep (Pro.delay_between cfg)])%list
       | Empty | FilteredOut | UnsupportedFormat => Pro.trace st' = Pro.trace st
       | DuplicateSkipped => True
       end) /\
  (forall cfg st,
     exists k,
       (k <= 1)%nat /\
       match Basic.process_row P cfg r st with
       | (Ok Added, st') =>
           Basic.trace st'
           = (Basic.trace st ++ [EvGet (cell_str P (row_link r));
                                  EvSleep Basic.DELAY_BETWEEN_DOWNLOADS])%list
       | (Ok Failed, st') =>
           Basic.trace st'
           = (Basic.trace st ++ fetch_trace (cell_str P (row_link r)) k)%list
       | (_, st') => Basic.trace st' = Basic.trace st
       end).
Proof.
  split.
  - intros cfg flt st.
    destruct (pro_process_row_effect P cfg flt r st) as (out & st' & Hrow & Heff).
    destruct (pro_row_effect_trace _ _ _ _ _ _ _ Heff) as (k & Hk & Ht).
    by exists out, st', k.
  - intros cfg st. destruct (basic_readable r) eqn:Hread.
    + destruct (basic_process_row_effect P cfg r st Hread)
        as (out & st' & Hrow & Heff).
      destruct (basic_row_effect_trace _ _ _ _ _ _ Heff) as (k & Hk & Ht).
      exists k. split; [exact Hk|]. rewrite Hrow. by destruct out.
    + destruct (basic_process_row_abort P cfg r st Hread) as (e & Hrow & _).
      exists 0%nat. split; [lia|]. by rewrite Hrow.
Qed.

(** C7 as stated fails in the basic variant: a row whose fetch fails has
    reached the fetching, and no pause follows it. *)
Lemma C7_failed_row_counterexample :
  Basic.process_row (Demo.platform Demo.net_down) (Basic.Config true false)
    (Row (CInt 123) (CText "http://h/a.jpg")) (Basic.state0 [] [])
  = (Ok Failed,
     Basic.RunState [] (Basic.Stats 0 1 0 0)
       ["EAN: 123 | Błąd: Read timed out."] [EvGet "http://h/a.jpg"]).
Proof. reflexivity. Qed.

(** In the enhanced variant the second of two rows with the same identifier
    and extension is fetched and then dropped as a duplicate, by a
    [continue] that also skips the pause at the end of the loop body. *)
Lemma pro_duplicate_row_takes_no_pause :
  exists st',
    Pro.process_rows (Demo.platform (Demo.net_up [Byte.x52; Byte.x01]))
      (Pro.Config true true false (3 # 2) "") None
      [Row (CInt 123) (CText "http://h/a.jpg");
       Row (CInt 123) (CText "http://h/b.jpg")] (Pro.state0 [])
    = (Ok [Added; DuplicateSkipped], st') /\
    Pro.trace st'
    = [EvGet "http://h/a.jpg"; EvSleep (3 # 2); EvGet "http://h/b.jpg"].
Proof. eexists. split; reflexivity. Qed.

(** ** C8 and C10: the allow-list *)

Lemma truthy_nonempty (F : gset str) : F <> ∅ -> Pro.truthy (Some F) = true.
Proof. intros H. unfold Pro.truthy. by rewrite bool_decide_eq_false_2. Qed.

Lemma pro_row_effect_filter (P : Platform) cfg (F : gset str) r st out st' :
  F <> ∅ ->
  Pro.row_effect P cfg (Some F) r st out st' ->
  (out = FilteredOut <-> outside_allow_list P F r = true) /\
  Pro.nieznalezione_ean (Pro.run_stats st')
  = (Pro.nieznalezione_ean (Pro.run_stats st)
     + if outside_allow_list P F r then 1 else 0)%nat /\
  (forall x, x ∈ Pro.found_eans st' <->
             x ∈ Pro.found_eans st \/ (x ∈ F /\ row_matches P r x)).
Proof.
  intros HF Heff. pose proof (truthy_nonempty F HF) as Htruthy.
  change Pro.nieznalezione_ean with (Pro.count Pro.NieznalezioneEan).
  unfold outside_allow_list, row_matches.
  destruct Heff;
    repeat match goal with
           | H : Pro.accepted _ _ _ _ |- _ => destruct H as (? & ? & ?)
           | H : Pro.processing_counted _ _ _ |- _ => inversion H; subst; clear H
           | H : Pro.truthy (Some F) && _ = false |- _ =>
               rewrite Htruthy in H; cbn [andb Pro.not_in_filter] in H;
               apply negb_false_iff, bool_decide_eq_true_1 in H
           | H : Pro.not_in_filter _ (Some F) = true |- _ =>
               cbn [Pro.not_in_filter] in H;
               apply negb_true_iff, bool_decide_eq_false_1 in H
           | H : isna _ || isna _ = _ |- _ => rewrite H
           | H : Pro.normalize_ean _ _ = _ |- _ => rewrite H
           end;
    cbn [Pro.run_stats Pro.found_eans negb andb];
    rewrite ?pro_count_incr;
    rewrite ?bool_decide_eq_true_2, ?bool_decide_eq_false_2 by assumption;
    cbn [negb];
    (split; [split; [congruence|done] |]);
    (split; [repeat case_decide; try congruence; lia |]);
    intros x; rewrite ?elem_of_union, ?elem_of_singleton;
    naive_solver.
Qed.

Lemma pro_rows_effect_filter (P : Platform) cfg (F : gset str) rows st outs st' :
  F <> ∅ ->
  Pro.rows_effect P cfg (Some F) rows st outs st' ->
  Forall2 (fun r out => out = FilteredOut <-> outside_allow_list P F r = true)
    rows outs /\
  Pro.nieznalezione_ean (Pro.run_stats st')
  = (Pro.nieznalezione_ean (Pro.run_stats st)
     + length (List.filter (outside_allow_list P F) rows))%nat /\
  (forall x, x ∈ Pro.found_eans st' <->
             x ∈ Pro.found_eans st \/
             (x ∈ F /\ exists r, r ∈ rows /\ row_matches P r x)).
Proof.
  intros HF. induction 1 as [st|r rows st out st1 outs st2 Hrow _ (IHo & IHc & IHf)].
  - split; [constructor|]. split; [simpl; lia|].
    intros x. split; [by left|]. intros [?|(_ & r & []%elem_of_nil & _)]. done.
  - destruct (pro_row_effect_filter P cfg F r st out st1 HF Hrow) as (Ho & Hc & Hf).
    split; [by constructor|]. split.
    + rewrite IHc, Hc. cbn [List.filter].
      destruct (outside_allow_list P F r); simpl; lia.
    + intros x. rewrite IHf, Hf. setoid_rewrite elem_of_cons. naive_solver.
Qed.

Lemma filtered_row_only_counted (P : Platform) cfg (F : gset str) r ean
    d f s e p tp t :
  F <> ∅ ->
  row_matches P r ean ->
  ean ∉ F ->
  Pro.process_row P cfg (Some F) r (Pro.RunState d f s e p tp t)
  = (Ok FilteredOut, Pro.RunState d f (Pro.incr Pro.NieznalezioneEan s) e p tp t).
Proof.
  intros HF [Hna Hnorm] Hean.
  unfold Pro.process_row, bind, lift, ret, modify, Pro.bump.
  rewrite Hna, Hnorm. cbn beta iota. rewrite (truthy_nonempty F HF).
  cbn [Pro.not_in_filter andb]. by rewrite bool_decide_eq_false_2.
Qed.

(** C8. With an allow-list [F] that is not empty, the run ends and
    reports as missing exactly the identifiers of [F] that no row with both
    cells has as its normalized identifier; the rows with both cells whose
    normalized identifier is not in [F], and only they, end as filtered
    out, and [nieznalezione_ean] counts them. Such a row changes nothing
    but this counter: nothing is fetched for it. *)
Theorem C8_allow_list (P : Platform) (cfg : Pro.config) (F : gset str) :
  Pro.make_filter P (Pro.ean_filter_text cfg) = Ok (Some F) ->
  F <> ∅ ->
  (forall rows t,
     exists outs res t',
       Pro.run P cfg rows t = Ok (outs, res, t') /\
       (exists missing,
          Pro.res_missing_eans res = Some missing /\
          forall x, x ∈ missing <->
                    x ∈ F /\ ~ exists r, r ∈ rows /\ row_matches P r x) /\
       Forall2 (fun r out => out = FilteredOut <-> outside_allow_list P F r = true)
         rows outs /\
       Pro.nieznalezione_ean (Pro.res_stats res)
       = length (List.filter (outside_allow_list P F) rows)) /\
  (forall r ean d f s e p tp t,
     row_matches P r ean ->
     ean ∉ F ->
     Pro.process_row P cfg (Some F) r (Pro.RunState d f s e p tp t)
     = (Ok FilteredOut,
        Pro.RunState d f (Pro.incr Pro.NieznalezioneEan s) e p tp t)).
Proof.
  intros Hflt HF. split; [|by eauto using filtered_row_only_counted].
  intros rows t.
  destruct (pro_run_effect P cfg rows t) as (flt & outs & st & Hflt' & Heff & ->).
  rewrite Hflt in Hflt'. injection Hflt' as <-.
  destruct (pro_rows_effect_filter P cfg F rows _ outs st HF Heff)
    as (Ho & Hc & Hf).
  eexists _, _, _. split; [reflexivity|].
  cbn [Pro.res_missing_eans Pro.res_stats]. split; [|split; [exact Ho|exact Hc]].
  exists (F ∖ Pro.found_eans st). split.
  - unfold Pro.missing_eans. by rewrite (truthy_nonempty F HF).
  - intros x. rewrite elem_of_difference, Hf.
    cbn [Pro.state0 Pro.found_eans]. set_solver.
Qed.

Lemma C8_allow_list_witness :
  exists outs res t',
    Pro.run (Demo.platform (Demo.net_up [Byte.x52; Byte.x01]))
      (Pro.Config true true false (3 # 2) "111
999")
      [Row (CInt 111) (CText "http://h/a.jpg");
       Row (CInt 222) (CText "http://h/b.jpg")] []
    = Ok (outs, res, t') /\
    (exists missing,
       Pro.res_missing_eans res = Some missing /\ "999" ∈ missing) /\
    Pro.nieznalezione_ean (Pro.res_stats res) = 1%nat.
Proof.
  destruct (C8_allow_list (Demo.platform (Demo.net_up [Byte.x52; Byte.x01]))
              (Pro.Config true true false (3 # 2) "111
999")
              (list_to_set ["111"; "999"])) as [Hrun _].
  - reflexivity.
  - intros H. apply (f_equal (fun s : gset str => bool_decide ("111" ∈ s))) in H.
    vm_compute in H. discriminate H.
  - destruct (Hrun [Row (CInt 111) (CText "http://h/a.jpg");
                    Row (CInt 222) (CText "http://h/b.jpg")] [])
      as (outs & res & t' & Hres & (missing & Hm & Hin) & _ & Hcount).
    exists outs, res, t'. split; [exact Hres|]. split; [|exact Hcount].
    exists missing. split; [exact Hm|]. apply Hin. split.
    + apply elem_of_list_to_set, list_elem_of_In. simpl. auto.
    + intros (r & Hr & _ & Hnorm).
      apply list_elem_of_In in Hr. simpl in Hr.
      destruct Hr as [<-|[<-|[]]]; vm_compute in Hnorm; discriminate Hnorm.
Defined.

Lemma lstrip_blank s : all_chars isspace s = true -> lstrip s = EmptyString.
Proof.
  induction s as [|a s IH]; [done|]. simpl.
  intros [-> Hs]%andb_prop. exact (IH Hs).
Qed.

Lemma strip_blank s : all_chars isspace s = true -> strip s = EmptyString.
Proof. intros H. unfold strip. by rewrite (lstrip_blank s H). Qed.

Lemma make_filter_blank (P : Platform) text :
  all_chars isspace text = true ->
  exists flt, Pro.make_filter P text = Ok flt /\ Pro.truthy flt = false.
Proof.
  intros H. unfold Pro.make_filter, Pro.parse_ean_list.
  destruct (nonempty text); [|by exists None].
  rewrite (strip_blank text H). by exists (Some ∅).
Qed.

Lemma process_row_falsy (P : Platform) a b c d text text' flt r st :
  Pro.truthy flt = false ->
  Pro.process_row P (Pro.Config a b c d text) flt r st
  = Pro.process_row P (Pro.Config a b c d text') None r st.
Proof. intros H. unfold Pro.process_row. rewrite H. reflexivity. Qed.

Lemma process_rows_falsy (P : Platform) a b c d text text' flt rows st :
  Pro.truthy flt = false ->
  Pro.process_rows P (Pro.Config a b c d text) flt rows st
  = Pro.process_rows P (Pro.Config a b c d text') None rows st.
Proof.
  intros H. revert st. induction rows as [|r rows IH]; intros st; [done|].
  cbn [Pro.process_rows]. unfold bind.
  rewrite (process_row_falsy P a b c d text text' flt r st H).
  destruct (Pro.process_row _ _ None r st) as [[out|e] st1]; [|done].
  by rewrite IH.
Qed.

Lemma pro_rows_effect_falsy (P : Platform) cfg flt rows st outs st' :
  Pro.truthy flt = false ->
  Pro.rows_effect P cfg flt rows st outs st' ->
  (FilteredOut ∉ outs) /\
  Pro.nieznalezione_ean (Pro.run_stats st') = Pro.nieznalezione_ean (Pro.run_stats st).
Proof.
  intros Hflt. induction 1 as [st|r rows st out st1 outs st2 Hrow _ [IHo IHc]].
  - split; [apply not_elem_of_nil|done].
  - rewrite IHc, not_elem_of_cons.
    change Pro.nieznalezione_ean with (Pro.count Pro.NieznalezioneEan).
    destruct Hrow;
      repeat match goal with
             | H : Pro.processing_counted _ _ _ |- _ => inversion H; subst; clear H
             end;
      try congruence;
      cbn [Pro.run_stats]; rewrite ?pro_count_incr;
      repeat case_decide; try discriminate; (split; [split; [done|exact IHo]|lia]).
Qed.

(** C10. An allow-list text that is empty or made of white space only
    gives no filter: the filter set is absent or empty, which the run
    treats alike, so the run is the run with no text at all, no row ends as
    filtered out, [nieznalezione_ean] stays at zero and no missing
    identifiers are reported. *)
Theorem C10_blank_allow_list (P : Platform) (text : str)
    (a b c : bool) (d : Q) (rows : list row) (t : list event) :
  all_chars isspace text = true ->
  Pro.run P (Pro.Config a b c d text) rows t
  = Pro.run P (Pro.Config a b c d "") rows t /\
  exists flt outs res t',
    Pro.make_filter P text = Ok flt /\
    Pro.truthy flt = false /\
    Pro.run P (Pro.Config a b c d text) rows t = Ok (outs, res, t') /\
    (FilteredOut ∉ outs) /\
    Pro.nieznalezione_ean (Pro.res_stats res) = 0%nat /\
    Pro.res_missing_eans res = None.
Proof.
  intros Hblank.
  destruct (make_filter_blank P text Hblank) as (flt & Hflt & Hfalsy).
  split.
  - unfold Pro.run. cbn [Pro.ean_filter_text]. rewrite Hflt.
    cbn [Pro.make_filter nonempty and_then].
    rewrite (process_rows_falsy P a b c d text "" flt rows _ Hfalsy).
    destruct (Pro.process_rows _ _ None rows _) as [[outs|e] st]; [|done].
    unfold Pro.missing_eans. rewrite Hfalsy. by destruct flt.
  - destruct (pro_run_effect P (Pro.Config a b c d text) rows t)
      as (flt' & outs & st & Hflt' & Heff & ->).
    cbn [Pro.ean_filter_text] in Hflt'. rewrite Hflt in Hflt'. injection Hflt' as <-.
    destruct (pro_rows_effect_falsy _ _ _ _ _ _ _ Hfalsy Heff) as [Ho Hc].
    eexists flt, _, _, _. split; [exact Hflt|]. split; [exact Hfalsy|].
    split; [reflexivity|]. split; [exact Ho|].
    cbn [Pro.res_stats Pro.res_missing_eans]. split; [by rewrite Hc|].
    unfold Pro.missing_eans. rewrite Hfalsy. by destruct flt.
Qed.

Lemma C10_blank_allow_list_witness :
  Pro.run (Demo.platform (Demo.net_up [Byte.x52; Byte.x01]))
    (Pro.Config true true false (3 # 2) " 
  ")
    [Row (CInt 111) (CText "http://h/a.jpg")] []
  = Pro.run (Demo.platform (Demo.net_up [Byte.x52; Byte.x01]))
      (Pro.Config true true false (3 # 2) "")
      [Row (CInt 111) (CText "http://h/a.jpg")] [].
Proof.
  exact (proj1 (C10_blank_allow_list
                  (Demo.platform (Demo.net_up [Byte.x52; Byte.x01])) " 
  " true true false (3 # 2) [Row (CInt 111) (CText "http://h/a.jpg")] []
                  eq_refl)).
Defined.

(** ** The scenarios of the specification, run on the concrete platform *)

(** An integer cell of at most 53 bits is normalized to its decimal
    string. *)
Lemma normalize_small_int (P : Platform) z :
  Z.abs z < 2 ^ 53 -> Pro.normalize_ean P (CInt z) = Ok (str_of_int z).
Proof.
  intros Hz. rewrite normalize_ean_total. unfold str_int_float, cell_float.
  assert (float_of_int z = Ok (Finite z 0)) as ->.
  { unfold float_of_int.
    destruct (Z.leb_spec (Z.log2 (Z.abs z) + 1 - 53) 0) as [|Hk]; [done|].
    destruct (decide (Z.abs z = 0)) as [E|E]; [rewrite E in Hk; simpl in Hk; lia|].
    assert (Z.log2 (Z.abs z) < 53) by (apply Z.log2_lt_pow2; lia). lia. }
  cbn [and_then int_of_float]. rewrite Z.leb_refl.
  replace (z * 2 ^ 0) with z by lia. cbn [and_then].
  by rewrite str_of_int_normal.
Qed.

(** Scenario A: a reachable [.jpg], a blank link, and [456.0] with a
    [.webp] link that is converted. *)
Example scenario_A :
  Pro.run (Demo.platform (Demo.net_up [Byte.x57; Byte.x01]))
    (Pro.Config true true false (3 # 2) "")
    [Row (CInt 123) (CText "http://h/a.jpg");
     Row (CInt 5) (CFloat NaN);
     Row (CFloat (Finite 456 0)) (CText "http://h/b.webp")] []
  = Ok ([Added; Empty; Added],
        Pro.Results (Pro.Stats 2 0 0 1 0 0 0 1) [] []
          [("123.jpg", [Byte.x57; Byte.x01]); ("456.png", [Byte.x50; Byte.x01])]
          None [],
        [EvGet "http://h/a.jpg"; EvSleep (3 # 2);
         EvGet "http://h/b.webp"; EvSleep (3 # 2)]).
Proof. reflexivity. Qed.

Example scenario_A_basic :
  Basic.run (Demo.platform (Demo.net_up [Byte.x57; Byte.x01]))
    (Basic.Config true false)
    [Row (CInt 123) (CText "http://h/a.jpg");
     Row (CInt 5) (CFloat NaN);
     Row (CFloat (Finite 456 0)) (CText "http://h/b.webp")] [] []
  = (Ok [Added; Empty; Added],
     Basic.RunState
       [("123.jpg", [Byte.x57; Byte.x01]); ("456.png", [Byte.x50; Byte.x01])]
       (Basic.Stats 2 0 1 1) []
       [EvGet "http://h/a.jpg"; EvSleep (1 # 1);
        EvGet "http://h/b.webp"; EvSleep (1 # 1)]).
Proof. reflexivity. Qed.

(** Scenario B: the fetch of the first row fails three times in a row; the
    row is recorded as failed and the run goes on. *)
Example scenario_B :
  Pro.run (Demo.platform (Demo.net_up_after 3 [Byte.x52; Byte.x01]))
    (Pro.Config true true false (3 # 2) "")
    [Row (CInt 123) (CText "http://h/a.jpg");
     Row (CText "9 78 ") (CText "http://h/c.PNG")] []
  = Ok ([Failed; Added],
        Pro.Results (Pro.Stats 1 1 0 0 0 0 0 0)
          ["EAN: 123 | Błąd: Read timed out."] []
          [("978.png", [Byte.x52; Byte.x01])] None [],
        [EvGet "http://h/a.jpg"; EvSleep (2 # 1);
         EvGet "http://h/a.jpg"; EvSleep (2 # 1);
         EvGet "http://h/a.jpg"; EvSleep (3 # 2);
         EvGet "http://h/c.PNG"; EvSleep (3 # 2)]).
Proof. reflexivity. Qed.

(** A date in the identifier column: the enhanced variant takes the text
    of the date for the identifier and goes on; the basic variant stops at
    the row, with the rows before it processed and those after it not. *)
Example date_cell_in_the_identifier_column :
  (exists res t',
     Pro.run (Demo.platform (Demo.net_up [Byte.x52; Byte.x01]))
       (Pro.Config true true false (3 # 2) "")
       [Row (CInt 123) (CText "http://h/a.jpg");
        Row (CObject "Timestamp" "2024-05-01 00:00:00") (CText "http://h/b.jpg");
        Row (CInt 456) (CText "http://h/c.jpg")] []
     = Ok ([Added; Added; Added], res, t') /\
     dict_keys (Pro.res_downloaded_files res)
     = ["123.jpg"; "2024-05-0100:00:00.jpg"; "456.jpg"]) /\
  Basic.run (Demo.platform (Demo.net_up [Byte.x52; Byte.x01]))
    (Basic.Config true false)
    [Row (CInt 123) (CText "http://h/a.jpg");
     Row (CObject "Timestamp" "2024-05-01 00:00:00") (CText "http://h/b.jpg");
     Row (CInt 456) (CText "http://h/c.jpg")] [] []
  = (Raise (float_type_error "Timestamp"),
     Basic.RunState [("123.jpg", [Byte.x52; Byte.x01])] (Basic.Stats 1 0 0 0) []
       [EvGet "http://h/a.jpg"; EvSleep (1 # 1)]).
Proof. split; [eexists _, _; split; reflexivity|reflexivity]. Qed.

(** ** Further properties: requests, logs and the size of the bundle *)

Lemma pro_row_effect_requests (P : Platform) cfg flt r st out st' :
  Pro.row_effect P cfg flt r st out st' ->
  exists n,
    requests_made (Pro.trace st') = (requests_made (Pro.trace st) + n)%nat /\
    ((if is_added out then 1 else 0) <= n <= if fetched out then 3 else 0)%nat.
Proof.
  destruct 1; cbn [Pro.trace is_added fetched];
    rewrite ?requests_made_app, ?requests_made_fetch_trace;
    change (requests_made [EvSleep (Pro.delay_between cfg)]) with 0%nat;
    first [ exists 0%nat; lia | exists k; lia ].
Qed.

Lemma basic_row_effect_requests (P : Platform) cfg r st out st' :
  Basic.row_effect P cfg r st out st' ->
  exists n,
    requests_made (Basic.trace st') = (requests_made (Basic.trace st) + n)%nat /\
    ((if is_added out then 1 else 0) <= n <= 1)%nat.
Proof.
  destruct 1; cbn [Basic.trace is_added];
    rewrite ?requests_made_app, ?requests_made_fetch_trace;
    first [ exists 0%nat; lia | exists k; lia | exists 1%nat; split; [reflexivity|lia] ].
Qed.

Lemma pro_rows_effect_requests (P : Platform) cfg flt rows st outs st' :
  Pro.rows_effect P cfg flt rows st outs st' ->
  exists n,
    requests_made (Pro.trace st') = (requests_made (Pro.trace st) + n)%nat /\
    (length (List.filter is_added outs) <= n
     <= 3 * length (List.filter fetched outs))%nat.
Proof.
  induction 1 as [st|r rows st out st1 outs st2 Hrow _ (m & Hm & Hb)].
  - exists 0%nat. simpl. lia.
  - destruct (pro_row_effect_requests _ _ _ _ _ _ _ Hrow) as (n & Hn & Hnb).
    exists (n + m)%nat. split; [lia|]. cbn [List.filter].
    destruct (is_added out), (fetched out); cbn [length]; lia.
Qed.

Lemma basic_rows_effect_requests (P : Platform) cfg rows st outs st' :
  Basic.rows_effect P cfg rows st outs st' ->
  exists n,
    requests_made (Basic.trace st') = (requests_made (Basic.trace st) + n)%nat /\
    (length (List.filter is_added outs) <= n <= length rows)%nat.
Proof.
  induction 1 as [st|r rows st out st1 outs st2 Hrow _ (m & Hm & Hb)].
  - exists 0%nat. simpl. lia.
  - destruct (basic_row_effect_requests _ _ _ _ _ _ Hrow) as (n & Hn & Hnb).
    exists (n + m)%nat. split; [lia|]. cbn [List.filter].
    destruct (is_added out); cbn [length]; lia.
Qed.

(** X1. A run of the enhanced variant sends at least one request for
    every row it adds and at most three for every row that got as far as
    the fetch (failed, duplicate or added), none for the other rows; a run
    of the basic variant, however it ends, sends at most one request per
    row, and at least one for every row it adds. *)
Theorem requests_of_a_run (P : Platform) :
  (forall cfg rows t,
     exists outs res t' n,
       Pro.run P cfg rows t = Ok (outs, res, t') /\
       requests_made t' = (requests_made t + n)%nat /\
       (length (List.filter is_added outs) <= n
        <= 3 * length (List.filter fetched outs))%nat /\
       (length (List.filter fetched outs) <= length rows)%nat) /\
  (forall cfg rows files t res st',
     Basic.run P cfg rows files t = (res, st') ->
     exists n,
       requests_made (Basic.trace st') = (requests_made t + n)%nat /\
       (n <= length rows)%nat /\
       (forall outs, res = Ok outs ->
          (length (List.filter is_added outs) <= n)%nat)).
Proof.
  split.
  - intros cfg rows t.
    destruct (pro_run_effect P cfg rows t) as (flt & outs & st & _ & Heff & ->).
    destruct (pro_rows_effect_requests _ _ _ _ _ _ _ Heff) as (n & Hn & Hb).
    eexists _, _, _, n. split; [reflexivity|]. split; [exact Hn|]. split; [exact Hb|].
    rewrite <- (proj1 (pro_rows_effect_counted _ _ _ _ _ _ _ Heff)).
    apply List.filter_length_le.
  - intros cfg rows files t res st' Hrun.
    destruct (basic_run_effect P cfg rows files t res st' Hrun)
      as (processed & outs & Heff & Hlen & Hres).
    destruct (basic_rows_effect_requests _ _ _ _ _ _ Heff) as (n & Hn & Hb).
    exists n. split; [exact Hn|]. split; [lia|].
    intros outs' [-> _]%Hres. lia.
Qed.

Lemma requests_of_a_run_witness :
  exists res st' n,
    Basic.run (Demo.platform (Demo.net_up [Byte.x52; Byte.x01]))
      (Basic.Config false false)
      [Row (CInt 123) (CText "http://h/a.jpg");
       Row (CObject "Timestamp" "2024-05-01 00:00:00") (CText "http://h/b.jpg")] [] [] = (res, st') /\
    requests_made (Basic.trace st') = (requests_made [] + n)%nat /\
    (n <= 2)%nat.
Proof.
  eexists _, _.
  destruct (proj2 (requests_of_a_run (Demo.platform (Demo.net_up [Byte.x52; Byte.x01])))
              (Basic.Config false false)
              [Row (CInt 123) (CText "http://h/a.jpg");
       Row (CObject "Timestamp" "2024-05-01 00:00:00") (CText "http://h/b.jpg")] [] [] _ _ eq_refl) as (n & Hn & Hle & _).
  exists n. split; [reflexivity|]. split; [exact Hn|exact Hle].
Defined.

Lemma pro_row_effect_logs (P : Platform) cfg flt r st out st' :
  Pro.row_effect P cfg flt r st out st' ->
  length (Pro.errors_log st) = Pro.blad (Pro.run_stats st) /\
  length (Pro.pdf_eans st) = Pro.pdf_pominiete (Pro.run_stats st) /\
  length (Pro.transparency_processed st)
  = Pro.transparency_fixed (Pro.run_stats st) ->
  length (Pro.errors_log st') = Pro.blad (Pro.run_stats st') /\
  length (Pro.pdf_eans st') = Pro.pdf_pominiete (Pro.run_stats st') /\
  length (Pro.transparency_processed st')
  = Pro.transparency_fixed (Pro.run_stats st').
Proof.
  change Pro.blad with (Pro.count Pro.Blad).
  change Pro.pdf_pominiete with (Pro.count Pro.PdfPominiete).
  change Pro.transparency_fixed with (Pro.count Pro.TransparencyFixed).
  destruct 1;
    repeat match goal with
           | H : Pro.processing_counted _ _ _ |- _ => inversion H; subst; clear H
           end;
    cbn [Pro.errors_log Pro.pdf_eans Pro.transparency_processed Pro.run_stats];
    rewrite ?pro_count_incr, ?length_app; cbn [length];
    repeat case_decide; try discriminate; try congruence; lia.
Qed.

Lemma basic_row_effect_logs (P : Platform) cfg r st out st' :
  Basic.row_effect P cfg r st out st' ->
  length (Basic.errors_log st) = Basic.blad (Basic.run_stats st) ->
  length (Basic.errors_log st') = Basic.blad (Basic.run_stats st').
Proof.
  change Basic.blad with (Basic.count Basic.Blad).
  destruct 1;
    repeat match goal with
           | H : Basic.processing_counted _ _ |- _ => inversion H; subst; clear H
           end;
    cbn [Basic.errors_log Basic.run_stats];
    rewrite ?basic_count_incr, ?length_app; cbn [length];
    repeat case_decide; try discriminate; try congruence; lia.
Qed.

Lemma pro_rows_effect_logs (P : Platform) cfg flt rows st outs st' :
  Pro.rows_effect P cfg flt rows st outs st' ->
  length (Pro.errors_log st) = Pro.blad (Pro.run_stats st) /\
  length (Pro.pdf_eans st) = Pro.pdf_pominiete (Pro.run_stats st) /\
  length (Pro.transparency_processed st)
  = Pro.transparency_fixed (Pro.run_stats st) ->
  length (Pro.errors_log st') = Pro.blad (Pro.run_stats st') /\
  length (Pro.pdf_eans st') = Pro.pdf_pominiete (Pro.run_stats st') /\
  length (Pro.transparency_processed st')
  = Pro.transparency_fixed (Pro.run_stats st').
Proof. induction 1; eauto using pro_row_effect_logs. Qed.

Lemma basic_rows_effect_logs (P : Platform) cfg rows st outs st' :
  Basic.rows_effect P cfg rows st outs st' ->
  length (Basic.errors_log st) = Basic.blad (Basic.run_stats st) ->
  length (Basic.errors_log st') = Basic.blad (Basic.run_stats st').
Proof. induction 1; eauto using basic_row_effect_logs. Qed.

(** X2. At the end of a run, however it ends, the lists kept beside the
    counters have the length the counters tell: one error record per failure, one identifier
    in [pdf_eans] per skipped PDF, one identifier in
    [transparency_processed] per white background. *)
Theorem logs_match_counters (P : Platform) :
  (forall cfg rows t,
     exists outs res t',
       Pro.run P cfg rows t = Ok (outs, res, t') /\
       length (Pro.res_errors_log res) = Pro.blad (Pro.res_stats res) /\
       length (Pro.res_pdf_eans res) = Pro.pdf_pominiete (Pro.res_stats res) /\
       length (Pro.res_transparency_processed res)
       = Pro.transparency_fixed (Pro.res_stats res)) /\
  (forall cfg rows files t res st',
     Basic.run P cfg rows files t = (res, st') ->
     length (Basic.errors_log st') = Basic.blad (Basic.run_stats st')).
Proof.
  split.
  - intros cfg rows t.
    destruct (pro_run_effect P cfg rows t) as (flt & outs & st & _ & Heff & ->).
    eexists _, _, _. split; [reflexivity|].
    cbn [Pro.res_errors_log Pro.res_pdf_eans Pro.res_transparency_processed
           Pro.res_stats].
    by apply (pro_rows_effect_logs _ _ _ _ _ _ _ Heff).
  - intros cfg rows files t res st' Hrun.
    destruct (basic_run_effect P cfg rows files t res st' Hrun)
      as (processed & outs & Heff & _).
    by apply (basic_rows_effect_logs _ _ _ _ _ _ Heff).
Qed.

Lemma logs_match_counters_witness :
  exists res st',
    Basic.run (Demo.platform (Demo.net_up [Byte.x52; Byte.x01]))
      (Basic.Config false false)
      [Row (CInt 123) (CText "http://h/a.jpg");
       Row (CObject "Timestamp" "2024-05-01 00:00:00") (CText "http://h/b.jpg")] [] [] = (res, st') /\
    length (Basic.errors_log st') = Basic.blad (Basic.run_stats st').
Proof.
  eexists _, _. split; [reflexivity|].
  exact (proj2 (logs_match_counters (Demo.platform (Demo.net_up [Byte.x52; Byte.x01])))
           (Basic.Config false false)
           [Row (CInt 123) (CText "http://h/a.jpg");
       Row (CObject "Timestamp" "2024-05-01 00:00:00") (CText "http://h/b.jpg")] [] [] _ _ eq_refl).
Defined.

Lemma dict_set_length {V} (k : str) (v : V) (d : dict V) :
  length (dict_set k v d) = if dict_mem k d then length d else S (length d).
Proof.
  pose proof (dict_keys_set k v d) as H. apply (f_equal length) in H.
  unfold dict_keys in H. rewrite length_fmap in H. rewrite H.
  destruct (dict_mem k d); rewrite ?length_app, !length_fmap; simpl; lia.
Qed.

Lemma pro_row_effect_size (P : Platform) cfg flt r st out st' :
  Pro.row_effect P cfg flt r st out st' ->
  Pro.sukces (Pro.run_stats st')
  = (Pro.sukces (Pro.run_stats st) + if is_added out then 1 else 0)%nat /\
  (length (Pro.downloaded_files st) <= length (Pro.downloaded_files st')
   <= length (Pro.downloaded_files st) + if is_added out then 1 else 0)%nat /\
  (is_added out = true -> 0 < length (Pro.downloaded_files st'))%nat /\
  (Pro.overwrite cfg = false ->
   length (Pro.downloaded_files st')
   = (length (Pro.downloaded_files st) + if is_added out then 1 else 0)%nat) /\
  (Pro.overwrite cfg = true ->
   Pro.istnieje (Pro.run_stats st') = Pro.istnieje (Pro.run_stats st)).
Proof.
  change Pro.sukces with (Pro.count Pro.Sukces).
  change Pro.istnieje with (Pro.count Pro.Istnieje).
  destruct 1;
    repeat match goal with
           | H : Pro.processing_counted _ _ _ |- _ => inversion H; subst; clear H
           end;
    cbn [Pro.downloaded_files Pro.run_stats is_added];
    rewrite ?pro_count_incr, ?dict_set_length;
    repeat case_decide; try discriminate; try congruence;
    repeat match goal with
           | |- context [dict_mem ?k ?d] => destruct (dict_mem k d) eqn:?
           | H : _ \/ _ |- _ => destruct H
           end;
    repeat split; intros; try congruence; try lia;
    try (destruct d; [discriminate | simpl; lia]).
Qed.

Lemma pro_rows_effect_size (P : Platform) cfg flt rows st outs st' :
  Pro.rows_effect P cfg flt rows st outs st' ->
  Pro.sukces (Pro.run_stats st')
  = (Pro.sukces (Pro.run_stats st) + length (List.filter is_added outs))%nat /\
  (length (Pro.downloaded_files st) <= length (Pro.downloaded_files st')
   <= length (Pro.downloaded_files st) + length (List.filter is_added outs))%nat /\
  (0 < length (List.filter is_added outs) ->
   0 < length (Pro.downloaded_files st'))%nat /\
  (Pro.overwrite cfg = false ->
   length (Pro.downloaded_files st')
   = (length (Pro.downloaded_files st) + length (List.filter is_added outs))%nat) /\
  (Pro.overwrite cfg = true ->
   Pro.istnieje (Pro.run_stats st') = Pro.istnieje (Pro.run_stats st)).
Proof.
  induction 1 as [st|r rows st out st1 outs st2 Hrow _ (Hs & Hl & Hp & Hf & Ht)].
  - simpl. repeat split; intros; lia.
  - destruct (pro_row_effect_size _ _ _ _ _ _ _ Hrow) as (Hs1 & Hl1 & Hp1 & Hf1 & Ht1).
    cbn [List.filter]. destruct (is_added out); cbn [length] in *.
    + repeat split; intros; rewrite ?Hf, ?Hf1, ?Ht, ?Ht1 by assumption; lia.
    + repeat split; intros; rewrite ?Hf, ?Hf1, ?Ht, ?Ht1 by assumption; lia.
Qed.

Lemma basic_row_effect_size (P : Platform) cfg r st out st' :
  Basic.row_effect P cfg r st out st' ->
  Basic.sukces (Basic.run_stats st')
  = (Basic.sukces (Basic.run_stats st) + if is_added out then 1 else 0)%nat /\
  (Basic.blad (Basic.run_stats st) <= Basic.blad (Basic.run_stats st'))%nat /\
  (length (Basic.folder st) <= length (Basic.folder st'))%nat /\
  (length (Basic.folder st')
   + (Basic.sukces (Basic.run_stats st) + Basic.blad (Basic.run_stats st))
   <= length (Basic.folder st)
      + (Basic.sukces (Basic.run_stats st') + Basic.blad (Basic.run_stats st')))%nat /\
  (Basic.overwrite cfg = false ->
   (length (Basic.folder st) + (if is_added out then 1 else 0)
    <= length (Basic.folder st'))%nat).
Proof.
  change Basic.sukces with (Basic.count Basic.Sukces).
  change Basic.blad with (Basic.count Basic.Blad).
  destruct 1;
    repeat match goal with
           | H : Basic.processing_counted _ _ |- _ => inversion H; subst; clear H
           | H : Basic.left_by_failure _ _ _ |- _ =>
               destruct H as [->|(? & ? & ? & ->)]
           end;
    cbn [Basic.folder Basic.run_stats is_added];
    rewrite ?basic_count_incr, ?dict_set_length;
    repeat case_decide; try discriminate; try congruence;
    repeat match goal with
           | |- context [dict_mem ?k ?d] => destruct (dict_mem k d) eqn:?
           | H : _ \/ _ |- _ => destruct H
           end;
    repeat split; intros; try congruence; try lia.
Qed.

Lemma basic_rows_effect_size (P : Platform) cfg rows st outs st' :
  Basic.rows_effect P cfg rows st outs st' ->
  Basic.sukces (Basic.run_stats st')
  = (Basic.sukces (Basic.run_stats st) + length (List.filter is_added outs))%nat /\
  (Basic.blad (Basic.run_stats st) <= Basic.blad (Basic.run_stats st'))%nat /\
  (length (Basic.folder st) <= length (Basic.folder st'))%nat /\
  (length (Basic.folder st')
   + (Basic.sukces (Basic.run_stats st) + Basic.blad (Basic.run_stats st))
   <= length (Basic.folder st)
      + (Basic.sukces (Basic.run_stats st') + Basic.blad (Basic.run_stats st')))%nat /\
  (Basic.overwrite cfg = false ->
   (length (Basic.folder st) + length (List.filter is_added outs)
    <= length (Basic.folder st'))%nat).
Proof.
  induction 1 as [st|r rows st out st1 outs st2 Hrow _ (Hs & Hb & Hl & Hu & Hf)].
  - simpl. repeat split; intros; lia.
  - destruct (basic_row_effect_size _ _ _ _ _ _ Hrow) as (Hs1 & Hb1 & Hl1 & Hu1 & Hf1).
    cbn [List.filter].
    destruct (is_added out); cbn [length] in *;
      repeat split; intros;
      try (specialize (Hf ltac:(assumption)); specialize (Hf1 ltac:(assumption)));
      lia.
Qed.

(** X3. After a run of the enhanced variant [sukces] is the number of rows
    that were added and the bundle holds at most that many files: exactly
    that many when overwriting is disabled, while with overwriting enabled
    no row is ever counted as existing, so a repeated file name is counted
    as a success again without a new file. The basic variant, however its
    run ends, never removes a file from its folder and adds at most one for
    every success and every failure, a failed row being able to leave the
    file that it could open and not write to the end; with overwriting
    disabled it adds at least one for every success. *)
Theorem successes_and_files (P : Platform) :
  (forall cfg rows t,
     exists outs res t',
       Pro.run P cfg rows t = Ok (outs, res, t') /\
       Pro.sukces (Pro.res_stats res) = length (List.filter is_added outs) /\
       (length (Pro.res_downloaded_files res) <= Pro.sukces (Pro.res_stats res))%nat /\
       (Pro.overwrite cfg = false ->
        length (Pro.res_downloaded_files res) = Pro.sukces (Pro.res_stats res)) /\
       (Pro.overwrite cfg = true -> Pro.istnieje (Pro.res_stats res) = 0%nat)) /\
  (forall cfg rows files t res st',
     Basic.run P cfg rows files t = (res, st') ->
     (length files <= length (Basic.folder st')
      <= length files + Basic.sukces (Basic.run_stats st')
         + Basic.blad (Basic.run_stats st'))%nat /\
     (Basic.overwrite cfg = false ->
      (length files + Basic.sukces (Basic.run_stats st')
       <= length (Basic.folder st'))%nat) /\
     (forall outs, res = Ok outs ->
        Basic.sukces (Basic.run_stats st') = length (List.filter is_added outs))).
Proof.
  split.
  - intros cfg rows t.
    destruct (pro_run_effect P cfg rows t) as (flt & outs & st & _ & Heff & ->).
    destruct (pro_rows_effect_size _ _ _ _ _ _ _ Heff) as (Hs & Hl & _ & Hf & Ht).
    cbn [Pro.state0 Pro.run_stats Pro.downloaded_files Pro.sukces Pro.istnieje
           Pro.stats0 length] in *.
    eexists _, _, _. split; [reflexivity|].
    cbn [Pro.res_stats Pro.res_downloaded_files].
    rewrite Hs. repeat split; intros; rewrite ?Hf, ?Ht by assumption; lia.
  - intros cfg rows files t res st' Hrun.
    destruct (basic_run_effect P cfg rows files t res st' Hrun)
      as (processed & outs & Heff & _ & Hres).
    destruct (basic_rows_effect_size _ _ _ _ _ _ Heff) as (Hs & Hb & Hl & Hu & Hf).
    cbn [Basic.state0 Basic.run_stats Basic.folder Basic.sukces Basic.blad
           Basic.stats0] in *.
    split; [lia|]. split.
    + intros Hov. specialize (Hf Hov). lia.
    + intros outs' [-> _]%Hres. lia.
Qed.

Lemma successes_and_files_witness :
  exists res st',
    Basic.run (Demo.platform (Demo.net_up [Byte.x52; Byte.x01]))
      (Basic.Config false false)
      [Row (CInt 123) (CText "http://h/a.jpg");
       Row (CObject "Timestamp" "2024-05-01 00:00:00") (CText "http://h/b.jpg")] [] [] = (res, st') /\
    (length (Basic.folder st')
     <= Basic.sukces (Basic.run_stats st') + Basic.blad (Basic.run_stats st'))%nat.
Proof.
  eexists _, _. split; [reflexivity|].
  exact (proj2 (proj1 (proj2 (successes_and_files (Demo.platform (Demo.net_up [Byte.x52; Byte.x01])))
                         (Basic.Config false false)
                         [Row (CInt 123) (CText "http://h/a.jpg");
       Row (CObject "Timestamp" "2024-05-01 00:00:00") (CText "http://h/b.jpg")] [] [] _ _ eq_refl))).
Defined.

Lemma create_zip_members (files_dict : dict bytes) :
  Pro.create_zip_from_memory files_dict = files_dict.
Proof.
  unfold Pro.create_zip_from_memory.
  enough (forall acc : Pro.archive,
            fold_left (fun zip_file item =>
                         Pro.writestr zip_file (fst item) (snd item))
              files_dict acc = (acc ++ files_dict)%list) as H by apply H.
  induction files_dict as [|[k v] d IH]; intros acc; simpl.
  - by rewrite app_nil_r.
  - rewrite IH. unfold Pro.writestr. by rewrite <- app_assoc.
Qed.

(** X4. After a run the download button is shown exactly when the bundle
    is not empty, which is when some row was added. Its archive then has
    the files of the bundle as members, in the order in which their names
    first entered the bundle, no two under the same name; the number in
    its label is [sukces], which is the number of members when overwriting
    is disabled. *)
Theorem download_button_and_archive (P : Platform) cfg rows t :
  exists outs res t',
    Pro.run P cfg rows t = Ok (outs, res, t') /\
    match Pro.download_button res with
    | None =>
        Pro.res_downloaded_files res = [] /\ List.filter is_added outs = []
    | Some (label, members) =>
        members = Pro.res_downloaded_files res /\
        members <> [] /\
        NoDup (members.*1) /\
        label = Pro.button_label (Pro.sukces (Pro.res_stats res)) /\
        (Pro.overwrite cfg = false -> label = Pro.button_label (length members))
    end.
Proof.
  destruct (pro_run_effect P cfg rows t) as (flt & outs & st & _ & Heff & ->).
  destruct (pro_rows_effect_size _ _ _ _ _ _ _ Heff) as (Hs & Hl & Hp & Hf & _).
  pose proof (pro_rows_effect_NoDup _ _ _ _ _ _ _ Heff (NoDup_nil_2 (A:=str))) as Hnd.
  cbn [Pro.state0 Pro.run_stats Pro.downloaded_files Pro.sukces Pro.stats0 length]
    in *.
  eexists _, _, _. split; [reflexivity|].
  unfold Pro.download_button. cbn [Pro.res_stats Pro.res_downloaded_files].
  rewrite create_zip_members.
  destruct (Nat.ltb_spec 0 (Pro.sukces (Pro.run_stats st))) as [Hpos|Hzero].
  - split; [reflexivity|]. split.
    + intros E. rewrite E in Hp. simpl in Hp. lia.
    + split; [exact Hnd|]. split; [reflexivity|].
      intros Hov. by rewrite (Hf Hov), Hs.
  - split.
    + apply length_zero_iff_nil. lia.
    + apply length_zero_iff_nil. lia.
Qed.

(** ** Further properties: what is stored stays, and what a duplicate costs *)

Lemma pro_row_effect_kept (P : Platform) cfg flt r st out st' filename data :
  Pro.overwrite cfg = false ->
  Pro.row_effect P cfg flt r st out st' ->
  dict_get filename (Pro.downloaded_files st) = Some data ->
  dict_get filename (Pro.downloaded_files st') = Some data.
Proof.
  intros Hov Heff Hget. destruct Heff; cbn [Pro.downloaded_files] in *; try done.
  match goal with H : _ \/ _ |- _ => destruct H as [Hnew|]; [|congruence] end.
  rewrite dict_get_set_ne; [done|].
  intros ->. apply dict_get_mem in Hnew. congruence.
Qed.

Lemma basic_row_effect_kept (P : Platform) cfg r st out st' filename data :
  Basic.overwrite cfg = false ->
  Basic.row_effect P cfg r st out st' ->
  dict_get filename (Basic.folder st) = Some data ->
  dict_get filename (Basic.folder st') = Some data.
Proof.
  intros Hov Heff Hget. destruct Heff; cbn [Basic.folder] in *; try done.
  all: repeat match goal with
              | H : Basic.left_by_failure _ _ _ |- _ =>
                  destruct H as [->|(? & ? & ? & ->)]; [done|]
              end.
  all: match goal with H : _ \/ _ |- _ => destruct H as [Hnew|]; [|congruence] end.
  all: rewrite dict_get_set_ne; [done|].
  all: intros ->; apply dict_get_mem in Hnew; congruence.
Qed.

Lemma pro_rows_effect_kept (P : Platform) cfg flt rows st outs st' filename data :
  Pro.overwrite cfg = false ->
  Pro.rows_effect P cfg flt rows st outs st' ->
  dict_get filename (Pro.downloaded_files st) = Some data ->
  dict_get filename (Pro.downloaded_files st') = Some data.
Proof. intros Hov. induction 1; eauto using pro_row_effect_kept. Qed.

Lemma basic_rows_effect_kept (P : Platform) cfg rows st outs st' filename data :
  Basic.overwrite cfg = false ->
  Basic.rows_effect P cfg rows st outs st' ->
  dict_get filename (Basic.folder st) = Some data ->
  dict_get filename (Basic.folder st') = Some data.
Proof. intros Hov. induction 1; eauto using basic_row_effect_kept. Qed.

(** X5. With overwriting disabled, what is stored under a file name is
    never changed by the rows that follow: the bundle of the enhanced
    variant and the folder of the basic variant, files that were there
    before the run included, keep it to the end of the run. *)
Theorem stored_file_is_kept (P : Platform) (filename : str) (data : bytes) :
  (forall cfg flt rows st outs st',
     Pro.overwrite cfg = false ->
     Pro.process_rows P cfg flt rows st = (Ok outs, st') ->
     dict_get filename (Pro.downloaded_files st) = Some data ->
     dict_get filename (Pro.downloaded_files st') = Some data) /\
  (forall cfg rows st outs st',
     Basic.overwrite cfg = false ->
     Basic.process_rows P cfg rows st = (Ok outs, st') ->
     dict_get filename (Basic.folder st) = Some data ->
     dict_get filename (Basic.folder st') = Some data).
Proof.
  split.
  - intros cfg flt rows st outs st' Hov Hrun.
    destruct (pro_process_rows_effect P cfg flt rows st) as (o & s & Hrun' & Heff).
    rewrite Hrun in Hrun'. injection Hrun' as <- <-.
    eauto using pro_rows_effect_kept.
  - intros cfg rows st outs st' Hov Hrun.
    pose proof (basic_process_rows_ok P cfg rows st outs st' Hrun) as Heff.
    eauto using basic_rows_effect_kept.
Qed.

Lemma stored_file_is_kept_witness :
  exists st',
    Pro.process_rows (Demo.platform (Demo.net_up [Byte.x57; Byte.x02]))
      (Pro.Config true true false (3 # 2) "") None
      [Row (CInt 123) (CText "http://h/b.jpg")]
      (Pro.RunState [("123.jpg", [Byte.x52; Byte.x01])] ∅ Pro.stats0 [] [] [] [])
    = (Ok [DuplicateSkipped], st') /\
    dict_get "123.jpg" (Pro.downloaded_files st') = Some [Byte.x52; Byte.x01].
Proof.
  eexists. split; [reflexivity|].
  eapply (proj1 (stored_file_is_kept (Demo.platform (Demo.net_up [Byte.x57; Byte.x02]))
                   "123.jpg" [Byte.x52; Byte.x01])
            (Pro.Config true true false (3 # 2) "") None
            [Row (CInt 123) (CText "http://h/b.jpg")]
            (Pro.RunState [("123.jpg", [Byte.x52; Byte.x01])] ∅ Pro.stats0
               [] [] [] [])
            [DuplicateSkipped]).
  - reflexivity.
  - reflexivity.
  - reflexivity.
Defined.

(** X6. In the enhanced variant a row that ends as a duplicate has been
    fetched before it is dropped: between one and three requests were sent
    for it, its payload is thrown away, the bundle stays as it was, and the
    row is not followed by the pause between rows. A row can end this way
    only with overwriting disabled. *)
Theorem duplicate_row_was_fetched (P : Platform) cfg flt r st st' :
  Pro.process_row P cfg flt r st = (Ok DuplicateSkipped, st') ->
  Pro.overwrite cfg = false /\
  Pro.downloaded_files st' = Pro.downloaded_files st /\
  exists k,
    (1 <= k <= 3)%nat /\
    Pro.trace st'
    = (Pro.trace st ++ fetch_trace (cell_str P (row_link r)) k)%list.
Proof.
  intros Hrow.
  destruct (pro_process_row_effect P cfg flt r st) as (out & s & Hrow' & Heff).
  rewrite Hrow in Hrow'. injection Hrow' as <- <-.
  inversion Heff; subst. cbn [Pro.downloaded_files Pro.trace].
  split; [assumption|]. split; [reflexivity|]. by exists k.
Qed.

Lemma duplicate_row_was_fetched_witness :
  exists st',
    Pro.process_row (Demo.platform (Demo.net_up [Byte.x52; Byte.x02]))
      (Pro.Config true true false (3 # 2) "") None
      (Row (CInt 123) (CText "http://h/b.jpg"))
      (Pro.RunState [("123.jpg", [Byte.x52; Byte.x01])] ∅ Pro.stats0 [] [] [] [])
    = (Ok DuplicateSkipped, st') /\
    Pro.downloaded_files st' = [("123.jpg", [Byte.x52; Byte.x01])].
Proof.
  eexists. split; [reflexivity|].
  refine (proj1 (proj2 (duplicate_row_was_fetched
                          (Demo.platform (Demo.net_up [Byte.x52; Byte.x02]))
                          (Pro.Config true true false (3 # 2) "") None
                          (Row (CInt 123) (CText "http://h/b.jpg"))
                          (Pro.RunState [("123.jpg", [Byte.x52; Byte.x01])] ∅
                             Pro.stats0 [] [] [] [])
                          _ eq_refl))).
Defined.

(** ** Further properties: what is stored, and under which name *)

Ltac unfold_pro_row :=
  unfold Pro.process_row, Pro.try_body, Pro.bundle_add;
  unfold bind, ret, lift, gets, modify, try_catch, raise, Pro.bump, Pro.store_file,
    Pro.add_found, Pro.log_error, Pro.log_pdf, Pro.log_transparency, Pro.outside,
    sleep, modify.

(** X7. In the enhanced variant a link in which [.pdf] occurs anywhere,
    in any letter case, be it in a folder name or in the query, is skipped as
    a PDF whatever its extension is: no request is sent, the identifier is
    noted in [pdf_eans] and counted under [pdf_pominiete], and it counts
    as found for the allow-list. *)
Theorem pdf_anywhere_in_link (P : Platform) cfg flt r ean extension d f s e p tp t :
  Pro.accepted P flt r ean ->
  link_extension P (cell_str P (row_link r)) = Ok extension ->
  contains ".pdf" (str_lower P (cell_str P (row_link r))) = true ->
  Pro.process_row P cfg flt r (Pro.RunState d f s e p tp t)
  = (Ok UnsupportedFormat,
     Pro.RunState d ({[ean]} ∪ f) (Pro.incr Pro.PdfPominiete s) e
       (p ++ [ean])%list tp t).
Proof.
  intros (Hna & Hnorm & Hflt) Hext Hpdf. unfold_pro_row.
  rewrite Hna, Hnorm. cbn beta iota zeta. rewrite Hflt, Hext. cbn beta iota zeta.
  rewrite Hpdf, orb_true_r. reflexivity.
Qed.

Lemma pdf_anywhere_in_link_witness :
  Pro.process_row (Demo.platform Demo.net_down)
    (Pro.Config true true false (3 # 2) "") None
    (Row (CInt 123) (CText "http://h/Pliki.PDF/okladka.jpg"))
    (Pro.RunState [] ∅ Pro.stats0 [] [] [] [])
  = (Ok UnsupportedFormat,
     Pro.RunState [] ({["123"]} ∪ ∅) (Pro.incr Pro.PdfPominiete Pro.stats0) []
       ([] ++ ["123"])%list [] []).
Proof.
  apply (pdf_anywhere_in_link (Demo.platform Demo.net_down) _ None
           (Row (CInt 123) (CText "http://h/Pliki.PDF/okladka.jpg")) "123" ".jpg").
  - repeat split.
  - reflexivity.
  - reflexivity.
Defined.

(** X8. The enhanced variant does not check that what it fetched is an
    image. When the imaging library cannot open the payload, then for a
    link that is not WebP the payload is stored as it is, under the name
    of the row, and counted as a success; for a WebP link that is to be
    converted the row fails, and the record in the error list carries the
    message of the library after the words of [convert_webp_to_png]. *)
Theorem undecodable_payload (P : Platform) cfg flt r ean extension data t' err
    d f s e p tp t :
  Pro.accepted P flt r ean ->
  link_extension P (cell_str P (row_link r)) = Ok extension ->
  str_eqb extension ".pdf"
  || contains ".pdf" (str_lower P (cell_str P (row_link r))) = false ->
  Pro.pobierz_obraz P (cell_str P (row_link r)) t = (Ok data, t') ->
  Image_open P data = Raise err ->
  (str_eqb (resolve_extension extension) ".webp" = false ->
   dict_mem (ean ++ resolve_extension extension) d && negb (Pro.overwrite cfg)
   = false ->
   Pro.process_row P cfg flt r (Pro.RunState d f s e p tp t)
   = (Ok Added,
      Pro.RunState (dict_set (ean ++ resolve_extension extension) data d)
        ({[ean]} ∪ f) (Pro.incr Pro.Sukces s) e p tp
        (t' ++ [EvSleep (Pro.delay_between cfg)])%list)) /\
  (str_eqb (resolve_extension extension) ".webp" = true ->
   Pro.convert_webp cfg = true ->
   Pro.process_row P cfg flt r (Pro.RunState d f s e p tp t)
   = (Ok Failed,
      Pro.RunState d ({[ean]} ∪ f) (Pro.incr Pro.Blad s)
        (e ++ [error_record ean
                 (Exc Exception_ ("Błąd konwersji WebP: " ++ exc_msg err))])%list
        p tp (t' ++ [EvSleep (Pro.delay_between cfg)])%list)).
Proof.
  intros (Hna & Hnorm & Hflt) Hext Hpdf Hfetch Hopen.
  assert (Pro.add_white_background P data = Ok data) as Hwhite.
  { rewrite add_white_background_total. unfold Pro.white_background.
    by rewrite Hopen. }
  assert (forall b, Pro.convert_webp_to_png P data b
                    = Raise (Exc Exception_ ("Błąd konwersji WebP: " ++ exc_msg err)))
    as Hconv.
  { intros b. unfold Pro.convert_webp_to_png. by rewrite Hopen. }
  assert (forall x : bytes, bytes_eqb x x = true) as Hrefl.
  { induction x as [|b x IH]; [done|]. simpl. rewrite IH, andb_true_r.
    by destruct b. }
  split.
  - intros Hwebp Hnew. unfold_pro_row.
    rewrite Hna, Hnorm. cbn beta iota zeta. rewrite Hflt, Hext. cbn beta iota zeta.
    rewrite Hpdf. cbn beta iota zeta. rewrite Hfetch, Hwebp. cbn beta iota zeta.
    rewrite andb_false_r.
    destruct (Pro.handle_transparency cfg); cbn [andb negb];
      rewrite ?Hwhite; cbn beta iota zeta; rewrite ?Hrefl; cbn [negb];
      cbn [Pro.downloaded_files]; rewrite Hnew; reflexivity.
  - intros Hwebp Hcw. unfold_pro_row.
    rewrite Hna, Hnorm. cbn beta iota zeta. rewrite Hflt, Hext. cbn beta iota zeta.
    rewrite Hpdf. cbn beta iota zeta. rewrite Hfetch, Hwebp, Hcw. cbn beta iota zeta.
    rewrite andb_false_r. cbn [andb]. rewrite Hconv. reflexivity.
Qed.

Lemma undecodable_payload_witness :
  Pro.process_row (Demo.platform (Demo.net_up [Byte.x00; Byte.x01]))
    (Pro.Config true true false (3 # 2) "") None
    (Row (CInt 123) (CText "http://h/a.jpg"))
    (Pro.RunState [] ∅ Pro.stats0 [] [] [] [])
  = (Ok Added,
     Pro.RunState (dict_set ("123" ++ resolve_extension ".jpg") [Byte.x00; Byte.x01] [])
       ({["123"]} ∪ ∅) (Pro.incr Pro.Sukces Pro.stats0) [] [] []
       ([EvGet "http://h/a.jpg"] ++ [EvSleep (3 # 2)])%list).
Proof.
  refine (proj1 (undecodable_payload (Demo.platform (Demo.net_up [Byte.x00; Byte.x01]))
                   (Pro.Config true true false (3 # 2) "") None
                   (Row (CInt 123) (CText "http://h/a.jpg")) "123" ".jpg"
                   [Byte.x00; Byte.x01] [EvGet "http://h/a.jpg"]
                   (Exc OSError "cannot identify image file")
                   [] ∅ Pro.stats0 [] [] [] [] _ eq_refl eq_refl eq_refl eq_refl)
            eq_refl eq_refl).
  repeat split.
Defined.

(** X9. In the enhanced variant, when the conversion of WebP is switched
    off, a fetched WebP payload is stored as it is under the extension
    [.webp], whatever the setting for transparency and whatever the payload
    holds: the imaging library is not called, and neither [konwersje] nor
    [transparency_fixed] is touched. *)
Theorem webp_kept_without_conversion (P : Platform) cfg flt r ean extension data t'
    d f s e p tp t :
  Pro.accepted P flt r ean ->
  link_extension P (cell_str P (row_link r)) = Ok extension ->
  str_eqb extension ".pdf"
  || contains ".pdf" (str_lower P (cell_str P (row_link r))) = false ->
  resolve_extension extension = ".webp" ->
  Pro.convert_webp cfg = false ->
  Pro.pobierz_obraz P (cell_str P (row_link r)) t = (Ok data, t') ->
  dict_mem (ean ++ ".webp") d && negb (Pro.overwrite cfg) = false ->
  Pro.process_row P cfg flt r (Pro.RunState d f s e p tp t)
  = (Ok Added,
     Pro.RunState (dict_set (ean ++ ".webp") data d) ({[ean]} ∪ f)
       (Pro.incr Pro.Sukces s) e p tp
       (t' ++ [EvSleep (Pro.delay_between cfg)])%list).
Proof.
  intros (Hna & Hnorm & Hflt) Hext Hpdf Hwebp Hcw Hfetch Hnew. unfold_pro_row.
  rewrite Hna, Hnorm. cbn beta iota zeta. rewrite Hflt, Hext. cbn beta iota zeta.
  rewrite Hpdf. cbn beta iota zeta. rewrite Hfetch, Hwebp, Hcw. cbn beta iota zeta.
  rewrite andb_false_r. cbn [andb Pro.downloaded_files]. rewrite Hnew. reflexivity.
Qed.

Lemma webp_kept_without_conversion_witness :
  Pro.process_row (Demo.platform (Demo.net_up [Byte.x41; Byte.x01]))
    (Pro.Config true false false (3 # 2) "") None
    (Row (CInt 123) (CText "http://h/a.webp"))
    (Pro.RunState [] ∅ Pro.stats0 [] [] [] [])
  = (Ok Added,
     Pro.RunState (dict_set ("123" ++ ".webp") [Byte.x41; Byte.x01] [])
       ({["123"]} ∪ ∅) (Pro.incr Pro.Sukces Pro.stats0) [] [] []
       ([EvGet "http://h/a.webp"] ++ [EvSleep (3 # 2)])%list).
Proof.
  refine (webp_kept_without_conversion
            (Demo.platform (Demo.net_up [Byte.x41; Byte.x01]))
            (Pro.Config true false false (3 # 2) "") None
            (Row (CInt 123) (CText "http://h/a.webp")) "123" ".webp"
            [Byte.x41; Byte.x01] [EvGet "http://h/a.webp"]
            [] ∅ Pro.stats0 [] [] [] [] _ eq_refl eq_refl eq_refl eq_refl eq_refl
            eq_refl).
  repeat split.
Defined.

Lemma resolve_extension_stored (convert : bool) extension :
  str_in (if convert && str_eqb (resolve_extension extension) ".webp"
          then ".png" else resolve_extension extension)
    (stored_extensions convert) = true.
Proof.
  unfold resolve_extension, stored_extensions, DEFAULT_FORMAT.
  destruct (nonempty extension); cbn [negb orb];
    [|by destruct convert].
  destruct (str_in extension ALLOWED_FORMATS) eqn:Hin; cbn [negb];
    [|by destruct convert].
  destruct convert; cbn [andb]; [|exact Hin].
  destruct (str_eqb_spec extension ".webp") as [->|Hne]; [reflexivity|].
  unfold str_in, ALLOWED_FORMATS in *. cbn [existsb] in *.
  rewrite (proj2 (str_eqb_neq extension ".webp") Hne) in Hin.
  rewrite !orb_false_r in *. cbn [orb] in Hin.
  by rewrite !orb_assoc in *.
Qed.

Lemma pro_process_row_names (P : Platform) cfg flt r st :
  exists out st',
    Pro.process_row P cfg flt r st = (Ok out, st') /\
    (Pro.downloaded_files st' = Pro.downloaded_files st \/
     exists ean extension data,
       Pro.normalize_ean P (row_ean r) = Ok ean /\
       str_in extension (stored_extensions (Pro.convert_webp cfg)) = true /\
       Pro.downloaded_files st'
       = dict_set (ean ++ extension) data (Pro.downloaded_files st)).
Proof.
  destruct st as [d f s el p tp t].
  unfold_pro_row. rewrite normalize_ean_total.
  repeat (cbn beta iota zeta; rewrite ?add_white_background_total; exec_step).
  all: split_conditions; try congruence.
  all: eexists _, _; (split; [reflexivity|]); cbn [Pro.downloaded_files].
  all: try (left; reflexivity).
  all: right; eexists _, _, _; (split; [reflexivity|]); (split; [|reflexivity]).
  all: match goal with
       | |- str_in ".png" _ = _ =>
           match goal with
           | H : Pro.convert_webp _ = true |- _ => rewrite H; reflexivity
           end
       | |- str_in (resolve_extension ?x) (stored_extensions ?c) = _ =>
           pose proof (resolve_extension_stored c x) as Hs;
           match goal with
           | H : Pro.convert_webp _ && _ = false |- _ => rewrite H in Hs
           end; exact Hs
       end.
Qed.

Lemma basic_process_row_names (P : Platform) cfg r st :
  exists res st',
    Basic.process_row P cfg r st = (res, st') /\
    (Basic.folder st' = Basic.folder st \/
     exists ean extension data,
       Pro.normalize_ean P (row_ean r) = Ok ean /\
       str_in extension (stored_extensions (Basic.convert_webp cfg)) = true /\
       Basic.folder st' = dict_set (ean ++ extension) data (Basic.folder st)).
Proof.
  destruct st as [d s el t].
  destruct (basic_normalize_ean_cases P (row_ean r))
    as [[_ Hagree]|(_ & e & He & _)]; unfold_basic_row.
  2: { rewrite He. destruct (isna (row_link r) || isna (row_ean r));
       eexists _, _; (split; [reflexivity|]); by left. }
  rewrite Hagree, normalize_ean_total.
  repeat (cbn beta iota zeta; exec_step).
  all: split_conditions; try congruence.
  all: eexists _, _; (split; [reflexivity|]); cbn [Basic.folder].
  all: try (left; reflexivity).
  all: right; eexists _, _, _; (split; [reflexivity|]); (split; [|reflexivity]).
  all: match goal with
       | |- str_in ".png" _ = _ =>
           match goal with
           | H : Basic.convert_webp _ = true |- _ => rewrite H; reflexivity
           end
       | |- str_in (resolve_extension ?x) (stored_extensions ?c) = _ =>
           pose proof (resolve_extension_stored c x) as Hs;
           match goal with
           | H : Basic.convert_webp _ && _ = false |- _ => rewrite H in Hs
           end; exact Hs
       end.
Qed.

Lemma normalize_ean_clean (P : Platform) c ean :
  Pro.normalize_ean P c = Ok ean -> clean_identifier ean.
Proof.
  rewrite normalize_ean_total. intros [= <-].
  destruct (str_int_float P c); apply normalized_clean.
Qed.

Lemma dict_keys_set_elem {V} (k : str) (v : V) (d : dict V) x :
  x ∈ dict_keys (dict_set k v d) -> x = k \/ x ∈ dict_keys d.
Proof.
  pose proof (dict_keys_set k v d) as H. unfold dict_keys in *. rewrite H.
  destruct (dict_mem k d); [by right|].
  rewrite elem_of_app, list_elem_of_singleton. tauto.
Qed.

Lemma pro_process_rows_names (P : Platform) cfg flt (Q : str -> Prop) rows st :
  (forall name, well_named (stored_extensions (Pro.convert_webp cfg)) name -> Q name) ->
  Forall Q (dict_keys (Pro.downloaded_files st)) ->
  exists outs st',
    Pro.process_rows P cfg flt rows st = (Ok outs, st') /\
    Forall Q (dict_keys (Pro.downloaded_files st')).
Proof.
  intros HQ. revert st. induction rows as [|r rows IH]; intros st Hst.
  - by exists [], st.
  - destruct (pro_process_row_names P cfg flt r st) as (out & st1 & Hrow & Hfiles).
    destruct (IH st1) as (outs & st2 & Hrows & Hst2).
    + destruct Hfiles as [->|(ean & ext & data & Hnorm & Hext & ->)]; [done|].
      apply Forall_forall. intros x [->|Hx]%dict_keys_set_elem.
      * apply HQ. exists ean, ext. eauto using normalize_ean_clean.
      * by apply (proj1 (Forall_forall _ _) Hst).
    + exists (out :: outs), st2. split; [|done].
      cbn [Pro.process_rows]. unfold bind, ret. by rewrite Hrow, Hrows.
Qed.

Lemma basic_process_rows_names (P : Platform) cfg (Q : str -> Prop) rows st :
  (forall name, well_named (stored_extensions (Basic.convert_webp cfg)) name -> Q name) ->
  Forall Q (dict_keys (Basic.folder st)) ->
  exists res st',
    Basic.process_rows P cfg rows st = (res, st') /\
    Forall Q (dict_keys (Basic.folder st')).
Proof.
  intros HQ. revert st. induction rows as [|r rows IH]; intros st Hst.
  - by exists (Ok []), st.
  - destruct (basic_process_row_names P cfg r st) as (res & st1 & Hrow & Hfiles).
    assert (Forall Q (dict_keys (Basic.folder st1))) as Hst1.
    { destruct Hfiles as [->|(ean & ext & data & Hnorm & Hext & ->)]; [done|].
      apply Forall_forall. intros x [->|Hx]%dict_keys_set_elem.
      - apply HQ. exists ean, ext. eauto using normalize_ean_clean.
      - by apply (proj1 (Forall_forall _ _) Hst). }
    cbn [Basic.process_rows]. unfold bind, ret. rewrite Hrow.
    destruct res as [out|e]; [|by exists (Raise e), st1].
    destruct (IH st1 Hst1) as (res & st2 & Hrows & Hst2). rewrite Hrows.
    destruct res as [outs|e]; eexists _, st2; (split; [reflexivity|done]).
Qed.

(** X10. Every file a run stores is named by an identifier as the
    normalizer leaves it (stripped, without a space) followed by one of
    the allowed extensions, [.webp] not being among them when WebP images
    are converted. In the basic variant this holds, however the run ends,
    for every file of the folder that was not there before the run. *)
Theorem file_names_of_a_run (P : Platform) :
  (forall cfg rows t,
     exists outs res t',
       Pro.run P cfg rows t = Ok (outs, res, t') /\
       Forall (well_named (stored_extensions (Pro.convert_webp cfg)))
         (dict_keys (Pro.res_downloaded_files res))) /\
  (forall cfg rows files t res st',
     Basic.run P cfg rows files t = (res, st') ->
       Forall (fun name =>
                 name ∈ dict_keys files \/
                 well_named (stored_extensions (Basic.convert_webp cfg)) name)
         (dict_keys (Basic.folder st'))).
Proof.
  split.
  - intros cfg rows t. unfold Pro.run.
    destruct (make_filter_total P (Pro.ean_filter_text cfg)) as [flt ->].
    cbn [and_then].
    destruct (pro_process_rows_names P cfg flt
                (well_named (stored_extensions (Pro.convert_webp cfg)))
                rows (Pro.state0 t)) as (outs & st & -> & Hst);
      [done|apply Forall_nil_2|].
    by eexists _, _, _.
  - intros cfg rows files t res st'. unfold Basic.run.
    destruct (basic_process_rows_names P cfg
                (fun name =>
                   name ∈ dict_keys files \/
                   well_named (stored_extensions (Basic.convert_webp cfg)) name)
                rows (Basic.state0 files t)) as (res2 & st2 & -> & Hst).
    + by right.
    + apply Forall_forall. by left.
    + by intros [= <- <-].
Qed.

Lemma file_names_of_a_run_witness :
  exists res st',
    Basic.run (Demo.platform (Demo.net_up [Byte.x52; Byte.x01]))
      (Basic.Config false false)
      [Row (CInt 123) (CText "http://h/a.jpg");
       Row (CObject "Timestamp" "2024-05-01 00:00:00") (CText "http://h/b.jpg")] [] [] = (res, st') /\
    Forall (fun name =>
              name ∈ dict_keys ([] : dict bytes) \/
              well_named (stored_extensions false) name)
      (dict_keys (Basic.folder st')).
Proof.
  eexists _, _. split; [reflexivity|].
  exact (proj2 (file_names_of_a_run (Demo.platform (Demo.net_up [Byte.x52; Byte.x01])))
           (Basic.Config false false)
           [Row (CInt 123) (CText "http://h/a.jpg");
       Row (CObject "Timestamp" "2024-05-01 00:00:00") (CText "http://h/b.jpg")] [] [] _ _ eq_refl).
Defined.

(** ** Further properties: identifiers and the allow-list *)

Lemma of_ascii_inj (a b : String.string) : of_ascii a = of_ascii b -> a = b.
Proof.
  revert b. induction a as [|x a IH]; intros [|y b]; simpl; try done.
  intros [= Hxy Hab]. f_equal; [|by apply IH].
  unfold ord in Hxy. apply (f_equal ascii_of_N) in Hxy.
  by rewrite !ascii_N_embedding in Hxy.
Qed.

Lemma normalize_integer_cell (P : Platform) c N :
  cell_integer c N -> Pro.normalize_ean P c = Ok (str_of_int N).
Proof.
  intros [[-> HN]|(f & -> & Hf)]; [by apply normalize_small_int|].
  rewrite normalize_ean_total. unfold str_int_float. cbn [cell_float and_then].
  rewrite (int_of_integer_float f N Hf). cbn [and_then].
  by rewrite str_of_int_normal.
Qed.

(** X11. Cells that hold integers, as integers of at most 53 bits or as
    floats, are normalized to the decimal string of their value, so two of
    them get the same identifier exactly when they hold the same number:
    [123] and [123.0] share a file name, different numbers never do. *)
Theorem integer_identifiers (P : Platform) c1 c2 N1 N2 :
  cell_integer c1 N1 ->
  cell_integer c2 N2 ->
  Pro.normalize_ean P c1 = Ok (str_of_int N1) /\
  Basic.normalize_ean P c1 = Ok (str_of_int N1) /\
  (Pro.normalize_ean P c1 = Pro.normalize_ean P c2 <-> N1 = N2).
Proof.
  intros H1 H2.
  assert (float_accepts c1 = true) as Hc1
    by (by destruct H1 as [[-> _]|(f & -> & _)]).
  rewrite (normalize_ean_agree P c1 Hc1), (normalize_integer_cell P c1 N1 H1),
    (normalize_integer_cell P c2 N2 H2).
  split; [done|]. split; [done|]. split; [|by intros ->].
  intros [= H]. unfold str_of_int in H. by apply of_ascii_inj, (inj pretty) in H.
Qed.

Lemma integer_identifiers_witness :
  Pro.normalize_ean (Demo.platform Demo.net_down) (CInt 5901234123457)
  = Pro.normalize_ean (Demo.platform Demo.net_down)
      (CFloat (Finite 5901234123457 0)).
Proof.
  apply (integer_identifiers (Demo.platform Demo.net_down)
           (CInt 5901234123457) (CFloat (Finite 5901234123457 0))
           5901234123457 5901234123457).
  - left. split; [reflexivity|]. reflexivity.
  - right. eexists. split; [reflexivity|].
    eexists. split; [reflexivity|]. reflexivity.
  - reflexivity.
Defined.

Lemma str_int_float_decimal (P : Platform) c a :
  str_int_float P c = Ok a -> exists z, a = str_of_int z.
Proof.
  unfold str_int_float, and_then.
  destruct (cell_float P c) as [f|]; [|discriminate].
  destruct (int_of_float f) as [z|]; [|discriminate].
  intros [= <-]. by exists z.
Qed.

Lemma strip_decimal z : strip (str_of_int z) = str_of_int z.
Proof.
  pose proof (str_of_int_decimal z) as H. unfold strip.
  rewrite (lstrip_id _ _ decimal_char_not_space H).
  exact (rstrip_id _ _ decimal_char_not_space H).
Qed.

Lemma remove_spaces_fixed s : remove_spaces s = s <-> contains " " s = false.
Proof.
  split.
  - intros <-. apply remove_spaces_no_space.
  - induction s as [|a s IH]; [done|].
    rewrite contains_space_cons. intros [Ha Hs]%orb_false_elim.
    cbn [remove_spaces]. by rewrite Ha, (IH Hs).
Qed.

(** X12. A line of the filter field and a text cell with the same content
    lead to the same identifier exactly when the identifier of the line has
    no space in it: the filter keeps the spaces inside a text that is not a
    number, the rows lose them. *)
Theorem filter_line_and_cell (P : Platform) (s x : str) :
  Pro.parse_ean P s = Ok x ->
  (Pro.normalize_ean P (CText s) = Ok x <-> contains " " x = false).
Proof.
  rewrite normalize_ean_total.
  unfold Pro.parse_ean, try_except_only, try_except.
  destruct (str_int_float P (CText s)) as [a|e] eqn:E; cbn [and_then].
  - destruct (str_int_float_decimal P _ a E) as [z ->].
    rewrite strip_decimal. intros [= <-].
    assert (contains " " (str_of_int z) = false) as Hz
      by (rewrite <- (str_of_int_normal z); apply remove_spaces_no_space).
    by rewrite (proj2 (remove_spaces_fixed (str_of_int z)) Hz).
  - rewrite (str_int_float_classes P (CText _) e eq_refl E). intros [= <-].
    rewrite <- remove_spaces_fixed. unfold cell_str. split; congruence.
Qed.

Lemma filter_line_and_cell_witness :
  Pro.normalize_ean (Demo.platform Demo.net_down) (CText "AB-1") = Ok "AB-1".
Proof.
  apply (filter_line_and_cell (Demo.platform Demo.net_down) "AB-1" "AB-1").
  - reflexivity.
  - reflexivity.
Defined.

(** X13. An identifier of the allow-list that has a space in it is always
    reported as missing, whatever the table holds: no row can have it,
    since the identifiers of the rows have lost their spaces. *)
Theorem spaced_filter_entry_is_missing (P : Platform) cfg (F : gset str) x rows t :
  Pro.make_filter P (Pro.ean_filter_text cfg) = Ok (Some F) ->
  x ∈ F ->
  contains " " x = true ->
  exists outs res t' missing,
    Pro.run P cfg rows t = Ok (outs, res, t') /\
    Pro.res_missing_eans res = Some missing /\
    x ∈ missing.
Proof.
  intros Hflt Hx Hspace.
  assert (F <> ∅) as HF by set_solver.
  destruct (pro_run_effect P cfg rows t) as (flt & outs & st & Hflt' & Heff & ->).
  rewrite Hflt in Hflt'. injection Hflt' as <-.
  destruct (pro_rows_effect_filter P cfg F rows _ outs st HF Heff) as (_ & _ & Hf).
  eexists _, _, _, (F ∖ Pro.found_eans st). split; [reflexivity|].
  cbn [Pro.res_missing_eans]. split.
  - unfold Pro.missing_eans. by rewrite (truthy_nonempty F HF).
  - apply elem_of_difference. split; [exact Hx|].
    rewrite Hf. cbn [Pro.state0 Pro.found_eans].
    intros [[]%not_elem_of_empty|(_ & r & _ & _ & Hnorm)].
    apply normalize_ean_clean in Hnorm as [_ Hclean]. congruence.
Qed.

Lemma spaced_filter_entry_is_missing_witness :
  exists outs res t' missing,
    Pro.run (Demo.platform (Demo.net_up [Byte.x52; Byte.x01]))
      (Pro.Config true true false (3 # 2) "AB 1")
      [Row (CText "AB 1") (CText "http://h/a.jpg")] []
    = Ok (outs, res, t') /\
    Pro.res_missing_eans res = Some missing /\
    "AB 1" ∈ missing.
Proof.
  apply (spaced_filter_entry_is_missing
           (Demo.platform (Demo.net_up [Byte.x52; Byte.x01]))
           (Pro.Config true true false (3 # 2) "AB 1") (list_to_set ["AB 1"])).
  - reflexivity.
  - apply elem_of_list_to_set, list_elem_of_In. simpl. auto.
  - reflexivity.
Defined.

Lemma pretty_N_go_nonempty x (s : String.string) :
  s <> String.EmptyString -> pretty_N_go x s <> String.EmptyString.
Proof.
  revert s. induction (N.lt_wf_0 x) as [x _ IH]; intros s Hs.
  destruct (decide (x = 0)%N) as [->|Hx]; [exact Hs|].
  rewrite pretty_N_go_step by lia.
  apply IH; [apply N.div_lt; lia|]. discriminate.
Qed.

Lemma pretty_positive_nonempty (p : positive) : pretty p <> String.EmptyString.
Proof.
  unfold pretty, pretty_positive, pretty, pretty_N.
  case_decide; [discriminate|].
  rewrite pretty_N_go_step by lia. apply pretty_N_go_nonempty. discriminate.
Qed.

Lemma str_of_int_nonempty z : str_of_int z <> "".
Proof.
  unfold str_of_int, pretty, pretty_Z.
  destruct z as [|p|p]; [discriminate| |discriminate].
  pose proof (pretty_positive_nonempty p) as H.
  destruct (pretty p); [done|discriminate].
Qed.

Lemma lstrip_fixed s :
  (forall c, first_char s = Some c -> isspace c = false) -> lstrip s = s.
Proof.
  destruct s as [|a s]; [done|]. simpl. intros H. by rewrite (H a eq_refl).
Qed.

Lemma rstrip_fixed s :
  (forall c, last_char s = Some c -> isspace c = false) -> rstrip s = s.
Proof.
  induction s as [|a s IH]; [done|]. intros H.
  destruct s as [|b s].
  - simpl. by rewrite (H a eq_refl).
  - change (rstrip (String a (String b s)))
      with (match rstrip (String b s) with
            | EmptyString => if isspace a then EmptyString else String a EmptyString
            | r => String a r
            end).
    rewrite IH; [done|]. intros c Hc. apply H. exact Hc.
Qed.

Lemma strip_fixed s : no_outer_whitespace s -> strip s = s.
Proof.
  intros [H1 H2]. unfold strip. rewrite (lstrip_fixed s H1).
  exact (rstrip_fixed s H2).
Qed.

Lemma lstrip_blank_inv s :
  all_chars isspace (lstrip s) = true -> all_chars isspace s = true.
Proof.
  induction s as [|a s IH]; [done|]. simpl.
  destruct (isspace a) eqn:Ha; [exact IH|]. simpl. by rewrite Ha.
Qed.

Lemma rstrip_empty s : rstrip s = "" -> all_chars isspace s = true.
Proof.
  induction s as [|a s IH]; [done|]. simpl.
  destruct (rstrip s) as [|b r]; [|discriminate].
  destruct (isspace a); [|discriminate]. intros _. by rewrite IH.
Qed.

Lemma strip_empty s : strip s = "" <-> all_chars isspace s = true.
Proof.
  split; [|apply strip_blank].
  intros H. by apply lstrip_blank_inv, rstrip_empty.
Qed.

Lemma split_lines_blank s :
  Forall (fun line => all_chars isspace line = true) (split_lines s) ->
  all_chars isspace s = true.
Proof.
  induction s as [|a s IH]; [done|]. cbn [split_lines all_chars].
  destruct (char_eqb a newline) eqn:Ha.
  - apply char_eqb_eq in Ha as ->. intros [_ H]%Forall_cons. by rewrite IH.
  - destruct (split_lines s) as [|h t].
    + intros [H _]%Forall_cons. simpl in H.
      apply andb_prop in H as [-> _]. by rewrite IH.
    + intros [H Ht]%Forall_cons. simpl in H.
      apply andb_prop in H as [-> Hh]. rewrite IH; [done|]. by constructor.
Qed.

Lemma parse_ean_value (P : Platform) ean :
  Pro.parse_ean P ean =
    Ok (match str_int_float P (CText ean) with
        | Ok s => strip s
        | Raise _ => strip ean
        end).
Proof.
  unfold Pro.parse_ean, try_except_only, try_except.
  destruct (str_int_float P (CText ean)) as [a|e] eqn:E; [done|].
  cbn [and_then]. by rewrite (str_int_float_classes P (CText _) e eq_refl E).
Qed.

Lemma parse_ean_stripped (P : Platform) line x :
  strip line <> "" ->
  Pro.parse_ean P (strip line) = Ok x ->
  x <> "" /\ no_outer_whitespace x.
Proof.
  intros Hne. rewrite parse_ean_value. intros [= <-].
  split; [|destruct (str_int_float P _); apply strip_no_outer_whitespace].
  destruct (str_int_float P _) as [a|e] eqn:E.
  - destruct (str_int_float_decimal P _ a E) as [z ->].
    rewrite strip_decimal. apply str_of_int_nonempty.
  - by rewrite (strip_fixed _ (strip_no_outer_whitespace line)).
Qed.

Lemma nonempty_spec s : nonempty s = true <-> s <> "".
Proof. by destruct s. Qed.

Lemma parse_lines_spec (P : Platform) lines :
  exists l,
    Pro.parse_lines P lines = Ok l /\
    (forall x, x ∈ l -> x <> "" /\ no_outer_whitespace x) /\
    (l = [] <-> Forall (fun line => all_chars isspace line = true) lines).
Proof.
  induction lines as [|line rest (l & Hl & Hel & Hnil)].
  - exists []. split; [done|]. split; [by intros x ?%elem_of_nil|done].
  - cbn [Pro.parse_lines]. destruct (nonempty (strip line)) eqn:Hne.
    + apply nonempty_spec in Hne.
      destruct (Pro.parse_ean P (strip line)) as [x|e] eqn:Hx;
        [|by rewrite parse_ean_value in Hx].
      rewrite Hl. cbn [and_then]. exists (x :: l). split; [done|]. split.
      * intros y [->|Hy]%elem_of_cons; [|by apply Hel].
        exact (parse_ean_stripped P line x Hne Hx).
      * split; [discriminate|]. intros [H%strip_blank _]%Forall_cons. done.
    + exists l. split; [exact Hl|]. split; [exact Hel|].
      rewrite Hnil, Forall_cons. rewrite <- strip_empty.
      destruct (strip line); [naive_solver|discriminate].
Qed.

(** X14. The parser of the allow-list field accepts every text. Each
    identifier of the set it returns is non-empty and neither starts nor
    ends with white space, and the set is empty exactly when the text is
    empty or made of white space only. *)
Theorem allow_list_parser (P : Platform) text :
  exists F : gset str,
    Pro.parse_ean_list P text = Ok F /\
    (forall x, x ∈ F -> x <> "" /\ no_outer_whitespace x) /\
    (F = ∅ <-> all_chars isspace text = true).
Proof.
  unfold Pro.parse_ean_list. destruct (nonempty text) eqn:Hne.
  - cbn [negb].
    destruct (parse_lines_spec P (split_lines (strip text)))
      as (l & -> & Hel & Hnil).
    cbn [and_then]. exists (list_to_set l). split; [done|]. split.
    + intros x Hx%elem_of_list_to_set. by apply Hel.
    + split.
      * intros HF. assert (l = []) as Hl.
        { destruct l as [|x l]; [done|]. set_solver. }
        apply Hnil, split_lines_blank, strip_blank in Hl.
        rewrite (strip_fixed _ (strip_no_outer_whitespace text)) in Hl.
        by apply strip_empty.
      * intros Hb. rewrite (strip_blank text Hb) in Hnil.
        rewrite (proj2 Hnil); [done|]. by repeat constructor.
  - destruct text; [|discriminate]. by exists ∅.
Qed.

(** ** Further properties: a file name that comes again *)

Lemma dict_mem_set {V} (k k' : str) (v : V) (d : dict V) :
  dict_mem k' (dict_set k v d) = str_eqb k' k || dict_mem k' d.
Proof.
  unfold dict_mem. destruct (str_eqb_spec k' k) as [->|Hne].
  - by rewrite dict_get_set_eq.
  - rewrite dict_get_set_ne by congruence. done.
Qed.

Lemma basic_row_effect_grows (P : Platform) cfg r st out st' filename :
  Basic.row_effect P cfg r st out st' ->
  dict_mem filename (Basic.folder st) = true ->
  dict_mem filename (Basic.folder st') = true.
Proof.
  intros Heff Hmem. destruct Heff; cbn [Basic.folder] in *; try done.
  all: repeat match goal with
              | H : Basic.left_by_failure _ _ _ |- _ =>
                  destruct H as [->|(? & ? & ? & ->)]; [done|]
              end.
  all: rewrite dict_mem_set, Hmem; apply orb_true_r.
Qed.

Lemma basic_rows_effect_grows (P : Platform) cfg rows st outs st' filename :
  Basic.rows_effect P cfg rows st outs st' ->
  dict_mem filename (Basic.folder st) = true ->
  dict_mem filename (Basic.folder st') = true.
Proof. induction 1; eauto using basic_row_effect_grows. Qed.

Lemma row_settled_grows (P : Platform) cfg files files' r out :
  (forall filename, dict_mem filename files = true -> dict_mem filename files' = true) ->
  row_settled P cfg files r out -> row_settled P cfg files' r out.
Proof.
  intros Hsub. destruct out; cbn [row_settled]; try done.
  all: intros (Hna & filename & Hname & Hmem); split; [done|];
    exists filename; split; [done|]; by apply Hsub.
Qed.

Lemma basic_process_row_settled (P : Platform) cfg r st out st' :
  Basic.process_row P cfg r st = (Ok out, st') ->
  row_settled P cfg (Basic.folder st') r out.
Proof.
  destruct st as [d s el t].
  enough (exists res st2,
            Basic.process_row P cfg r (Basic.RunState d s el t) = (res, st2) /\
            match res with
            | Ok o => row_settled P cfg (Basic.folder st2) r o
            | Raise _ => True
            end) as (res & st2 & Hrow & Hset).
  { intros Hrun. rewrite Hrun in Hrow. by injection Hrow as <- <-. }
  unfold row_settled, basic_filename. unfold_basic_row.
  repeat (cbn beta iota zeta; exec_step).
  all: split_conditions; try congruence.
  all: eexists _, _; (split; [reflexivity|]); cbn [Basic.folder and_then].
  all: try done.
  all: split; [done|]; eexists; (split; [reflexivity|]).
  all: try match goal with
           | H : Basic.convert_webp _ && _ = false |- _ => rewrite H
           end.
  all: try match goal with
           | H1 : Basic.convert_webp _ = true, H2 : str_eqb _ _ = true |- _ =>
               rewrite H1, H2
           end.
  all: cbn [andb Basic.folder] in *.
  all: rewrite ?dict_mem_set, ?str_eqb_refl; done.
Qed.

Lemma basic_rows_settled (P : Platform) cfg rows st outs st1 :
  Basic.process_rows P cfg rows st = (Ok outs, st1) ->
  Forall2 (row_settled P cfg (Basic.folder st1)) rows outs.
Proof.
  revert st outs. induction rows as [|r rows IH]; intros st outs.
  - intros [= <- <-]. constructor.
  - cbn [Basic.process_rows]. unfold bind, ret.
    destruct (Basic.process_row P cfg r st) as [[out|e] st'] eqn:Hrow;
      [|discriminate].
    destruct (Basic.process_rows P cfg rows st') as [[outs'|e] st2] eqn:Hrows;
      [|discriminate].
    intros [= <- <-]. constructor; [|by apply (IH st')].
    eapply row_settled_grows;
      [|exact (basic_process_row_settled P cfg r st out st' Hrow)].
    intros filename.
    apply (basic_rows_effect_grows P cfg rows st' outs' st2).
    by apply basic_process_rows_ok.
Qed.

Lemma basic_filename_inv (P : Platform) cfg r filename :
  basic_filename P cfg r = Ok filename ->
  exists ean extension,
    Basic.normalize_ean P (row_ean r) = Ok ean /\
    link_extension P (cell_str P (row_link r)) = Ok extension /\
    filename = ean ++ (if Basic.convert_webp cfg
                          && str_eqb (resolve_extension extension) ".webp"
                       then ".png" else resolve_extension extension).
Proof.
  unfold basic_filename, and_then.
  destruct (Basic.normalize_ean P (row_ean r)) as [ean|]; [|discriminate].
  destruct (link_extension P (cell_str P (row_link r))) as [extension|];
    [|discriminate].
  intros [= <-]. by exists ean, extension.
Qed.

Lemma basic_row_existing (P : Platform) cfg r filename d s el t :
  Basic.overwrite cfg = false ->
  isna (row_link r) || isna (row_ean r) = false ->
  basic_filename P cfg r = Ok filename ->
  dict_mem filename d = true ->
  Basic.process_row P cfg r (Basic.RunState d s el t)
  = (Ok DuplicateSkipped, Basic.RunState d (Basic.incr Basic.Pominieto s) el t).
Proof.
  intros Hov Hna Hname Hmem.
  apply basic_filename_inv in Hname as (ean & extension & Hean & Hext & ->).
  unfold Basic.process_row, Basic.try_body.
  unfold bind, ret, lift, gets, modify, try_catch, raise, Basic.bump.
  rewrite Hna, Hean. cbn beta iota zeta. rewrite Hext. cbn beta iota zeta.
  cbn [Basic.folder]. rewrite Hmem, Hov. reflexivity.
Qed.

Lemma basic_process_rows_snoc (P : Platform) cfg rows r st outs st1 out st2 :
  Basic.process_rows P cfg rows st = (Ok outs, st1) ->
  Basic.process_row P cfg r st1 = (Ok out, st2) ->
  Basic.process_rows P cfg (rows ++ [r])%list st = (Ok (outs ++ [out])%list, st2).
Proof.
  revert st outs. induction rows as [|r' rows IH]; intros st outs Hrows Hrow.
  - injection Hrows as <- <-. cbn [app Basic.process_rows]. unfold bind, ret.
    by rewrite Hrow.
  - cbn [app Basic.process_rows] in *. unfold bind, ret in *.
    destruct (Basic.process_row P cfg r' st) as [[out'|e] st'] eqn:Hr';
      [|discriminate].
    destruct (Basic.process_rows P cfg rows st') as [[outs'|e] st''] eqn:Hrs;
      [|discriminate].
    injection Hrows as <- <-. by rewrite (IH st' outs' Hrs Hrow).
Qed.

(** X15. In the basic variant, with overwriting disabled, a file name that
    comes again costs nothing: a row that follows a row which was added or
    skipped, and that gets the same file name, is skipped before anything
    is fetched. It sends no request, takes no pause, leaves the folder and
    the error list as they are and is counted under [pominieto]. *)
Theorem repeated_name_is_not_fetched (P : Platform) cfg rows files t outs st1 i r0 r :
  Basic.overwrite cfg = false ->
  Basic.run P cfg rows files t = (Ok outs, st1) ->
  rows !! i = Some r0 ->
  outs !! i = Some Added \/ outs !! i = Some DuplicateSkipped ->
  isna (row_link r) || isna (row_ean r) = false ->
  basic_filename P cfg r = basic_filename P cfg r0 ->
  exists st2,
    Basic.run P cfg (rows ++ [r])%list files t = (Ok (outs ++ [DuplicateSkipped])%list, st2) /\
    Basic.folder st2 = Basic.folder st1 /\
    Basic.trace st2 = Basic.trace st1 /\
    Basic.errors_log st2 = Basic.errors_log st1 /\
    Basic.run_stats st2 = Basic.incr Basic.Pominieto (Basic.run_stats st1).
Proof.
  unfold Basic.run. intros Hov Hrun Hr0 Hout Hna Hsame.
  pose proof (basic_rows_settled P cfg rows _ outs st1 Hrun) as Hall.
  assert (exists filename,
            basic_filename P cfg r0 = Ok filename /\
            dict_mem filename (Basic.folder st1) = true) as (filename & Hname & Hmem).
  { destruct (Forall2_lookup_l _ _ _ _ _ Hall Hr0) as (out & Hout' & Hset).
    destruct Hout as [Hout|Hout]; rewrite Hout in Hout'; injection Hout' as <-;
      cbn [row_settled] in Hset; by destruct Hset as (_ & Hset). }
  rewrite Hname in Hsame. destruct st1 as [d s el t1].
  eexists. split.
  - eapply basic_process_rows_snoc; [exact Hrun|].
    by apply (basic_row_existing P cfg r filename).
  - done.
Qed.

Lemma repeated_name_is_not_fetched_witness :
  exists st1 st2,
    Basic.run (Demo.platform (Demo.net_up [Byte.x52; Byte.x01]))
      (Basic.Config true false)
      [Row (CInt 123) (CText "http://h/a.jpg")] [] []
    = (Ok [Added], st1) /\
    Basic.run (Demo.platform (Demo.net_up [Byte.x52; Byte.x01]))
      (Basic.Config true false)
      ([Row (CInt 123) (CText "http://h/a.jpg")]
       ++ [Row (CFloat (Finite 123 0)) (CText "http://other/b.jpg")])%list [] []
    = (Ok ([Added] ++ [DuplicateSkipped])%list, st2) /\
    Basic.trace st2 = Basic.trace st1.
Proof.
  eexists.
  destruct (repeated_name_is_not_fetched
              (Demo.platform (Demo.net_up [Byte.x52; Byte.x01]))
              (Basic.Config true false)
              [Row (CInt 123) (CText "http://h/a.jpg")] [] [] [Added] _ 0%nat
              (Row (CInt 123) (CText "http://h/a.jpg"))
              (Row (CFloat (Finite 123 0)) (CText "http://other/b.jpg"))
              eq_refl eq_refl eq_refl (or_introl eq_refl) eq_refl eq_refl)
    as (st2 & Hrun & _ & Htrace & _).
  exists st2. split; [reflexivity|]. split; [exact Hrun|exact Htrace].
Defined.

(** ** Further properties: the processing counters *)

Lemma pro_process_row_options (P : Platform) cfg flt r st :
  exists out st',
    Pro.process_row P cfg flt r st = (Ok out, st') /\
    (Pro.convert_webp cfg = false ->
     Pro.konwersje (Pro.run_stats st') = Pro.konwersje (Pro.run_stats st)) /\
    (Pro.handle_transparency cfg = false ->
     Pro.transparency_fixed (Pro.run_stats st')
     = Pro.transparency_fixed (Pro.run_stats st)).
Proof.
  destruct st as [d f s el p tp t].
  unfold_pro_row. rewrite normalize_ean_total.
  repeat (cbn beta iota zeta; rewrite ?add_white_background_total; exec_step).
  all: split_conditions; try congruence.
  all: eexists _, _; (split; [reflexivity|]); cbn [Pro.run_stats].
  all: split; intros Hoff; try congruence.
  all: destruct s; reflexivity.
Qed.

Lemma pro_process_rows_options (P : Platform) cfg flt rows st :
  exists outs st',
    Pro.process_rows P cfg flt rows st = (Ok outs, st') /\
    (Pro.convert_webp cfg = false ->
     Pro.konwersje (Pro.run_stats st') = Pro.konwersje (Pro.run_stats st)) /\
    (Pro.handle_transparency cfg = false ->
     Pro.transparency_fixed (Pro.run_stats st')
     = Pro.transparency_fixed (Pro.run_stats st)).
Proof.
  revert st. induction rows as [|r rows IH]; intros st.
  - by exists [], st.
  - destruct (pro_process_row_options P cfg flt r st) as (out & st1 & Hrow & Hc & Ht).
    destruct (IH st1) as (outs & st2 & Hrows & Hcs & Hts).
    exists (out :: outs), st2. split.
    { cbn [Pro.process_rows]. unfold bind, ret. by rewrite Hrow, Hrows. }
    split; intros Hoff; [rewrite Hcs, Hc|rewrite Hts, Ht]; done.
Qed.

Lemma basic_process_row_options (P : Platform) cfg r st :
  Basic.convert_webp cfg = false ->
  exists res st',
    Basic.process_row P cfg r st = (res, st') /\
    Basic.konwersje (Basic.run_stats st') = Basic.konwersje (Basic.run_stats st).
Proof.
  intros Hoff. destruct st as [d s el t]. unfold_basic_row.
  repeat (cbn beta iota zeta; exec_step).
  all: split_conditions; try congruence.
  all: eexists _, _; (split; [reflexivity|]); cbn [Basic.run_stats].
  all: destruct s; reflexivity.
Qed.

Lemma basic_process_rows_options (P : Platform) cfg rows st :
  Basic.convert_webp cfg = false ->
  exists res st',
    Basic.process_rows P cfg rows st = (res, st') /\
    Basic.konwersje (Basic.run_stats st') = Basic.konwersje (Basic.run_stats st).
Proof.
  intros Hoff. revert st. induction rows as [|r rows IH]; intros st.
  - by exists (Ok []), st.
  - destruct (basic_process_row_options P cfg r st Hoff) as (res & st1 & Hrow & Hc).
    cbn [Basic.process_rows]. unfold bind, ret. rewrite Hrow.
    destruct res as [out|e]; [|by exists (Raise e), st1].
    destruct (IH st1) as (res & st2 & Hrows & Hcs). rewrite Hrows.
    destruct res as [outs|e]; eexists _, st2;
      (split; [reflexivity|by rewrite Hcs, Hc]).
Qed.

Lemma pro_row_effect_processed (P : Platform) cfg flt r st out st' :
  Pro.row_effect P cfg flt r st out st' ->
  (Pro.konwersje (Pro.run_stats st) + Pro.transparency_fixed (Pro.run_stats st)
   <= Pro.sukces (Pro.run_stats st) + Pro.istnieje (Pro.run_stats st))%nat ->
  (Pro.konwersje (Pro.run_stats st') + Pro.transparency_fixed (Pro.run_stats st')
   <= Pro.sukces (Pro.run_stats st') + Pro.istnieje (Pro.run_stats st'))%nat.
Proof.
  destruct 1;
    repeat match goal with
           | H : Pro.processing_counted _ _ _ |- _ => inversion H; subst; clear H
           end;
    cbn [Pro.run_stats];
    repeat match goal with s : Pro.stats |- _ => destruct s end; unfold Pro.incr;
    cbn [Pro.konwersje Pro.transparency_fixed Pro.sukces Pro.istnieje]; lia.
Qed.

Lemma pro_rows_effect_processed (P : Platform) cfg flt rows st outs st' :
  Pro.rows_effect P cfg flt rows st outs st' ->
  (Pro.konwersje (Pro.run_stats st) + Pro.transparency_fixed (Pro.run_stats st)
   <= Pro.sukces (Pro.run_stats st) + Pro.istnieje (Pro.run_stats st))%nat ->
  (Pro.konwersje (Pro.run_stats st') + Pro.transparency_fixed (Pro.run_stats st')
   <= Pro.sukces (Pro.run_stats st') + Pro.istnieje (Pro.run_stats st'))%nat.
Proof. induction 1; eauto using pro_row_effect_processed. Qed.

Lemma basic_row_effect_processed (P : Platform) cfg r st out st' :
  Basic.row_effect P cfg r st out st' ->
  (Basic.konwersje (Basic.run_stats st)
   <= Basic.sukces (Basic.run_stats st) + Basic.blad (Basic.run_stats st))%nat ->
  (Basic.konwersje (Basic.run_stats st')
   <= Basic.sukces (Basic.run_stats st') + Basic.blad (Basic.run_stats st'))%nat.
Proof.
  destruct 1;
    repeat match goal with
           | H : Basic.processing_counted _ _ |- _ => inversion H; subst; clear H
           end;
    cbn [Basic.run_stats];
    repeat match goal with s : Basic.stats |- _ => destruct s end; unfold Basic.incr;
    cbn [Basic.konwersje Basic.sukces Basic.blad]; lia.
Qed.

Lemma basic_rows_effect_processed (P : Platform) cfg rows st outs st' :
  Basic.rows_effect P cfg rows st outs st' ->
  (Basic.konwersje (Basic.run_stats st)
   <= Basic.sukces (Basic.run_stats st) + Basic.blad (Basic.run_stats st))%nat ->
  (Basic.konwersje (Basic.run_stats st')
   <= Basic.sukces (Basic.run_stats st') + Basic.blad (Basic.run_stats st'))%nat.
Proof. induction 1; eauto using basic_row_effect_processed. Qed.

(** X16. The processing counters of a run. In the enhanced variant a row
    is given a white background or converted, never both, and only a row
    that ends as added or as a duplicate is counted for it, so
    [konwersje + transparency_fixed] is at most [sukces + istnieje]; with
    the conversion switched off [konwersje] stays 0, and with the handling
    of transparency switched off [transparency_fixed] stays 0 and no
    identifier is listed as processed. In the basic variant, however the
    run ends, [konwersje] is at most [sukces + blad], a converted image
    whose file cannot be written being counted as converted and as failed,
    and stays 0 with the conversion switched off. *)
Theorem processing_counters (P : Platform) :
  (forall cfg rows t,
     exists outs res t',
       Pro.run P cfg rows t = Ok (outs, res, t') /\
       (Pro.konwersje (Pro.res_stats res) + Pro.transparency_fixed (Pro.res_stats res)
        <= Pro.sukces (Pro.res_stats res) + Pro.istnieje (Pro.res_stats res))%nat /\
       (Pro.convert_webp cfg = false -> Pro.konwersje (Pro.res_stats res) = 0%nat) /\
       (Pro.handle_transparency cfg = false ->
        Pro.transparency_fixed (Pro.res_stats res) = 0%nat /\
        Pro.res_transparency_processed res = [])) /\
  (forall cfg rows files t res st',
     Basic.run P cfg rows files t = (res, st') ->
     (Basic.konwersje (Basic.run_stats st')
      <= Basic.sukces (Basic.run_stats st') + Basic.blad (Basic.run_stats st'))%nat /\
     (Basic.convert_webp cfg = false ->
      Basic.konwersje (Basic.run_stats st') = 0%nat)).
Proof.
  split.
  - intros cfg rows t.
    destruct (make_filter_total P (Pro.ean_filter_text cfg)) as [flt Hflt].
    destruct (pro_process_rows_effect P cfg flt rows (Pro.state0 t))
      as (outs & st & Hrun & Heff).
    destruct (pro_process_rows_options P cfg flt rows (Pro.state0 t))
      as (outs2 & st2 & Hrun2 & Hc & Ht).
    rewrite Hrun in Hrun2. injection Hrun2 as <- <-.
    unfold Pro.run. rewrite Hflt. cbn [and_then]. rewrite Hrun.
    eexists _, _, _. split; [reflexivity|].
    cbn [Pro.res_stats Pro.res_transparency_processed].
    split; [|split].
    + apply (pro_rows_effect_processed _ _ _ _ _ _ _ Heff). simpl. lia.
    + intros Hoff. by rewrite (Hc Hoff).
    + intros Hoff.
      assert (Pro.transparency_fixed (Pro.run_stats st) = 0%nat) as H0
        by (by rewrite (Ht Hoff)).
      split; [exact H0|].
      destruct (pro_rows_effect_logs _ _ _ _ _ _ _ Heff) as (_ & _ & Hlen);
        [done|].
      rewrite H0 in Hlen. by apply nil_length_inv.
  - intros cfg rows files t res st' Hrun.
    destruct (basic_run_effect P cfg rows files t res st' Hrun)
      as (processed & outs & Heff & _).
    split.
    + apply (basic_rows_effect_processed _ _ _ _ _ _ Heff). simpl. lia.
    + intros Hoff. unfold Basic.run in Hrun.
      destruct (basic_process_rows_options P cfg rows (Basic.state0 files t) Hoff)
        as (res2 & st2 & Hrun2 & Hc).
      rewrite Hrun in Hrun2. injection Hrun2 as <- <-. by rewrite Hc.
Qed.

Lemma processing_counters_witness :
  exists res st',
    Basic.run (Demo.platform (Demo.net_up [Byte.x52; Byte.x01]))
      (Basic.Config false false)
      [Row (CInt 123) (CText "http://h/a.jpg");
       Row (CObject "Timestamp" "2024-05-01 00:00:00") (CText "http://h/b.jpg")] [] [] = (res, st') /\
    Basic.konwersje (Basic.run_stats st') = 0%nat.
Proof.
  eexists _, _. split; [reflexivity|].
  exact (proj2 (proj2 (processing_counters (Demo.platform (Demo.net_up [Byte.x52; Byte.x01])))
                  (Basic.Config false false)
                  [Row (CInt 123) (CText "http://h/a.jpg");
       Row (CObject "Timestamp" "2024-05-01 00:00:00") (CText "http://h/b.jpg")] [] [] _ _ eq_refl) eq_refl).
Defined.
